(** * insert_services: the matching-and-upsert pipeline

    A shallow embedding of [platform_management/cli/insert_services.py]:
    the [SQLType] coercion layer, the field mapping, [insert_object],
    [update_object] and the batch entry point [add_objects], run against
    a relational model of the database session (tables, sequences,
    savepoints, commit and rollback).

    Python values are dynamically typed, so cells, parameters and stored
    columns are values of [pyval]; exceptions are explicit results and
    [except RuntimeError] catches exactly the classes that derive from
    [RuntimeError]. *)

From Stdlib Require Import ZArith NArith List String Ascii Lia Bool Sorted.
From Stdlib Require Import PrimFloat SpecFloat FloatOps.
From stdpp Require Import base option list gmap sorting.

Local Open Scope Z_scope.

(** ** Python strings

    A [str] is a sequence of Unicode code points; [len], slicing and the
    sort key [-len(s)] count code points, not bytes. *)

Definition pystr := list N.

(** Literals are written as UTF-8 text and decoded once. *)
Fixpoint utf8_decode (bs : list N) : pystr :=
  match bs with
  | [] => []
  | b0 :: r0 =>
      if (b0 <? 128)%N then b0 :: utf8_decode r0
      else match r0 with
           | [] => [b0]
           | b1 :: r1 =>
               if (b0 <? 224)%N
               then ((b0 - 192) * 64 + (b1 - 128))%N :: utf8_decode r1
               else match r1 with
                    | [] => [b0; b1]
                    | b2 :: r2 =>
                        if (b0 <? 240)%N
                        then ((b0 - 224) * 4096 + (b1 - 128) * 64 + (b2 - 128))%N
                               :: utf8_decode r2
                        else match r2 with
                             | [] => [b0; b1; b2]
                             | b3 :: r3 =>
                                 ((b0 - 240) * 262144 + (b1 - 128) * 4096
                                  + (b2 - 128) * 64 + (b3 - 128))%N
                                   :: utf8_decode r3
                             end
                    end
           end
  end.

Definition py (s : string) : pystr :=
  utf8_decode (map N_of_ascii (list_ascii_of_string s)).
Arguments py : simpl never.

Definition pystr_eqb (a b : pystr) : bool := bool_decide (a = b).

(** The double quote, for messages that quote a name. *)
Definition dq : pystr := [34%N].

(** [str.lower()].  CPython maps each code point through the Unicode
    tables; the blocks the source's literals and data live in are the
    simple ones: Basic Latin, Latin-1 Supplement, Greek and Cyrillic, where
    lowering is a fixed offset.  Code points of other blocks are left as
    they are. *)
Definition lower_cp (c : N) : N :=
  if ((65 <=? c) && (c <=? 90))%N then (c + 32)%N
  else if ((192 <=? c) && (c <=? 222) && negb (c =? 215))%N then (c + 32)%N
  else if ((913 <=? c) && (c <=? 939) && negb (c =? 930))%N then (c + 32)%N
  else if ((1024 <=? c) && (c <=? 1039))%N then (c + 80)%N
  else if ((1040 <=? c) && (c <=? 1071))%N then (c + 32)%N
  else c.

Definition str_lower (s : pystr) : pystr := map lower_cp s.

(** [s.startswith(p)] for a single [str] prefix. *)
Fixpoint is_prefix (p s : pystr) : bool :=
  match p, s with
  | [], _ => true
  | _ :: _, [] => false
  | a :: p', b :: s' => (a =? b)%N && is_prefix p' s'
  end.

(** [s.strip(chars)]: drop leading and trailing code points that occur in
    [chars]. *)
Definition cp_in (chars : pystr) (c : N) : bool := existsb (N.eqb c) chars.

Fixpoint lstrip (chars s : pystr) : pystr :=
  match s with
  | [] => []
  | c :: s' => if cp_in chars c then lstrip chars s' else s
  end.

Definition rstrip (chars s : pystr) : pystr := rev (lstrip chars (rev s)).

Definition str_strip (chars s : pystr) : pystr := rstrip chars (lstrip chars s).

(** [s.strip()] without argument strips white space: the ASCII controls
    9-13 and 28-31, the space, and the Unicode separators. *)
Definition whitespace : pystr :=
  [9; 10; 11; 12; 13; 28; 29; 30; 31; 32; 133; 160; 5760;
   8192; 8193; 8194; 8195; 8196; 8197; 8198; 8199; 8200; 8201; 8202;
   8232; 8233; 8239; 8287; 12288]%N.

(** [s.replace(c, "")] for a one-character [c]. *)
Definition str_remove (c : N) (s : pystr) : pystr :=
  filter (fun x => x <> c) s.

(** [s[n:]] *)
Definition str_from (n : nat) (s : pystr) : pystr := drop n s.

(** [str(n)] for an integer. *)
Fixpoint digits_of (fuel : nat) (n : N) (acc : pystr) : pystr :=
  match fuel with
  | O => acc
  | S fuel' =>
      let acc' := (48 + n mod 10)%N :: acc in
      if (n <? 10)%N then acc' else digits_of fuel' (n / 10)%N acc'
  end.

Definition str_of_Z (z : Z) : pystr :=
  let n := Z.abs_N z in
  let ds := digits_of (S (N.to_nat (N.log2 n))) n [] in
  if z <? 0 then 45%N :: ds else ds.

(** ** Exceptions *)

Inductive exn_class :=
| RuntimeError
| NotImplementedError   (* derives from RuntimeError *)
| RecursionError        (* derives from RuntimeError *)
| ValueError
| TypeError
| KeyError
| AttributeError
| AssertionError
| ZeroDivisionError
| OverflowError
| IndexError
| DatabaseError         (* psycopg2.Error and everything below it *)
| KeyboardInterrupt.    (* derives from BaseException only *)

#[global] Instance exn_class_eq_dec : EqDecision exn_class.
Proof. solve_decision. Defined.

Record exn := Exn { exn_cls : exn_class; exn_msg : pystr }.

(** [isinstance(e, RuntimeError)]: what [except RuntimeError] catches. *)
Definition is_RuntimeError (c : exn_class) : bool :=
  match c with
  | RuntimeError | NotImplementedError | RecursionError => true
  | _ => false
  end.

Inductive result (A : Type) :=
| Ret (a : A)
| Raise (e : exn).
Arguments Ret {A} a.
Arguments Raise {A} e.

Definition raised_class {A} (r : result A) : option exn_class :=
  match r with
  | Ret _ => None
  | Raise e => Some (exn_cls e)
  end.

(** ** Python values *)

(** [time.struct_time], the fields the source formats. *)
Record struct_time := StructTime {
  tm_year : Z; tm_mon : Z; tm_mday : Z; tm_hour : Z; tm_min : Z; tm_sec : Z
}.

Inductive pyval :=
| PyNone
| PyBool (b : bool)
| PyInt (n : Z)
| PyFloat (x : float)
| PyStr (s : pystr)
| PyTime (t : struct_time).

Definition is_str (v : pyval) : bool :=
  match v with PyStr _ => true | _ => false end.

(** [isinstance(v, int)]; [bool] is a subclass of [int]. *)
Definition is_int (v : pyval) : bool :=
  match v with PyInt _ | PyBool _ => true | _ => false end.

(** The exact value of a finite double [x] compared with an integer [z]
    (Python compares [int] and [float] exactly). *)
Definition float_eq_Z (x : float) (z : Z) : bool :=
  match Prim2SF x with
  | S754_zero _ => z =? 0
  | S754_finite s m e =>
      let v := if s then Z.neg m else Z.pos m in
      if 0 <=? e then z =? v * 2 ^ e else z * 2 ^ (- e) =? v
  | _ => false
  end.

Definition struct_time_eqb (a b : struct_time) : bool :=
  (tm_year a =? tm_year b) && (tm_mon a =? tm_mon b) && (tm_mday a =? tm_mday b)
  && (tm_hour a =? tm_hour b) && (tm_min a =? tm_min b) && (tm_sec a =? tm_sec b).

(** [a == b] *)
Definition py_eq (a b : pyval) : bool :=
  let num v := match v with
               | PyBool b => Some (Z.b2z b)
               | PyInt n => Some n
               | _ => None
               end in
  match a, b with
  | PyNone, PyNone => true
  | PyStr s, PyStr t => pystr_eqb s t
  | PyFloat x, PyFloat y => PrimFloat.eqb x y
  | PyFloat x, (PyInt _ | PyBool _) =>
      match num b with Some z => float_eq_Z x z | None => false end
  | (PyInt _ | PyBool _), PyFloat y =>
      match num a with Some z => float_eq_Z y z | None => false end
  | (PyInt _ | PyBool _), (PyInt _ | PyBool _) =>
      match num a, num b with Some x, Some y => x =? y | _, _ => false end
  | PyTime s, PyTime t => struct_time_eqb s t
  | _, _ => false
  end.

(** [a != b] *)
Definition py_ne (a b : pyval) : bool := negb (py_eq a b).

(** The guard shared by the coercion layer: [None], a value that differs
    from itself (NaN), or the empty string. *)
Definition is_null (v : pyval) : bool :=
  match v with
  | PyNone => true
  | PyStr s => pystr_eqb s []
  | _ => py_ne v v
  end.

(** [bool(v)] *)
Definition py_bool (v : pyval) : bool :=
  match v with
  | PyNone => false
  | PyBool b => b
  | PyInt n => negb (n =? 0)
  | PyFloat x => negb (PrimFloat.eqb x 0%float)
  | PyStr s => negb (pystr_eqb s [])
  | PyTime _ => true
  end.

(** ** What the Python runtime supplies

    Parsing a decimal literal into a double, [round(x, 6)] and
    [json.dumps] are library code of the interpreter; the development is
    parametric in them.  [json.dumps] raises [TypeError] on an object it
    cannot serialize (a set, bytes, a cell of a numpy type): [pyval] has
    no such value, so [json_dumps] is total here and nothing below is
    stated of a cast to [JSONB]. *)
Class PyRuntime := {
  float_of_str : pystr -> option float;   (* [float(s)]; [None]: ValueError *)
  round6 : float -> float;                (* [round(x, 6)] *)
  json_dumps : pyval -> pystr;            (* [json.dumps(v)] *)
}.

(** [float(n)] for an integer: rounded to nearest even, [OverflowError]
    beyond the range of a double. *)
Definition float_of_Z (n : Z) : result float :=
  match binary_normalize prec emax n 0 false with
  | S754_infinity _ => Raise (Exn OverflowError (py "int too large to convert to float"))
  | sf => Ret (SF2Prim sf)
  end.

(** [int(x)] for a double: truncation toward zero. *)
Definition int_of_float (x : float) : result Z :=
  match Prim2SF x with
  | S754_zero _ => Ret 0
  | S754_finite s m e =>
      let mag := if 0 <=? e then Z.pos m * 2 ^ e else Z.pos m / 2 ^ (- e) in
      Ret (if s then - mag else mag)
  | S754_infinity _ =>
      Raise (Exn OverflowError (py "cannot convert float infinity to integer"))
  | S754_nan => Raise (Exn ValueError (py "cannot convert float NaN to integer"))
  end.

Section Coercion.
Context `{RT : PyRuntime}.

(** [float(v)] *)
Definition py_float (v : pyval) : result float :=
  match v with
  | PyFloat x => Ret x
  | PyInt n => float_of_Z n
  | PyBool b => Ret (if b then 1%float else 0%float)
  | PyStr s =>
      match float_of_str s with
      | Some x => Ret x
      | None => Raise (Exn ValueError (py "could not convert string to float"))
      end
  | PyNone | PyTime _ =>
      Raise (Exn TypeError (py "float() argument must be a string or a real number"))
  end.

(** *** [SQLType] *)

Inductive SQLType := INT | VARCHAR | DOUBLE | BOOLEAN | SMALLINT | JSONB | TIMESTAMP.

#[global] Instance SQLType_eq_dec : EqDecision SQLType.
Proof. solve_decision. Defined.

(** [dict(pairs)]: a later pair overwrites an earlier one with the same key. *)
Definition dict_of_pairs {V} (l : list (pystr * V)) : gmap pystr V :=
  foldl (fun m kv => <[kv.1 := kv.2]> m) ∅ l.

Definition sqltype_mapping : gmap pystr SQLType :=
  dict_of_pairs
    (map (fun x => (py x, VARCHAR))
         ["character varying"; "varchar"; "str"; "string"; "text"; "varchar"; "строка"]%string
     ++ map (fun x => (py x, DOUBLE))
         ["double precision"; "float"; "double"; "вещественное"; "нецелое"]%string
     ++ map (fun x => (py x, INT)) ["integer"; "int"; "number"; "целое"]%string
     ++ map (fun x => (py x, SMALLINT)) ["smallint"; "малое"; "малое целое"]%string
     ++ map (fun x => (py x, JSONB)) ["jsonb"; "json"]%string
     ++ map (fun x => (py x, BOOLEAN)) ["boolean"; "булево"]%string
     ++ map (fun x => (py x, TIMESTAMP))
         ["timestamp"; "date"; "time"; "datetime"; "дата"; "время"]%string).

Definition from_name (name : pystr) : result SQLType :=
  match sqltype_mapping !! str_lower name with
  | Some t => Ret t
  | None =>
      if is_prefix (py "character varying") name then Ret VARCHAR
      else Raise (Exn ValueError
                    (py "Type " ++ name ++ py " cannot be mapped to SQLType"))
  end.

Definition sql_name (self : SQLType) : pystr :=
  match self with
  | INT => py "integer"
  | VARCHAR => py "character varying"
  | DOUBLE => py "double precision"
  | BOOLEAN => py "boolean"
  | SMALLINT => py "smallint"
  | JSONB => py "jsonb"
  | TIMESTAMP => py "timestamp with time zone"
  end.

(** [str(self)] *)
Definition sqltype_str (self : SQLType) : pystr :=
  py "SQLType." ++
  match self with
  | INT => py "INT" | VARCHAR => py "VARCHAR" | DOUBLE => py "DOUBLE"
  | BOOLEAN => py "BOOLEAN" | SMALLINT => py "SMALLINT" | JSONB => py "JSONB"
  | TIMESTAMP => py "TIMESTAMP"
  end.

(** The tokens boolean coercion reads as false. *)
Definition falsy_tokens : list pystr :=
  map py ["-"; "0"; "false"; "no"; "off"; "нет"; "ложь"]%string.

Definition str_in (s : pystr) (l : list pystr) : bool := existsb (pystr_eqb s) l.

(** [f"{n:02}"] *)
Definition fmt02 (n : Z) : pystr :=
  let s := str_of_Z n in
  if (length s <? 2)%nat then py "0" ++ s else s.

(** [f"{t.tm_year}-{t.tm_mon:02}-{t.tm_mday:02} {t.tm_hour:02}:{t.tm_min:02}:{t.tm_sec:02}"] *)
Definition format_time (t : struct_time) : pystr :=
  str_of_Z (tm_year t) ++ py "-" ++ fmt02 (tm_mon t) ++ py "-" ++ fmt02 (tm_mday t)
  ++ py " " ++ fmt02 (tm_hour t) ++ py ":" ++ fmt02 (tm_min t) ++ py ":" ++ fmt02 (tm_sec t).

(** The body of the [try] in [cast]: the [if] statements are tried in
    order and one that does not return falls through to the next. *)
Definition cast_try (self : SQLType) (value : pyval) : result pyval :=
  if bool_decide (self = INT) || bool_decide (self = SMALLINT) then
    match py_float value with
    | Ret x => match int_of_float x with
               | Ret n => Ret (PyInt n)
               | Raise e => Raise e
               end
    | Raise e => Raise e
    end
  else if bool_decide (self = DOUBLE) then
    match py_float value with
    | Ret x => Ret (PyFloat x)
    | Raise e => Raise e
    end
  else
    match (if bool_decide (self = BOOLEAN)
           then match value with
                | PyStr s =>
                    Some (PyBool (if str_in (str_lower s) falsy_tokens
                                  then false else py_bool value))
                | _ => None
                end
           else None) with
    | Some r => Ret r
    | None =>
        if bool_decide (self = JSONB) then Ret (PyStr (json_dumps value))
        else if bool_decide (self = TIMESTAMP) then
          match value with
          | PyTime t => Ret (PyStr (format_time t))
          | _ => Raise (Exn ValueError
                          (py "Only time.struct_time can be cast to SQL Timestamp"))
          end
        else Raise (Exn NotImplementedError
                      (py "Type " ++ sqltype_str self
                       ++ py " cast is not implemented for some reason"))
    end.

Definition cast (self : SQLType) (value : pyval) : result pyval :=
  if is_null value then Ret PyNone
  else match cast_try self value with
       | Raise e => if is_RuntimeError (exn_cls e) then Ret PyNone else Raise e
       | r => r
       end.

End Coercion.

(** ** Field mapping *)

Record InsertionMapping := {
  m_name : option pystr;
  m_opening_hours : option pystr;
  m_website : option pystr;
  m_phone : option pystr;
  m_address : option pystr;
  m_capacity : option pystr;
  m_osm_id : option pystr;
  m_latitude : option pystr;
  m_longitude : option pystr;
  m_geometry : option pystr;
}.

(** [fixer = lambda s: None if s in ("", "-") else s] *)
Definition fixer (s : option pystr) : option pystr :=
  match s with
  | Some t => if str_in t [py ""; py "-"] then None else Some t
  | None => None
  end.

Definition init_insertion_mapping
    (name opening_hours website phone address osm_id capacity
     latitude longitude geometry : option pystr) : InsertionMapping :=
  {| m_name := fixer name; m_opening_hours := fixer opening_hours;
     m_website := fixer website; m_phone := fixer phone;
     m_address := fixer address; m_capacity := fixer capacity;
     m_osm_id := fixer osm_id; m_latitude := fixer latitude;
     m_longitude := fixer longitude; m_geometry := fixer geometry |}.

(** ** Rows

    A row of the input table is a [pandas.Series]: labels to cells. *)

Definition Series := gmap pystr pyval.

(** [key in row]; a mapping slot that is [None] is no label of the row. *)
Definition in_row (key : option pystr) (row : Series) : bool :=
  match key with
  | Some k => bool_decide (is_Some (row !! k))
  | None => false
  end.

(** [row[key]] *)
Definition row_item (key : option pystr) (row : Series) : result pyval :=
  match key with
  | Some k => match row !! k with
              | Some v => Ret v
              | None => Raise (Exn KeyError k)
              end
  | None => Raise (Exn KeyError (py "None"))
  end.

(** [row.get(key, default)] *)
Definition row_get (key : option pystr) (default : pyval) (row : Series) : pyval :=
  match key with
  | Some k => match row !! k with Some v => v | None => default end
  | None => default
  end.

(** ** The database

    The spatial functions and [LIKE] are the server's. *)
Class PostGIS := {
  geometry : Type;
  ST_GeomFromGeoJSON : pyval -> option geometry;   (* [None]: the server raises *)
  ST_Centroid : geometry -> geometry;
  ST_GeometryType : geometry -> pystr;
  ST_X : geometry -> float;
  ST_Y : geometry -> float;
  ST_MakePoint : float -> float -> geometry;       (* x, y *)
  ST_Within : geometry -> geometry -> bool;
  ST_Intersects : geometry -> geometry -> bool;
  ST_CoveredBy : geometry -> geometry -> bool;
  ST_Distance : geometry -> geometry -> float;     (* on [::geography], metres *)
  sql_like : pystr -> pystr -> bool;               (* [text LIKE pattern] *)
}.

Section Database.
Context `{RT : PyRuntime} `{GIS : PostGIS}.

Record city := { city_id : Z; city_name : pystr }.

Record city_service_type := {
  st_id : Z; st_name : pystr; st_code : pystr; st_is_building : bool;
  st_capacity_min : pyval; st_capacity_max : pyval; st_city_function_id : Z
}.

Record city_function := { cf_id : Z; cf_city_infrastructure_type_id : Z }.

Record city_infrastructure_type := { it_id : Z }.

(** Rows of [municipalities] and of [administrative_units]. *)
Record territory := { territory_id : Z; territory_geometry : geometry }.

Record physical_object := {
  phys_id : Z; phys_osm_id : pyval; phys_geometry : geometry; phys_center : geometry;
  phys_city_id : Z; phys_municipality_id : option Z;
  phys_administrative_unit_id : option Z
}.

Record building := {
  build_id : Z; build_physical_object_id : Z; build_address : option pystr
}.

Definition jsonb := gmap pystr pyval.

Record functional_object := {
  fo_id : Z; fo_name : pyval; fo_opening_hours : pyval; fo_website : pyval;
  fo_phone : pyval; fo_city_service_type_id : Z; fo_city_function_id : Z;
  fo_city_infrastructure_type_id : Z; fo_capacity : pyval;
  fo_is_capacity_real : pyval; fo_physical_object_id : Z; fo_properties : jsonb;
  fo_updated_at : pyval
}.

Record tables := {
  cities : list city;
  city_service_types : list city_service_type;
  city_functions : list city_function;
  city_infrastructure_types : list city_infrastructure_type;
  municipalities : list territory;
  administrative_units : list territory;
  physical_objects : list physical_object;
  buildings : list building;
  functional_objects : list functional_object
}.

Definition with_physical_objects (l : list physical_object) (t : tables) : tables :=
  {| cities := cities t; city_service_types := city_service_types t;
     city_functions := city_functions t;
     city_infrastructure_types := city_infrastructure_types t;
     municipalities := municipalities t;
     administrative_units := administrative_units t;
     physical_objects := l; buildings := buildings t;
     functional_objects := functional_objects t |}.

Definition with_buildings (l : list building) (t : tables) : tables :=
  {| cities := cities t; city_service_types := city_service_types t;
     city_functions := city_functions t;
     city_infrastructure_types := city_infrastructure_types t;
     municipalities := municipalities t;
     administrative_units := administrative_units t;
     physical_objects := physical_objects t; buildings := l;
     functional_objects := functional_objects t |}.

Definition with_functional_objects (l : list functional_object) (t : tables) : tables :=
  {| cities := cities t; city_service_types := city_service_types t;
     city_functions := city_functions t;
     city_infrastructure_types := city_infrastructure_types t;
     municipalities := municipalities t;
     administrative_units := administrative_units t;
     physical_objects := physical_objects t; buildings := buildings t;
     functional_objects := l |}.

(** The session of one connection: what is committed, what the open
    transaction sees, the savepoints of the open transaction (latest
    first), and the sequences behind the [id] columns, which no rollback
    rewinds. *)
Record session := {
  committed : tables;
  current : tables;
  savepoints : list (pystr * tables);
  next_phys_id : Z;
  next_build_id : Z;
  next_fo_id : Z
}.

Definition with_current (t : tables) (s : session) : session :=
  {| committed := committed s; current := t; savepoints := savepoints s;
     next_phys_id := next_phys_id s; next_build_id := next_build_id s;
     next_fo_id := next_fo_id s |}.

(** [SAVEPOINT name] *)
Definition do_savepoint (name : pystr) (s : session) : session :=
  {| committed := committed s; current := current s;
     savepoints := (name, current s) :: savepoints s;
     next_phys_id := next_phys_id s; next_build_id := next_build_id s;
     next_fo_id := next_fo_id s |}.

(** [ROLLBACK TO name]: back to the latest savepoint of that name, which
    stays established; the ones set after it are gone. *)
Fixpoint rollback_to (name : pystr) (sps : list (pystr * tables))
  : option (tables * list (pystr * tables)) :=
  match sps with
  | [] => None
  | (n, t) :: rest =>
      if pystr_eqb n name then Some (t, sps) else rollback_to name rest
  end.

Definition do_rollback_to (name : pystr) (s : session) : result unit * session :=
  match rollback_to name (savepoints s) with
  | Some (t, sps) =>
      (Ret tt,
       {| committed := committed s; current := t; savepoints := sps;
          next_phys_id := next_phys_id s; next_build_id := next_build_id s;
          next_fo_id := next_fo_id s |})
  | None => (Raise (Exn DatabaseError (py "savepoint does not exist")), s)
  end.

(** [conn.commit()] *)
Definition do_commit (s : session) : session :=
  {| committed := current s; current := current s; savepoints := [];
     next_phys_id := next_phys_id s; next_build_id := next_build_id s;
     next_fo_id := next_fo_id s |}.

(** [conn.rollback()] *)
Definition do_rollback (s : session) : session :=
  {| committed := committed s; current := committed s; savepoints := [];
     next_phys_id := next_phys_id s; next_build_id := next_build_id s;
     next_fo_id := next_fo_id s |}.

(** *** Statements

    Every statement the source sends is named, so that a run leaves a
    trace of what was executed and in which order. *)

Inductive fo_column :=
| c_name | c_opening_hours | c_website | c_phone | c_capacity | c_is_capacity_real
| c_updated_at.

#[global] Instance fo_column_eq_dec : EqDecision fo_column.
Proof. solve_decision. Defined.

Inductive statement :=
| SelectCity
| SelectServiceType
| Savepoint
| RollbackTo
| Commit
| Rollback
| SelectCentroid
| SelectMunicipality
| SelectAdministrativeUnit
| SelectBuildingByAddress
| SelectFunctionalObject
| SelectBuildingByGeometry
| SelectBuildingByPoint
| SelectPhysicalObjectByGeometry
| SelectPhysicalObjectByPoint
| UpdatePhysicalObjectGeometry
| InsertPhysicalObject
| InsertBuilding
| SelectServiceTypeChain
| InsertFunctionalObject
| SelectFunctionalObjectFields
| UpdateFunctionalObject (id : Z) (set : list (fo_column * pyval))
| UpdateFunctionalObjectProperties.

(** *** The local variables of [add_objects] *)

Record locals := {
  i : nat;
  present : Z;
  added_to_address : Z;
  added_to_geom : Z;
  added_as_points : Z;
  skipped : Z;
  results : list pystr;
  functional_ids : list Z
}.

(** *** The world a run lives in

    Besides the session: what the environment does to the run.  Each
    statement takes the next entry of [faults]; an exception there is
    raised in place of the statement (a lost connection, an interrupt
    from the keyboard, a failure inside a library).  [randoms] feeds
    [random.randint], [localtime] is the clock and [stdin] the answer
    typed at the prompt. *)
Record world := {
  sess : session;
  faults : list (option exn);
  randoms : list Z;
  localtime : struct_time;
  stdin : pystr;
  trace : list statement;     (* latest first *)
  vars : locals
}.

Definition M (A : Type) : Type := world -> result A * world.

Definition ret {A} (a : A) : M A := fun w => (Ret a, w).

Definition raise {A} (e : exn) : M A := fun w => (Raise e, w).

Definition lift {A} (r : result A) : M A := fun w => (r, w).

Definition bind {A B} (m : M A) (k : A -> M B) : M B :=
  fun w => match m w with
           | (Ret a, w') => k a w'
           | (Raise e, w') => (Raise e, w')
           end.

(** [try: m  except RuntimeError as ex: handler(ex)] *)
Definition try_except_RuntimeError {A} (m : M A) (handler : exn -> M A) : M A :=
  fun w => match m w with
           | (Raise e, w') =>
               if is_RuntimeError (exn_cls e) then handler e w' else (Raise e, w')
           | r => r
           end.

Definition with_vars (f : locals -> locals) : M unit :=
  fun w => (Ret tt,
            {| sess := sess w; faults := faults w; randoms := randoms w;
               localtime := localtime w; stdin := stdin w; trace := trace w;
               vars := f (vars w) |}).

Definition get_vars : M locals := fun w => (Ret (vars w), w).

(** One statement on the connection. *)
Definition execute {A} (st : statement) (run : session -> result A * session) : M A :=
  fun w =>
    match faults w with
    | Some e :: rest =>
        (Raise e,
         {| sess := sess w; faults := rest; randoms := randoms w;
            localtime := localtime w; stdin := stdin w; trace := st :: trace w;
            vars := vars w |})
    | _ =>
        let '(r, s') := run (sess w) in
        (r,
         {| sess := s'; faults := tail (faults w); randoms := randoms w;
            localtime := localtime w; stdin := stdin w; trace := st :: trace w;
            vars := vars w |})
    end.

(** A statement that only reads. *)
Definition query {A} (st : statement) (q : tables -> result A) : M A :=
  execute st (fun s => (q (current s), s)).

(** [random.randint(a, b)] *)
Definition randint (a b : pyval) : M Z :=
  match a, b with
  | PyInt lo, PyInt hi =>
      if hi <? lo then raise (Exn ValueError (py "empty range for randrange()"))
      else fun w =>
             (Ret (lo + hd 0 (randoms w) mod (hi - lo + 1)),
              {| sess := sess w; faults := faults w; randoms := tail (randoms w);
                 localtime := localtime w; stdin := stdin w; trace := trace w;
                 vars := vars w |})
  | _, _ => raise (Exn TypeError (py "unsupported operand type(s)"))
  end.

End Database.

Arguments M : clear implicits.
Arguments M {_} A.

Declare Scope monad_scope.
Delimit Scope monad_scope with monad.
Notation "x <- m ;; k" := (bind m (fun x => k))
  (at level 20, m at level 99, k at level 200, only parsing) : monad_scope.
Notation "' pat <- m ;; k" := (bind m (fun x => match x with pat => k end))
  (at level 20, pat pattern, m at level 99, k at level 200, only parsing) : monad_scope.
Notation "m ;; k" := (bind m (fun _ => k))
  (at level 100, k at level 200, only parsing, right associativity) : monad_scope.

(** ** The upsert executor *)

Section Pipeline.
Context `{RT : PyRuntime} `{GIS : PostGIS}.
Local Open Scope monad_scope.

Definition previous_object : pystr := py "previous_object".

(** [cur.execute("SAVEPOINT previous_object")] *)
Definition SAVEPOINT_previous_object : M unit :=
  execute Savepoint (fun s => (Ret tt, do_savepoint previous_object s)).

(** [cur.execute("ROLLBACK TO previous_object")] *)
Definition ROLLBACK_TO_previous_object : M unit :=
  execute RollbackTo (do_rollback_to previous_object).

Definition conn_commit : M unit := execute Commit (fun s => (Ret tt, do_commit s)).

Definition conn_rollback : M unit := execute Rollback (fun s => (Ret tt, do_rollback s)).

(** Unpacking [cur.fetchone()] into variables; [None] cannot be unpacked. *)
Definition unpack {A} (fetched : option A) : result A :=
  match fetched with
  | Some a => Ret a
  | None => Raise (Exn TypeError (py "cannot unpack non-iterable NoneType object"))
  end.

Definition is_none (v : pyval) : bool :=
  match v with PyNone => true | _ => false end.

(** The dict comprehension both executors build: the extra properties
    that are present and non-empty in the row. *)
Definition functional_object_properties
    (row : Series) (properties_mapping : list (pystr * pystr)) : jsonb :=
  dict_of_pairs
    (omap (fun '(db_name, row_name) =>
             match row !! row_name with
             | Some v =>
                 if negb (is_none v) && py_ne v (PyStr (py ""))
                 then Some (db_name, v) else None
             | None => None
             end)
          properties_mapping).

(** The join of [insert_object]: capacity range and the ids of the
    service type, its city function and its infrastructure type. *)
Definition select_service_type_chain (service_type_id : Z) (t : tables)
  : option (pyval * pyval * (Z * Z * Z)) :=
  head
    (it ← city_infrastructure_types t;
     cf ← filter (fun cf => cf_city_infrastructure_type_id cf = it_id it)
                 (city_functions t);
     st ← filter (fun st => st_city_function_id st = cf_id cf
                            ∧ st_id st = service_type_id)
                 (city_service_types t);
     [(st_capacity_min st, st_capacity_max st, (st_id st, cf_id cf, it_id it))]).

(** [INSERT INTO functional_objects ... RETURNING id] *)
Definition insert_functional_object (fo : Z -> functional_object) (s : session)
  : result Z * session :=
  let id := next_fo_id s in
  (Ret id,
   {| committed := committed s;
      current := with_functional_objects
                   (functional_objects (current s) ++ [fo id]) (current s);
      savepoints := savepoints s;
      next_phys_id := next_phys_id s; next_build_id := next_build_id s;
      next_fo_id := id + 1 |}).

Definition insert_object
    (row : Series) (phys_id : Z) (name : pyval) (service_type_id : Z)
    (mapping : InsertionMapping) (properties_mapping : list (pystr * pystr))
    (commit : bool) : M Z :=
  fetched <- query SelectServiceTypeChain
               (fun t => Ret (select_service_type_chain service_type_id t)) ;;
  '(capacity_min, capacity_max, ids) <- lift (unpack fetched) ;;
  (* the assertion on [ids] cannot fail: an inner join returns no NULL id *)
  '(capacity, is_capacity_real) <-
    (if in_row (m_capacity mapping) row
        && is_int (row_get (m_capacity mapping) PyNone row)
     then ret (row_get (m_capacity mapping) PyNone row, true)
     else (c <- randint capacity_min capacity_max ;; ret (PyInt c, false))) ;;
  let properties := functional_object_properties row properties_mapping in
  functional_object_id <-
    execute InsertFunctionalObject
      (insert_functional_object (fun id =>
         {| fo_id := id; fo_name := name;
            fo_opening_hours := row_get (m_opening_hours mapping) PyNone row;
            fo_website := row_get (m_website mapping) PyNone row;
            fo_phone := row_get (m_phone mapping) PyNone row;
            fo_city_service_type_id := ids.1.1;
            fo_city_function_id := ids.1.2;
            fo_city_infrastructure_type_id := ids.2;
            fo_capacity := capacity;
            fo_is_capacity_real := PyBool is_capacity_real;
            fo_physical_object_id := phys_id;
            fo_properties := properties;
            fo_updated_at := PyNone |})) ;;
  (if commit then SAVEPOINT_previous_object else ret tt) ;;
  ret functional_object_id.

(** [UPDATE functional_objects SET col=%s, ... WHERE id = %s] *)
Definition set_column (cv : fo_column * pyval) (fo : functional_object)
  : functional_object :=
  let '(c, v) := cv in
  {| fo_id := fo_id fo;
     fo_name := if decide (c = c_name) then v else fo_name fo;
     fo_opening_hours := if decide (c = c_opening_hours) then v else fo_opening_hours fo;
     fo_website := if decide (c = c_website) then v else fo_website fo;
     fo_phone := if decide (c = c_phone) then v else fo_phone fo;
     fo_city_service_type_id := fo_city_service_type_id fo;
     fo_city_function_id := fo_city_function_id fo;
     fo_city_infrastructure_type_id := fo_city_infrastructure_type_id fo;
     fo_capacity := if decide (c = c_capacity) then v else fo_capacity fo;
     fo_is_capacity_real :=
       if decide (c = c_is_capacity_real) then v else fo_is_capacity_real fo;
     fo_physical_object_id := fo_physical_object_id fo;
     fo_properties := fo_properties fo;
     fo_updated_at := if decide (c = c_updated_at) then v else fo_updated_at fo |}.

Definition update_where_id (id : Z) (f : functional_object -> functional_object)
    (s : session) : result unit * session :=
  (Ret tt,
   with_current
     (with_functional_objects
        (map (fun fo => if fo_id fo =? id then f fo else fo)
             (functional_objects (current s)))
        (current s))
     s).

(** [UPDATE functional_objects SET properties = properties || %s::jsonb] *)
Definition merge_properties (new : jsonb) (fo : functional_object) : functional_object :=
  {| fo_id := fo_id fo; fo_name := fo_name fo;
     fo_opening_hours := fo_opening_hours fo; fo_website := fo_website fo;
     fo_phone := fo_phone fo;
     fo_city_service_type_id := fo_city_service_type_id fo;
     fo_city_function_id := fo_city_function_id fo;
     fo_city_infrastructure_type_id := fo_city_infrastructure_type_id fo;
     fo_capacity := fo_capacity fo; fo_is_capacity_real := fo_is_capacity_real fo;
     fo_physical_object_id := fo_physical_object_id fo;
     fo_properties := new ∪ fo_properties fo;
     fo_updated_at := fo_updated_at fo |}.

(** [a == b] on two property documents. *)
Definition jsonb_eq (a b : jsonb) : bool :=
  bool_decide (dom a = dom b)
  && forallb (fun kv => match b !! kv.1 with
                        | Some v => py_eq kv.2 v
                        | None => false
                        end)
             (map_to_list a).

(** The candidate changes of [update_object]: column, stored value, new
    value, in the order of the source's tuple. *)
Definition candidates (res : list pyval) (row : Series) (name : pyval)
    (mapping : InsertionMapping) : list (fo_column * pyval * pyval) :=
  zip (zip [c_name; c_opening_hours; c_website; c_phone; c_capacity;
            c_is_capacity_real] res)
      [name;
       row_get (m_opening_hours mapping) PyNone row;
       row_get (m_website mapping) PyNone row;
       row_get (m_phone mapping) PyNone row;
       row_get (m_capacity mapping) PyNone row;
       PyBool (in_row (m_capacity mapping) row)].

(** [lambda c_v_nw: c_v_nw[1] != c_v_nw[2] and c_v_nw[2] is not None and c_v_nw[2] != ""] *)
Definition changed (c_v_nw : fo_column * pyval * pyval) : bool :=
  py_ne c_v_nw.1.2 c_v_nw.2 && negb (is_none c_v_nw.2)
  && py_ne c_v_nw.2 (PyStr (py "")).

(** The list [change] as it stands when the [UPDATE] is built. *)
Definition change_list (res : list pyval) (row : Series) (name : pyval)
    (mapping : InsertionMapping) (current_time : pystr)
  : list (fo_column * pyval * pyval) :=
  let change := List.filter changed (candidates res row name mapping) in
  let change :=
    if py_bool (List.last res PyNone) && negb (in_row (m_capacity mapping) row)
    then take (length change - 2) change      (* change[:-2] *)
    else change in
  change ++ [(c_updated_at, PyStr (py ""), PyStr current_time)].

Definition update_object
    (row : Series) (functional_object_id : Z) (name : pyval)
    (mapping : InsertionMapping) (properties_mapping : list (pystr * pystr))
    (commit : bool) : M Z :=
  fetched <- query SelectFunctionalObjectFields
               (fun t => Ret (List.find (fun fo => fo_id fo =? functional_object_id)
                                        (functional_objects t))) ;;
  fo <- lift (unpack fetched) ;;
  let res := [fo_name fo; fo_opening_hours fo; fo_website fo; fo_phone fo;
              fo_capacity fo; fo_is_capacity_real fo] in
  let db_properties := fo_properties fo in
  t <- (fun w => (Ret (localtime w), w)) ;;
  let change := change_list res row name mapping (format_time t) in
  let set := map (fun x => (x.1.1, x.2)) change in
  execute (UpdateFunctionalObject functional_object_id set)
    (update_where_id functional_object_id (fun fo => foldl (flip set_column) fo set)) ;;
  let properties := functional_object_properties row properties_mapping in
  (if negb (jsonb_eq db_properties properties)
   then execute UpdateFunctionalObjectProperties
          (update_where_id functional_object_id (merge_properties properties))
   else ret tt) ;;
  (if commit then SAVEPOINT_previous_object else ret tt) ;;
  ret functional_object_id.

(** ** The queries of the row matcher

    [LIMIT 1] without [ORDER BY] returns some matching row; the model
    takes the first one in stored order, and the theorems below use only
    that the row returned satisfies the [WHERE] clause. *)


Definition select_city (name : pystr) (t : tables) : option Z :=
  city_id <$> List.find (fun c => pystr_eqb (city_name c) name) (cities t).

Definition select_service_type (service : pystr) (t : tables) : option (Z * bool) :=
  (fun st => (st_id st, st_is_building st))
    <$> List.find (fun st => pystr_eqb (st_name st) service
                             || pystr_eqb (st_code st) service)
                  (city_service_types t).

(** Geometry type and coordinates of the centroid of the row's blob. *)
Definition select_centroid (blob : pyval) : result (pystr * float * float) :=
  match ST_GeomFromGeoJSON blob with
  | Some g =>
      let tmp := ST_Centroid g in
      Ret (ST_GeometryType tmp, ST_Y tmp, ST_X tmp)
  | None => Raise (Exn DatabaseError (py "invalid GeoJSON representation"))
  end.

(** [SELECT id FROM municipalities WHERE ST_Within(point, geometry)], read
    as [cur.fetchone()[0] if cur.rowcount > 0 else None]; the same over
    [administrative_units]. *)
Definition select_territory (l : list territory) (longitude latitude : float)
  : option Z :=
  territory_id
    <$> List.find (fun m => ST_Within (ST_MakePoint longitude latitude)
                                      (territory_geometry m)) l.

(** [physical_objects phys JOIN buildings build ON build.physical_object_id = phys.id] *)
Definition phys_join_build (t : tables) : list (physical_object * building) :=
  phys ← physical_objects t;
  build ← filter (fun b => build_physical_object_id b = phys_id phys) (buildings t);
  [(phys, build)].

(** The [WHERE] clause of the lookup by address: same city, stored address
    [LIKE '%' || address], centre less than 100 m from the row's point. *)
Definition address_match (city : Z) (address : pystr) (longitude latitude : float)
    (pb : physical_object * building) : bool :=
  (phys_city_id pb.1 =? city)
  && match build_address pb.2 with
     | Some stored => sql_like stored (py "%" ++ address)
     | None => false
     end
  && PrimFloat.ltb (ST_Distance (phys_center pb.1) (ST_MakePoint longitude latitude))
                   100%float.

Definition select_building_by_address (city : Z) (address : pystr)
    (longitude latitude : float) (t : tables) : option (Z * Z) :=
  (fun pb => (phys_id pb.1, build_id pb.2))
    <$> List.find (address_match city address longitude latitude) (phys_join_build t).

(** The de-duplication query.  The [name] column is text: a parameter
    that is not a string makes the server reject the comparison. *)
Definition select_functional_object (phys service_type_id : Z) (name : pyval)
    (t : tables) : result (option Z) :=
  match name with
  | PyStr _ =>
      Ret (fo_id <$> List.find
             (fun f => (fo_physical_object_id f =? phys)
                       && (fo_city_service_type_id f =? service_type_id)
                       && py_eq (fo_name f) name)
             (functional_objects t))
  | _ => Raise (Exn DatabaseError (py "operator does not exist"))
  end.

(** The optional [AND municipality_id = %s] and [AND administrative_unit_id = %s]. *)
Definition in_territories (municipality_id administrative_unit_id : option Z)
    (phys : physical_object) : bool :=
  match municipality_id with
  | Some m => bool_decide (phys_municipality_id phys = Some m)
  | None => true
  end
  && match administrative_unit_id with
     | Some a => bool_decide (phys_administrative_unit_id phys = Some a)
     | None => true
     end.

Definition select_building_by_geometry (city : Z)
    (municipality_id administrative_unit_id : option Z) (blob : pyval) (t : tables)
  : result (option (pystr * Z * Z * option pystr)) :=
  match ST_GeomFromGeoJSON blob with
  | Some g =>
      Ret ((fun pb => (ST_GeometryType (phys_geometry pb.1), phys_id pb.1,
                       build_id pb.2, build_address pb.2))
             <$> List.find
                   (fun pb => (phys_city_id pb.1 =? city)
                              && in_territories municipality_id
                                   administrative_unit_id pb.1
                              && ST_Intersects g (phys_geometry pb.1))
                   (phys_join_build t))
  | None => Raise (Exn DatabaseError (py "invalid GeoJSON representation"))
  end.

(** [(SELECT EXISTS (SELECT 1 FROM buildings where physical_object_id = phys.id)) = false] *)
Definition no_building (t : tables) (phys : physical_object) : bool :=
  negb (existsb (fun b => build_physical_object_id b =? phys_id phys) (buildings t)).

Definition select_physical_object_by_geometry (city : Z)
    (municipality_id administrative_unit_id : option Z) (blob : pyval) (t : tables)
  : result (option (pystr * Z)) :=
  match ST_GeomFromGeoJSON blob with
  | Some g =>
      Ret ((fun phys => (ST_GeometryType (phys_geometry phys), phys_id phys))
             <$> List.find
                   (fun phys => (phys_city_id phys =? city)
                                && no_building t phys
                                && in_territories municipality_id
                                     administrative_unit_id phys
                                && ST_CoveredBy g (phys_geometry phys))
                   (physical_objects t))
  | None => Raise (Exn DatabaseError (py "invalid GeoJSON representation"))
  end.

(** A stored point within 0.0001 degrees of the row's point in both
    coordinates, or a geometry that intersects the row's point.  The
    constants are the doubles nearest to 0.0001. *)
Definition point_match (longitude latitude : float) (g : geometry) : bool :=
  pystr_eqb (ST_GeometryType g) (py "ST_Point")
  && PrimFloat.ltb (abs (ST_X g - longitude)) 0x1.a36e2eb1c432dp-14%float
  && PrimFloat.ltb (abs (ST_Y g - latitude)) 0x1.a36e2eb1c432dp-14%float
  || ST_Intersects (ST_MakePoint longitude latitude) g.

Definition select_physical_object_by_point (city : Z)
    (municipality_id administrative_unit_id : option Z)
    (longitude latitude : float) (t : tables) : option (pystr * Z) :=
  (fun phys => (ST_GeometryType (phys_geometry phys), phys_id phys))
    <$> List.find
          (fun phys => (phys_city_id phys =? city)
                       && no_building t phys
                       && in_territories municipality_id administrative_unit_id phys
                       && point_match longitude latitude (phys_geometry phys))
          (physical_objects t).

(** [INSERT INTO physical_objects ... RETURNING id] *)
Definition insert_physical_object_row (osm : pyval) (geom center : geometry)
    (city : Z) (municipality_id administrative_unit_id : option Z) (s : session)
  : result Z * session :=
  let id := next_phys_id s in
  (Ret id,
   {| committed := committed s;
      current := with_physical_objects
                   (physical_objects (current s)
                    ++ [{| phys_id := id; phys_osm_id := osm; phys_geometry := geom;
                           phys_center := center; phys_city_id := city;
                           phys_municipality_id := municipality_id;
                           phys_administrative_unit_id := administrative_unit_id |}])
                   (current s);
      savepoints := savepoints s;
      next_phys_id := id + 1; next_build_id := next_build_id s;
      next_fo_id := next_fo_id s |}).

(** [INSERT INTO buildings ... RETURNING id] *)
Definition insert_building_row (phys : Z) (address : option pystr) (s : session)
  : result Z * session :=
  let id := next_build_id s in
  (Ret id,
   {| committed := committed s;
      current := with_buildings
                   (buildings (current s)
                    ++ [{| build_id := id; build_physical_object_id := phys;
                           build_address := address |}])
                   (current s);
      savepoints := savepoints s;
      next_phys_id := next_phys_id s; next_build_id := id + 1;
      next_fo_id := next_fo_id s |}).

(** ** The row matcher and the batch orchestrator: [add_objects] *)

Definition set_i (n : nat) (v : locals) : locals :=
  {| i := n; present := present v; added_to_address := added_to_address v;
     added_to_geom := added_to_geom v; added_as_points := added_as_points v;
     skipped := skipped v; results := results v;
     functional_ids := functional_ids v |}.

Definition with_results (f : list pystr -> list pystr) (v : locals) : locals :=
  {| i := i v; present := present v; added_to_address := added_to_address v;
     added_to_geom := added_to_geom v; added_as_points := added_as_points v;
     skipped := skipped v; results := f (results v);
     functional_ids := functional_ids v |}.

(** [results[i] = msg] *)
Definition set_result (msg : pystr) (v : locals) : locals :=
  with_results (fun r => <[i v := msg]> r) v.

(** [results[i] += msg] *)
Definition append_result (msg : pystr) (v : locals) : locals :=
  with_results (alter (fun r => r ++ msg) (i v)) v.

(** [functional_ids[i] = id] *)
Definition set_functional_id (id : Z) (v : locals) : locals :=
  {| i := i v; present := present v; added_to_address := added_to_address v;
     added_to_geom := added_to_geom v; added_as_points := added_as_points v;
     skipped := skipped v; results := results v;
     functional_ids := <[i v := id]> (functional_ids v) |}.

Definition inc_present (v : locals) : locals :=
  {| i := i v; present := present v + 1; added_to_address := added_to_address v;
     added_to_geom := added_to_geom v; added_as_points := added_as_points v;
     skipped := skipped v; results := results v;
     functional_ids := functional_ids v |}.

Definition inc_added_to_address (v : locals) : locals :=
  {| i := i v; present := present v; added_to_address := added_to_address v + 1;
     added_to_geom := added_to_geom v; added_as_points := added_as_points v;
     skipped := skipped v; results := results v;
     functional_ids := functional_ids v |}.

Definition inc_added_to_geom (v : locals) : locals :=
  {| i := i v; present := present v; added_to_address := added_to_address v;
     added_to_geom := added_to_geom v + 1; added_as_points := added_as_points v;
     skipped := skipped v; results := results v;
     functional_ids := functional_ids v |}.

Definition inc_added_as_points (v : locals) : locals :=
  {| i := i v; present := present v; added_to_address := added_to_address v;
     added_to_geom := added_to_geom v; added_as_points := added_as_points v + 1;
     skipped := skipped v; results := results v;
     functional_ids := functional_ids v |}.

Definition inc_skipped (v : locals) : locals :=
  {| i := i v; present := present v; added_to_address := added_to_address v;
     added_to_geom := added_to_geom v; added_as_points := added_as_points v;
     skipped := skipped v + 1; results := results v;
     functional_ids := functional_ids v |}.

(** [str(x)] of an optional string, as an f-string prints it. *)
Definition str_of_option (x : option pystr) : pystr :=
  match x with Some s => s | None => py "None" end.

(** The argument of [str.startswith]: a [str], a tuple of [str], or
    anything else, which is a [TypeError]. *)
Inductive startswith_arg :=
| a_str (p : pystr)
| a_tuple (ps : list pystr)
| a_list (ps : list pystr).

Definition startswith (s : pystr) (arg : startswith_arg) : result bool :=
  match arg with
  | a_str p => Ret (is_prefix p s)
  | a_tuple ps => Ret (existsb (fun p => is_prefix p s) ps)
  | a_list _ =>
      Raise (Exn TypeError
               (py "startswith first arg must be str or a tuple of str, not list"))
  end.

(** [sorted(address_prefixes, key=lambda s: -len(s))]: stable, longest first. *)
Fixpoint insert_by_length (x : pystr) (l : list pystr) : list pystr :=
  match l with
  | [] => [x]
  | y :: l' =>
      if (length x <? length y)%nat then y :: insert_by_length x l' else x :: l
  end.

Definition sorted_by_length (l : list pystr) : list pystr :=
  foldr insert_by_length [] l.

(** What the container lookup of a row comes to. *)
Inductive lookup :=
| Updated                   (* [update_object] was called, then [continue] *)
| Container (phys_id : Z)   (* insert into the container that was found *)
| NoContainer.              (* [insert_physical_object = True] *)

Section Row.
Variables (service_type : pystr) (mapping : InsertionMapping)
          (properties_mapping : list (pystr * pystr))
          (address_prefixes : list pystr) (new_prefix : pystr) (commit : bool)
          (city_id service_type_id : Z) (is_service_building : bool).

Definition rollback_row : M unit :=
  if commit then ROLLBACK_TO_previous_object else conn_rollback.

(** Lines 415-443: geometry type, latitude and longitude of the row, or
    [None] after a [continue]. *)
Definition row_coordinates (row : Series) : M (option (pystr * float * float)) :=
  if in_row (m_geometry mapping) row then
    try_except_RuntimeError
      (blob <- lift (row_item (m_geometry mapping) row) ;;
       fetched <- query SelectCentroid (fun _ => select_centroid blob) ;;
       ret (Some fetched))
      (fun _ =>
         with_vars (set_result (py "Геометрия в поле " ++ dq
                                ++ str_of_option (m_geometry mapping) ++ dq
                                ++ py " некорректна")) ;;
         rollback_row ;;
         ret None)
  else
    let geom_type := py "ST_Point" in
    try_except_RuntimeError
      (lat <- lift (row_item (m_latitude mapping) row) ;;
       lat <- lift (py_float lat) ;;
       let latitude := round6 lat in
       lon <- lift (row_item (m_longitude mapping) row) ;;
       lon <- lift (py_float lon) ;;
       let longitude := round6 lon in
       ret (Some (geom_type, latitude, longitude)))
      (fun _ =>
         with_vars (set_result (py "Пропущен (широта или долгота некорректны)")) ;;
         with_vars inc_skipped ;;
         ret None).

(** The [for address_prefix in address_prefixes] loop of lines 447-450:
    [Some address] on [break], [None] when the loop runs out (its [else]).
    The test passes the whole list [address_prefixes] to [startswith]. *)
Fixpoint find_prefix (row : Series) (rest : list pystr) : result (option pystr) :=
  match rest with
  | [] => Ret None
  | address_prefix :: rest' =>
      match row_get (m_address mapping) (PyStr (py "")) row with
      | PyStr s =>
          match startswith s (a_list address_prefixes) with
          | Ret true =>
              match row_get (m_address mapping) PyNone row with
              | PyStr a =>
                  Ret (Some (str_strip (py ", ") (str_from (length address_prefix) a)))
              | _ => Raise (Exn TypeError (py "object is not subscriptable"))
              end
          | Ret false => find_prefix row rest'
          | Raise e => Raise e
          end
      | _ => Raise (Exn AttributeError (py "object has no attribute 'startswith'"))
      end
  end.

(** Lines 444-460: the extracted address ([None] inside: no address), or
    [None] after a [continue]. *)
Definition row_address (row : Series) : M (option (option pystr)) :=
  if is_service_building && in_row (m_address mapping) row then
    found <- lift (find_prefix row address_prefixes) ;;
    match found with
    | Some address => ret (Some (Some address))
    | None =>
        with_vars (set_result
          (if (length address_prefixes =? 1)%nat
           then py "Пропущен (Адрес не начинается с " ++ dq
                ++ hd [] address_prefixes ++ dq ++ py ")"
           else py "Пропущен (Адрес не начинается ни с одного из "
                ++ str_of_Z (Z.of_nat (length address_prefixes))
                ++ py " префиксов)")) ;;
        with_vars inc_skipped ;;
        ret None
    end
  else ret (Some None).

(** Lines 469-471 *)
Definition row_name (row : Series) : pyval :=
  let default := PyStr (py "(" ++ service_type ++ py " без названия)") in
  let name := row_get (m_name mapping) default row in
  if is_none name || py_eq name (PyStr (py "")) then default else name.

(** The parameters of the two lookups by point are built with [dict | set()]
    when an id is [None], which is a [TypeError]. *)
Definition point_parameters (municipality_id administrative_unit_id : option Z)
  : M unit :=
  match municipality_id, administrative_unit_id with
  | Some _, Some _ => ret tt
  | _, _ => raise (Exn TypeError
                     (py "unsupported operand type(s) for |: 'dict' and 'set'"))
  end.

(** The parameters of the two lookups by blob drop every [None]; a blob
    that is [None] leaves a placeholder without a value. *)
Definition blob_parameters (blob : pyval) : M unit :=
  if is_none blob then raise (Exn IndexError (py "list index out of range"))
  else ret tt.

(** The geometry upgrade of a point container: the statement is sent
    without its parameter and spells [FROM] as [FORM]; the server rejects it. *)
Definition update_geometry : M unit :=
  execute UpdatePhysicalObjectGeometry
    (fun s => (Raise (Exn DatabaseError (py "syntax error")), s)).

Definition ids_text (build_id : option Z) (phys_id : Z) : pystr :=
  match build_id with
  | Some b => py "build_id = " ++ str_of_Z b ++ py ", phys_id = " ++ str_of_Z phys_id
  | None => py "phys_id = " ++ str_of_Z phys_id
  end.

(** Lines 514-521, 587-602 and 682-689: the service is already stored on
    the container; it is updated and the loop goes on to the next row. *)
Definition update_existing (row : Series) (name : pyval) (fo : Z) (message : pystr)
  : M lookup :=
  with_vars (set_result message) ;;
  with_vars (set_functional_id fo) ;;
  update_object row fo name mapping properties_mapping commit ;;
  with_vars inc_present ;;
  ret Updated.

(** Lines 506-526: a building was found by its address. *)
Definition found_by_address (row : Series) (name : pyval) (phys_id build_id : Z)
  : M lookup :=
  res <- query SelectFunctionalObject
           (select_functional_object phys_id service_type_id name) ;;
  match res with
  | Some fo =>
      update_existing row name fo
        (py "Обновлен существующий сервис (" ++ ids_text (Some build_id) phys_id
         ++ py ", functional_object_id = " ++ str_of_Z fo ++ py ")")
  | None =>
      with_vars inc_added_to_address ;;
      with_vars (set_result
        (py "Сервис вставлен в здание, найденное по совпадению адреса("
         ++ ids_text (Some build_id) phys_id ++ py ").")) ;;
      ret (Container phys_id)
  end.

(** Lines 578-625: a building was found by geometry; [address] is now the
    address stored with it. *)
Definition found_building_by_geometry (row : Series) (name : pyval)
    (geom_type current_geom_type : pystr) (phys_id build_id : Z)
    (address : option pystr) : M lookup :=
  res <- query SelectFunctionalObject
           (select_functional_object phys_id service_type_id name) ;;
  match res with
  | Some fo =>
      update_existing row name fo
        (match address with
         | Some a =>
             py "Обновлен существующий сервис, находящийся в здании с другим адресом: "
             ++ dq ++ a ++ dq ++ py " (" ++ ids_text (Some build_id) phys_id
             ++ py ", functional_object_id = " ++ str_of_Z fo ++ py ")"
         | None =>
             py "Обновлен существующий сервис, находящийся в здании без адреса ("
             ++ ids_text (Some build_id) phys_id
             ++ py ", functional_object_id = " ++ str_of_Z fo ++ py ")"
         end)
  | None =>
      with_vars inc_added_to_geom ;;
      with_vars (set_result
        (match address with
         | None =>
             py "Сервис вставлен в здание, подходящее по геометрии, но не имеющее адреса ("
             ++ ids_text (Some build_id) phys_id ++ py ")"
         | Some a =>
             py "Сервис вставлен в здание, подходящее по геометрии, но имеющее другой адрес: "
             ++ dq ++ a ++ dq ++ py " (" ++ ids_text (Some build_id) phys_id
             ++ py ")"
         end)) ;;
      (if pystr_eqb current_geom_type (py "ST_Point")
          && negb (pystr_eqb geom_type (py "ST_Point"))
       then update_geometry ;;
            with_vars (append_result (py ". Обновлена геометрия здания с точки"))
       else ret tt) ;;
      ret (Container phys_id)
  end.

(** Lines 673-703: a physical object without a building was found by
    geometry. *)
Definition found_physical_object (row : Series) (name : pyval)
    (geom_type current_geom_type : pystr) (phys_id : Z) : M lookup :=
  res <- query SelectFunctionalObject
           (select_functional_object phys_id service_type_id name) ;;
  match res with
  | Some fo =>
      update_existing row name fo
        (py "Обновлен существующий сервис без здания (" ++ ids_text None phys_id
         ++ py ", functional_object_id = " ++ str_of_Z fo ++ py ")")
  | None =>
      with_vars inc_added_to_geom ;;
      with_vars (set_result
        (py "Сервис вставлен в физический объект, подходящий по геометрии ("
         ++ ids_text None phys_id ++ py ")")) ;;
      (if pystr_eqb current_geom_type (py "Point")
          && negb (pystr_eqb geom_type (py "Point"))
       then update_geometry ;;
            with_vars (append_result
                         (py ". Обновлена геометрия физического объекта с точки"))
       else ret tt) ;;
      ret (Container phys_id)
  end.

(** Lines 490-502: the lookup of a building by the extracted address. *)
Definition lookup_by_address (address : option pystr) (longitude latitude : float)
  : M (option (Z * Z)) :=
  match address with
  | Some a =>
      if negb (pystr_eqb a (py ""))
      then query SelectBuildingByAddress
             (fun t => Ret (select_building_by_address city_id a longitude latitude t))
      else ret None
  | None => ret None
  end.

(** Lines 530-576: the lookup of a building by geometry. *)
Definition lookup_building_by_geometry (row : Series)
    (municipality_id administrative_unit_id : option Z)
  : M (option (pystr * Z * Z * option pystr)) :=
  if in_row (m_geometry mapping) row then
    blob <- lift (row_item (m_geometry mapping) row) ;;
    blob_parameters blob ;;
    query SelectBuildingByGeometry
      (select_building_by_geometry city_id municipality_id administrative_unit_id blob)
  else
    point_parameters municipality_id administrative_unit_id ;;
    (* the statement selects [build.addres], a column that does not exist *)
    query SelectBuildingByPoint
      (fun _ => Raise (Exn DatabaseError (py "column build.addres does not exist"))).

(** Lines 629-671: the lookup of a physical object without a building. *)
Definition lookup_physical_object (row : Series) (longitude latitude : float)
    (municipality_id administrative_unit_id : option Z)
  : M (option (pystr * Z)) :=
  if in_row (m_geometry mapping) row then
    blob <- lift (row_item (m_geometry mapping) row) ;;
    blob_parameters blob ;;
    query SelectPhysicalObjectByGeometry
      (select_physical_object_by_geometry city_id municipality_id
         administrative_unit_id blob)
  else
    point_parameters municipality_id administrative_unit_id ;;
    query SelectPhysicalObjectByPoint
      (fun t => Ret (select_physical_object_by_point city_id municipality_id
                       administrative_unit_id longitude latitude t)).

(** Lines 489-627: the container of a building-based service. *)
Definition building_container (row : Series) (name : pyval) (address : option pystr)
    (geom_type : pystr) (longitude latitude : float)
    (municipality_id administrative_unit_id : option Z) : M lookup :=
  res <- lookup_by_address address longitude latitude ;;
  match res with
  | Some (phys_id, build_id) => found_by_address row name phys_id build_id
  | None =>
      res <- lookup_building_by_geometry row municipality_id administrative_unit_id ;;
      match res with
      | Some (current_geom_type, phys_id, build_id, address) =>
          found_building_by_geometry row name geom_type current_geom_type
            phys_id build_id address
      | None => ret NoContainer
      end
  end.

(** Lines 628-705: the container of a service without a building. *)
Definition physical_container (row : Series) (name : pyval) (geom_type : pystr)
    (longitude latitude : float)
    (municipality_id administrative_unit_id : option Z) : M lookup :=
  res <- lookup_physical_object row longitude latitude municipality_id
           administrative_unit_id ;;
  match res with
  | Some (current_geom_type, phys_id) =>
      found_physical_object row name geom_type current_geom_type phys_id
  | None => ret NoContainer
  end.

(** Lines 706-775: a new physical object, and its building for a
    building-based service. *)
Definition new_container (row : Series) (address : option pystr) (geom_type : pystr)
    (longitude latitude : float)
    (municipality_id administrative_unit_id : option Z) : M Z :=
  let osm := row_get (m_osm_id mapping) PyNone row in
  let center := ST_MakePoint longitude latitude in
  phys_id <- (if in_row (m_geometry mapping) row then
                blob <- lift (row_item (m_geometry mapping) row) ;;
                execute InsertPhysicalObject
                  (fun s => match ST_GeomFromGeoJSON blob with
                            | Some g =>
                                insert_physical_object_row osm g center city_id
                                  municipality_id administrative_unit_id s
                            | None =>
                                (Raise (Exn DatabaseError
                                          (py "invalid GeoJSON representation")), s)
                            end)
              else
                execute InsertPhysicalObject
                  (insert_physical_object_row osm center center city_id
                     municipality_id administrative_unit_id)) ;;
  (if is_service_building then
     match address with
     | Some a =>
         build_id <- execute InsertBuilding
                       (insert_building_row phys_id (Some (new_prefix ++ a))) ;;
         with_vars (set_result
           (py "Сервис вставлен в новое здание (" ++ ids_text (Some build_id) phys_id
            ++ py ")"))
     | None =>
         build_id <- execute InsertBuilding (insert_building_row phys_id None) ;;
         with_vars (set_result
           (py "Сервис вставлен в новое здание без указания адреса ("
            ++ ids_text (Some build_id) phys_id ++ py ")"))
     end
   else
     if negb (pystr_eqb geom_type (py "ST_Point")) then
       with_vars (set_result
         (py "Сервис вставлен в новый физический объект, добавленный с геометрией ("
          ++ ids_text None phys_id ++ py ")"))
     else
       with_vars (set_result
         (py "Сервис вставлен в новый физический объект, добавленный с типом геометрии "
          ++ dq ++ py "Точка" ++ dq ++ py " (" ++ ids_text None phys_id ++ py ")"))) ;;
  with_vars inc_added_as_points ;;
  ret phys_id.

(** Lines 473-785: from the resolved coordinates and address to the
    upsert. *)
Definition row_upsert (row : Series) (geom_type : pystr) (latitude longitude : float)
    (address : option pystr) : M unit :=
  let name := row_name row in
  municipality_id <- query SelectMunicipality
                       (fun t => Ret (select_territory (municipalities t)
                                        longitude latitude)) ;;
  administrative_unit_id <- query SelectAdministrativeUnit
                              (fun t => Ret (select_territory (administrative_units t)
                                               longitude latitude)) ;;
  found <- (if is_service_building
            then building_container row name address geom_type longitude latitude
                   municipality_id administrative_unit_id
            else physical_container row name geom_type longitude latitude
                   municipality_id administrative_unit_id) ;;
  match found with
  | Updated => ret tt                                            (* continue *)
  | Container phys_id =>
      id <- insert_object row phys_id name service_type_id mapping
              properties_mapping commit ;;
      with_vars (set_functional_id id)
  | NoContainer =>
      phys_id <- new_container row address geom_type longitude latitude
                   municipality_id administrative_unit_id ;;
      id <- insert_object row phys_id name service_type_id mapping
              properties_mapping commit ;;
      with_vars (set_functional_id id)
  end.

(** Lines 415-785: the body of the inner [try]. *)
Definition row_body (row : Series) : M unit :=
  coordinates <- row_coordinates row ;;
  match coordinates with
  | None => ret tt                                               (* continue *)
  | Some (geom_type, latitude, longitude) =>
      extracted <- row_address row ;;
      match extracted with
      | None => ret tt                                           (* continue *)
      | Some address =>
          if negb (in_row (m_geometry mapping) row)
             && (negb (in_row (m_latitude mapping) row)
                 || negb (in_row (m_longitude mapping) row))
          then
            with_vars (set_result
              (py "Пропущен (отсутствует как минимум одно необходимое поле: (широта ("
               ++ str_of_option (m_latitude mapping) ++ py ") + долгота ("
               ++ str_of_option (m_longitude mapping) ++ py ") или геометрия("
               ++ str_of_option (m_geometry mapping) ++ py "))")) ;;
            with_vars inc_skipped                                (* continue *)
          else row_upsert row geom_type latitude longitude address
      end
  end.

(** Lines 786-795: the handler of the inner [try]. *)
Definition row_failed (ex : exn) : M unit :=
  rollback_row ;;
  with_vars (set_result (py "Пропущен, вызывает ошибку: " ++ exn_msg ex)) ;;
  with_vars inc_skipped.

(** Lines 414-795: the inner [try] with its handler. *)
Definition row_attempt (row : Series) : M unit :=
  try_except_RuntimeError (row_body row) row_failed.

(** Lines 405-413: every [log_n] rows the transaction is committed and the
    savepoint is set again. *)
Definition checkpoint (log_n : Z) (idx : nat) : M unit :=
  if log_n =? 0 then raise (Exn ZeroDivisionError (py "integer modulo by zero"))
  else if Z.of_nat idx mod log_n =? 0 then
    if commit then conn_commit ;; SAVEPOINT_previous_object else ret tt
  else ret tt.

(** One turn of the [for] loop (lines 404-795). *)
Definition row_step (log_n : Z) (idx : nat) (row : Series) : M unit :=
  with_vars (set_i idx) ;;
  checkpoint log_n idx ;;
  row_attempt row.

Fixpoint rows_loop (log_n : Z) (idx : nat) (rows : list Series) : M unit :=
  match rows with
  | [] => ret tt
  | row :: rest => row_step log_n idx row ;; rows_loop log_n (S idx) rest
  end.

End Row.

(** [try: m  except KeyboardInterrupt: handler  else: orelse] *)
Definition try_except_KeyboardInterrupt (m handler orelse : M unit) : M unit :=
  fun w => match m w with
           | (Raise e, w') =>
               if decide (exn_cls e = KeyboardInterrupt) then handler w'
               else (Raise e, w')
           | (Ret _, w') => orelse w'
           end.

(** Lines 364-367: the address column is cleaned before anything else. *)
Definition clean_address (mapping : InsertionMapping) (row : Series) : Series :=
  match m_address mapping with
  | Some k =>
      match row !! k with
      | Some (PyStr x) =>
          <[k := PyStr (str_strip whitespace (str_remove 63%N x))]> row
      | Some _ => <[k := PyNone]> row
      | None => row
      end
  | None => row
  end.

(** [objects["result"] = ...; objects["functional_obj_id"] = ...] *)
Definition with_outcome (row : Series) (result : pystr) (id : Z) : Series :=
  <[py "functional_obj_id" := PyInt id]> (<[py "result" := PyStr result]> row).

Definition with_outcomes (objects : list Series) (results : list pystr)
    (functional_ids : list Z) : list Series :=
  imap (fun j row => with_outcome row (results !!! j) (functional_ids !!! j)) objects.

(** Lines 811-812: [for j in range(i, n): results[j] = "..."] *)
Definition cancel_from (v : locals) : locals :=
  with_results
    (imap (fun j r => if (i v <=? j)%nat
                      then py "Пропущен (отмена пользователем)" else r)) v.

(** Lines 796-812: the handler of the outer [try]. *)
Definition interrupted (commit : bool) : M unit :=
  (if commit then
     choice <- (fun w => (Ret (stdin w), w)) ;;
     yes <- lift (startswith choice (a_tuple [py "y"; py "д"; py "1"])) ;;
     if (yes : bool) then conn_commit else conn_rollback
   else ret tt) ;;
  with_vars cancel_from.

(** Lines 298-817: [add_objects], up to the two columns it adds to the
    frame.  The log lines and the Excel log written afterwards (lines
    818-849) leave the returned frame and the session alone and are not
    modelled.  [properties_mapping] is the dict the callers pass. *)
Definition add_objects (objects : list Series) (city_name service_type : pystr)
    (mapping : InsertionMapping) (properties_mapping : list (pystr * pystr))
    (address_prefixes : list pystr) (new_prefix : pystr) (commit : bool)
    (log_n : Z) : M (list Series) :=
  let objects := map (clean_address mapping) objects in
  let n := length objects in
  with_vars (fun _ =>
    {| i := 0%nat; present := 0; added_to_address := 0; added_to_geom := 0;
       added_as_points := 0; skipped := 0; results := replicate n (py "");
       functional_ids := replicate n (-1) |}) ;;
  let address_prefixes := sorted_by_length address_prefixes in
  city_id <- query SelectCity (fun t => Ret (select_city city_name t)) ;;
  match city_id with
  | None =>
      ret (with_outcomes objects
             (replicate n (py "Город " ++ dq ++ city_name ++ dq
                           ++ py " отсутсвует в базе данных"))
             (replicate n (-1)))
  | Some city_id =>
      res <- query SelectServiceType (fun t => Ret (select_service_type service_type t)) ;;
      match res with
      | None =>
          ret (with_outcomes objects
                 (replicate n (py "Тип сервиса " ++ dq ++ service_type ++ dq
                               ++ py " отсутствует в базе данных"))
                 (replicate n (-1)))
      | Some (service_type_id, is_service_building) =>
          (if commit then SAVEPOINT_previous_object else ret tt) ;;
          try_except_KeyboardInterrupt
            (rows_loop service_type mapping properties_mapping address_prefixes
               new_prefix commit city_id service_type_id is_service_building
               log_n 0 objects)
            (interrupted commit)
            (if commit then conn_commit else ret tt) ;;
          v <- get_vars ;;
          ret (with_outcomes objects (results v) (functional_ids v))
      end
  end.

End Pipeline.

(** ** A fixture to run the pipeline on

    A runtime and a server small enough to evaluate: decimal literals of
    the form [digits] or [digits.digits] (exact while the digits stay below
    2^53), values that already have six decimals, points and boxes in the
    plane, and [LIKE] with [%] and [_]. *)
Module Fixture.

Fixpoint digits_value (s : pystr) (acc : Z) : option Z :=
  match s with
  | [] => Some acc
  | c :: s' =>
      if ((48 <=? c) && (c <=? 57))%N
      then digits_value s' (10 * acc + Z.of_N (c - 48))
      else None
  end.

Definition float_of_digits (n : Z) : float := SF2Prim (binary_normalize prec emax n 0 false).

Fixpoint before_dot (s : pystr) : pystr :=
  match s with
  | [] => []
  | c :: s' => if (c =? 46)%N then [] else c :: before_dot s'
  end.

Definition parse_decimal (s : pystr) : option float :=
  let whole := before_dot s in
  let frac := drop (S (length whole)) s in
  if (length whole =? 0)%nat then None
  else match digits_value (whole ++ frac) 0 with
       | Some n => Some (float_of_digits n / float_of_digits (10 ^ Z.of_nat (length frac)))%float
       | None => None
       end.

#[export] Instance runtime : PyRuntime := {|
  float_of_str := parse_decimal;
  round6 := fun x => x;
  json_dumps := fun v => match v with PyStr s => dq ++ s ++ dq | _ => py "null" end
|}.

Inductive shape :=
| Point (x y : float)
| Box (x0 y0 x1 y1 : float).

Definition inside (x y : float) (g : shape) : bool :=
  match g with
  | Point a b => PrimFloat.eqb x a && PrimFloat.eqb y b
  | Box x0 y0 x1 y1 =>
      PrimFloat.leb x0 x && PrimFloat.leb x x1 && PrimFloat.leb y0 y && PrimFloat.leb y y1
  end.

Definition corner (g : shape) : float * float :=
  match g with Point x y => (x, y) | Box x0 y0 _ _ => (x0, y0) end.

Definition far_corner (g : shape) : float * float :=
  match g with Point x y => (x, y) | Box _ _ x1 y1 => (x1, y1) end.

Definition centre (g : shape) : float * float :=
  ((((corner g).1 + (far_corner g).1) / 2)%float,
   (((corner g).2 + (far_corner g).2) / 2)%float).

Definition covered (a b : shape) : bool :=
  inside (corner a).1 (corner a).2 b && inside (far_corner a).1 (far_corner a).2 b.

Definition overlap (a b : shape) : bool :=
  PrimFloat.leb (corner a).1 (far_corner b).1 && PrimFloat.leb (corner b).1 (far_corner a).1
  && PrimFloat.leb (corner a).2 (far_corner b).2 && PrimFloat.leb (corner b).2 (far_corner a).2.

(** [LIKE]: [%] matches any run of characters, [_] any one. *)
Fixpoint like (fuel : nat) (text pattern : pystr) : bool :=
  match fuel with
  | O => false
  | S fuel' =>
      match pattern with
      | [] => match text with [] => true | _ => false end
      | p :: pattern' =>
          if (p =? 37)%N then
            like fuel' text pattern'
            || match text with [] => false | _ :: text' => like fuel' text' pattern end
          else match text with
               | [] => false
               | c :: text' =>
                   ((p =? 95)%N || (p =? c)%N) && like fuel' text' pattern'
               end
      end
  end.

#[export] Instance server : PostGIS := {|
  geometry := shape;
  ST_GeomFromGeoJSON := fun _ => None;
  ST_Centroid := fun g => Point (centre g).1 (centre g).2;
  ST_GeometryType := fun g => match g with Point _ _ => py "ST_Point" | Box _ _ _ _ => py "ST_Polygon" end;
  ST_X := fun g => (corner g).1;
  ST_Y := fun g => (corner g).2;
  ST_MakePoint := Point;
  ST_Within := covered;
  ST_Intersects := overlap;
  ST_CoveredBy := covered;
  ST_Distance := fun a b =>
    ((abs ((centre a).1 - (centre b).1) + abs ((centre a).2 - (centre b).2)) * 100000)%float;
  sql_like := fun text pattern => like (S (length text + length pattern)) text pattern
|}.

End Fixture.

(** A database with one city, a building-based and a free-standing
    service type, and one territory of each kind around the origin. *)
Module Sample.
Import Fixture.

Definition row_of (cells : list (string * pyval)) : Series :=
  dict_of_pairs (map (fun kv => (py kv.1, kv.2)) cells).

Definition empty_tables : tables := {|
  cities := [{| city_id := 1; city_name := py "Санкт-Петербург" |}];
  city_service_types :=
    [{| st_id := 10; st_name := py "Школа"; st_code := py "schools";
        st_is_building := true; st_capacity_min := PyInt 100;
        st_capacity_max := PyInt 500; st_city_function_id := 5 |};
     {| st_id := 11; st_name := py "Кафе"; st_code := py "cafes";
        st_is_building := false; st_capacity_min := PyInt 10;
        st_capacity_max := PyInt 50; st_city_function_id := 5 |}];
  city_functions := [{| cf_id := 5; cf_city_infrastructure_type_id := 2 |}];
  city_infrastructure_types := [{| it_id := 2 |}];
  municipalities := [{| territory_id := 7; territory_geometry := Box 0 0 100 100 |}];
  administrative_units := [{| territory_id := 3; territory_geometry := Box 0 0 100 100 |}];
  physical_objects := [];
  buildings := [];
  functional_objects := []
|}.

Definition no_locals : locals :=
  {| i := 0%nat; present := 0; added_to_address := 0; added_to_geom := 0;
     added_as_points := 0; skipped := 0; results := []; functional_ids := [] |}.

Definition world_of (t : tables) : world := {|
  sess := {| committed := t; current := t; savepoints := [];
             next_phys_id := 100; next_build_id := 200; next_fo_id := 300 |};
  faults := []; randoms := [7]; localtime := StructTime 2024 1 2 3 4 5;
  stdin := py "y"; trace := []; vars := no_locals
|}.

(** The default mapping of [init_insertion_mapping]. *)
Definition mapping : InsertionMapping :=
  init_insertion_mapping (Some (py "Name")) (Some (py "opening_hours"))
    (Some (py "contact:website")) (Some (py "contact:phone")) (Some (py "yand_adr"))
    (Some (py "id")) None (Some (py "x")) (Some (py "y")) (Some (py "geometry")).

(** A cafe with a real capacity of 50 seats and a phone number. *)
Definition cafe : functional_object := {|
  fo_id := 300; fo_name := PyStr (py "Cafe"); fo_opening_hours := PyNone;
  fo_website := PyNone; fo_phone := PyStr (py "1");
  fo_city_service_type_id := 11; fo_city_function_id := 5;
  fo_city_infrastructure_type_id := 2; fo_capacity := PyInt 50;
  fo_is_capacity_real := PyBool true; fo_physical_object_id := 100;
  fo_properties := ∅; fo_updated_at := PyNone
|}.

Definition cafe_place : physical_object := {|
  phys_id := 100; phys_osm_id := PyNone; phys_geometry := Point 30.25 59.5;
  phys_center := Point 30.25 59.5; phys_city_id := 1;
  phys_municipality_id := Some 7; phys_administrative_unit_id := Some 3
|}.

Definition cafe_tables : tables :=
  with_functional_objects [cafe] (with_physical_objects [cafe_place] empty_tables).

(** The same cafe in the input, with a new phone number and no capacity
    column. *)
Definition cafe_row : Series :=
  row_of [("Name", PyStr (py "Cafe")); ("x", PyFloat 59.5); ("y", PyFloat 30.25);
          ("contact:phone", PyStr (py "2"))]%string.

(** A school with an address in another city (scenario D of the
    specification). *)
Definition moscow_school_row : Series :=
  row_of [("Name", PyStr (py "School")); ("x", PyFloat 59.5); ("y", PyFloat 30.25);
          ("yand_adr", PyStr (py "Москва, Тверская, 1"))]%string.

(** A cafe whose latitude is not a number, and one without the latitude
    column. *)
Definition bad_latitude_row : Series :=
  row_of [("Name", PyStr (py "Bar")); ("x", PyStr (py "abc")); ("y", PyFloat 30.25)]%string.

Definition no_latitude_row : Series :=
  row_of [("Name", PyStr (py "Bar")); ("y", PyFloat 30.25)]%string.

(** A school building on Nevsky prospect, at the place of the cafe. *)
Definition school_building : building :=
  {| build_id := 200; build_physical_object_id := 100;
     build_address := Some (py "Россия, Санкт-Петербург, Невский пр-кт, 1") |}.

Definition school_tables : tables :=
  with_buildings [school_building] (with_physical_objects [cafe_place] empty_tables).

(** A school at that address, at the place of the building (scenario B of
    the specification). *)
Definition nevsky_school_row : Series :=
  row_of [("Name", PyStr (py "School")); ("x", PyFloat 59.5); ("y", PyFloat 30.25);
          ("yand_adr", PyStr (py "Россия, Санкт-Петербург, Невский пр-кт, 1"))]%string.

(** [add_objects] on the sample city with the default prefix, in commit
    mode, every 200 rows a checkpoint. *)
Definition add (objects : list Series) (service_type : string) : M (list Series) :=
  add_objects objects (py "Санкт-Петербург") (py service_type) mapping []
    [py "Россия, Санкт-Петербург"] (py "") true 200.

(** A second cafe, somewhere else. *)
Definition bistro_row : Series :=
  row_of [("Name", PyStr (py "Bistro")); ("x", PyFloat 20); ("y", PyFloat 10)]%string.

(** The world the loop of [add_objects] starts in when commit mode is on:
    the savepoint has just been set.  [faults] is what the environment
    will do to the statements to come. *)
Definition started (t : tables) (faults : list (option exn)) : world := {|
  sess := {| committed := t; current := t; savepoints := [(previous_object, t)];
             next_phys_id := 100; next_build_id := 200; next_fo_id := 300 |};
  faults := faults; randoms := [7]; localtime := StructTime 2024 1 2 3 4 5;
  stdin := py "y"; trace := [];
  vars := {| i := 0%nat; present := 0; added_to_address := 0; added_to_geom := 0;
             added_as_points := 0; skipped := 0;
             results := [py ""; py ""; py ""]; functional_ids := [-1; -1; -1] |}
|}.

(** The fourteenth statement fails inside a library: the first row takes
    nine statements, the second has written its physical object by then. *)
Definition library_failure : list (option exn) :=
  replicate 13 None ++ [Some (Exn RuntimeError (py "generator raised StopIteration"))].

(** The loop body for free-standing cafes in the sample city. *)
Definition cafes_loop (commit : bool) (idx : nat) (rows : list Series) : M unit :=
  rows_loop (py "cafes") mapping [] [py "Россия, Санкт-Петербург"] (py "") commit
    1 11 false 200 idx rows.

Definition cafes_body (commit : bool) (row : Series) : M unit :=
  row_body (py "cafes") mapping [] [py "Россия, Санкт-Петербург"] (py "") commit
    1 11 false row.

Definition cafes_attempt (commit : bool) (row : Series) : M unit :=
  row_attempt (py "cafes") mapping [] [py "Россия, Санкт-Петербург"] (py "") commit
    1 11 false row.

End Sample.

(** ** Reasoning about runs

    Two small logics over [M]: what a computation does to the session,
    and which statements it sends. *)

Section Logic.
Context `{RT : PyRuntime} `{GIS : PostGIS}.

(** From a session that satisfies [P], [m] returns in a session that
    satisfies [Q] or raises in one that satisfies [E]. *)
Definition on_session {A} (P : session -> Prop) (m : M A)
    (Q : A -> session -> Prop) (E : session -> Prop) : Prop :=
  forall w, P (sess w) ->
    match m w with
    | (Ret a, w') => Q a (sess w')
    | (Raise _, w') => E (sess w')
    end.

(** Every statement [m] sends satisfies [P]; the trace only grows. *)
Definition sends {A} (P : statement -> Prop) (m : M A) : Prop :=
  forall w, exists new, trace (m w).2 = new ++ trace w /\ Forall P new.

(** The latest savepoint is [previous_object] and holds the tables [T]. *)
Definition held (T : tables) (s : session) : Prop :=
  exists rest, savepoints s = (previous_object, T) :: rest.

(** The latest savepoint holds exactly what the transaction sees now. *)
Definition fresh (s : session) : Prop := held (current s) s.

(** The savepoint holds [T] and nothing was written since. *)
Definition clean (T : tables) (s : session) : Prop := held T s /\ current s = T.

(** [m] leaves the session as it is: it only reads. *)
Definition reads {A} (m : M A) : Prop := forall w, sess (m w).2 = sess w.

(** [m] may write to the tables but sets and releases no savepoint. *)
Definition keeps_savepoints {A} (m : M A) : Prop :=
  forall w, savepoints (sess (m w).2) = savepoints (sess w).

(** The exception, if any, that the environment raises in place of the
    [k]-th statement to come. *)
Definition fault_at (k : nat) (w : world) : option exn :=
  match faults w !! k with
  | Some (Some e) => Some e
  | _ => None
  end.

(** The world once the statement [st] was sent: it is on the trace and the
    environment has moved on. *)
Definition after (st : statement) (w : world) : world :=
  {| sess := sess w; faults := tail (faults w); randoms := randoms w;
     localtime := localtime w; stdin := stdin w; trace := st :: trace w;
     vars := vars w |}.

(** No statement of the geometry lookups of a building. *)
Definition not_geometry_lookup (st : statement) : Prop :=
  st <> SelectBuildingByGeometry /\ st <> SelectBuildingByPoint.

(** No [INSERT]. *)
Definition not_insert (st : statement) : Prop :=
  st <> InsertFunctionalObject /\ st <> InsertPhysicalObject /\ st <> InsertBuilding.

(** *** The container a row resolves to

    What the lookups of lines 489-576 and 629-671 answer, read off the
    tables: by address first, then by geometry.  The lookup of a building
    by point cannot answer (its statement does not run). *)
Section Resolution.
Variables (mapping : InsertionMapping) (city_id service_type_id : Z)
          (is_service_building : bool).

Definition address_lookup (address : option pystr) (longitude latitude : float)
    (t : tables) : option (Z * Z) :=
  match address with
  | Some a =>
      if negb (pystr_eqb a (py ""))
      then select_building_by_address city_id a longitude latitude t
      else None
  | None => None
  end.

Definition container_of (row : Series) (address : option pystr)
    (longitude latitude : float)
    (municipality_id administrative_unit_id : option Z) (t : tables) : option Z :=
  if is_service_building then
    match address_lookup address longitude latitude t with
    | Some (phys, _) => Some phys
    | None =>
        match row_item (m_geometry mapping) row with
        | Ret blob =>
            if is_none blob then None
            else match select_building_by_geometry city_id municipality_id
                         administrative_unit_id blob t with
                 | Ret (Some (_, phys, _, _)) => Some phys
                 | _ => None
                 end
        | Raise _ => None
        end
    end
  else
    match row_item (m_geometry mapping) row with
    | Ret blob =>
        if is_none blob then None
        else match select_physical_object_by_geometry city_id municipality_id
                     administrative_unit_id blob t with
             | Ret (Some (_, phys)) => Some phys
             | _ => None
             end
    | Raise _ =>
        match municipality_id, administrative_unit_id with
        | Some _, Some _ =>
            snd <$> select_physical_object_by_point city_id municipality_id
                      administrative_unit_id longitude latitude t
        | _, _ => None
        end
    end.

(** *** The rows a lookup may answer with

    A query with [LIMIT 1] and no [ORDER BY] answers with any one of the
    rows that satisfy its [WHERE] clause.  The clauses of the lookups by
    geometry and by point and of the de-duplication query, as predicates
    on the rows (the one of the lookup by address is [address_match]). *)
Definition building_geometry_match (municipality_id administrative_unit_id : option Z)
    (g : geometry) (pb : physical_object * building) : bool :=
  (phys_city_id pb.1 =? city_id)
  && in_territories municipality_id administrative_unit_id pb.1
  && ST_Intersects g (phys_geometry pb.1).

Definition physical_geometry_match (municipality_id administrative_unit_id : option Z)
    (g : geometry) (t : tables) (phys : physical_object) : bool :=
  (phys_city_id phys =? city_id)
  && no_building t phys
  && in_territories municipality_id administrative_unit_id phys
  && ST_CoveredBy g (phys_geometry phys).

Definition physical_point_match (municipality_id administrative_unit_id : option Z)
    (longitude latitude : float) (t : tables) (phys : physical_object) : bool :=
  (phys_city_id phys =? city_id)
  && no_building t phys
  && in_territories municipality_id administrative_unit_id phys
  && point_match longitude latitude (phys_geometry phys).

Definition same_service (phys : Z) (name : pyval) (f : functional_object) : bool :=
  (fo_physical_object_id f =? phys)
  && (fo_city_service_type_id f =? service_type_id)
  && py_eq (fo_name f) name.

(** [id] is the key of a row of [l] that satisfies [clause]. *)
Definition answers {A} (clause : A -> bool) (key : A -> Z) (l : list A) (id : Z)
  : Prop :=
  exists x, In x l /\ clause x = true /\ key x = id.

(** The physical objects the container lookup of a row may resolve to on
    the tables [t], whichever matching row each query answers with: the
    matches of the lookup by address when there is one, otherwise those
    of the lookup by geometry (or by point, for a free-standing service
    without a blob). *)
Definition may_resolve_to (row : Series) (address : option pystr)
    (longitude latitude : float)
    (municipality_id administrative_unit_id : option Z) (t : tables) (phys : Z)
  : Prop :=
  if is_service_building then
    match address_lookup address longitude latitude t with
    | Some _ =>
        match address with
        | Some a =>
            answers (address_match city_id a longitude latitude)
              (fun pb => phys_id pb.1) (phys_join_build t) phys
        | None => False
        end
    | None =>
        match row_item (m_geometry mapping) row with
        | Ret blob =>
            if is_none blob then False
            else match ST_GeomFromGeoJSON blob with
                 | Some g =>
                     answers (building_geometry_match municipality_id
                                administrative_unit_id g)
                       (fun pb => phys_id pb.1) (phys_join_build t) phys
                 | None => False
                 end
        | Raise _ => False
        end
    end
  else
    match row_item (m_geometry mapping) row with
    | Ret blob =>
        if is_none blob then False
        else match ST_GeomFromGeoJSON blob with
             | Some g =>
                 answers (physical_geometry_match municipality_id
                            administrative_unit_id g t)
                   phys_id (physical_objects t) phys
             | None => False
             end
    | Raise _ =>
        match municipality_id, administrative_unit_id with
        | Some _, Some _ =>
            answers (physical_point_match municipality_id administrative_unit_id
                       longitude latitude t)
              phys_id (physical_objects t) phys
        | _, _ => False
        end
    end.

(** What the stored service, if any, makes of a found container. *)
Definition deduplicated (phys : Z) (name : pyval) (w w' : world) (found : lookup)
  : Prop :=
  (found = Container phys
   /\ select_functional_object phys service_type_id name (current (sess w)) = Ret None
   /\ sess w' = sess w)
  \/ (found = Updated
      /\ exists fo set later,
           select_functional_object phys service_type_id name (current (sess w))
           = Ret (Some fo)
           /\ trace w' = later ++ UpdateFunctionalObject fo set
                           :: SelectFunctionalObjectFields
                           :: SelectFunctionalObject :: trace w
           /\ present (vars w') = present (vars w) + 1).

(** What the lookup by geometry or by point needs to get as far as its
    query: a blob that is not [None], or, without a blob, a free-standing
    service whose point lies in a municipality and an administrative unit. *)
Definition looked_up (row : Series)
    (municipality_id administrative_unit_id : option Z) : Prop :=
  match row_item (m_geometry mapping) row with
  | Ret blob => is_none blob = false
  | Raise _ =>
      is_service_building = false
      /\ is_Some municipality_id /\ is_Some administrative_unit_id
  end.

(** What a container lookup that returns has found, in terms of
    [container_of]. *)
Definition resolved (row : Series) (name : pyval)
    (address : option pystr) (longitude latitude : float)
    (municipality_id administrative_unit_id : option Z) (w w' : world)
    (found : lookup) : Prop :=
  let t := current (sess w) in
  let answer := container_of row address longitude latitude municipality_id
                  administrative_unit_id t in
  match found with
  | NoContainer =>
      answer = None /\ sess w' = sess w
      /\ looked_up row municipality_id administrative_unit_id
  | Container phys =>
      answer = Some phys
      /\ select_functional_object phys service_type_id name t = Ret None
      /\ sess w' = sess w
  | Updated =>
      exists phys fo set later between,
        answer = Some phys
        /\ select_functional_object phys service_type_id name t = Ret (Some fo)
        /\ trace w' = later ++ UpdateFunctionalObject fo set :: between ++ trace w
        /\ present (vars w') = present (vars w) + 1
  end.

End Resolution.

(** The sequence behind [physical_objects.id] is ahead of the table: no
    stored physical object has the next id, and no building refers to it. *)
Definition fresh_physical_id (s : session) : Prop :=
  Forall (fun p => phys_id p <> next_phys_id s) (physical_objects (current s))
  /\ Forall (fun b => build_physical_object_id b <> next_phys_id s)
            (buildings (current s)).

(** The server finds a geometry by itself: the geometry of the row's blob
    intersects and covers itself, and the row's point matches itself. *)
Definition finds_itself (mapping : InsertionMapping) (row : Series)
    (longitude latitude : float) : Prop :=
  (forall blob g,
     row_item (m_geometry mapping) row = Ret blob ->
     ST_GeomFromGeoJSON blob = Some g ->
     ST_Intersects g g = true /\ ST_CoveredBy g g = true)
  /\ point_match longitude latitude (ST_MakePoint longitude latitude) = true.

(** The two messages of the lookups that precede the loop. *)
Definition unknown_city (city_name : pystr) : pystr :=
  py "Город " ++ dq ++ city_name ++ dq ++ py " отсутсвует в базе данных".

Definition unknown_service_type (service_type : pystr) : pystr :=
  py "Тип сервиса " ++ dq ++ service_type ++ dq ++ py " отсутствует в базе данных".

End Logic.

(** ** Properties of strings and frames

    Predicates the theorems on the helpers are stated with. *)

(** Neither the first nor the last code point of [s] is one of [chars]. *)
Definition stripped (chars s : pystr) : Prop :=
  (forall c, head s = Some c -> cp_in chars c = false)
  /\ (forall c, last s = Some c -> cp_in chars c = false).

(** A cell of the address column once it was cleaned: [None], or a string
    without question mark and without white space around it. *)
Definition clean_cell (v : pyval) : Prop :=
  match v with
  | PyNone => True
  | PyStr s => (63%N ∉ s) /\ stripped whitespace s
  | _ => False
  end.

(** The ten slots of a mapping, in the order of the named tuple. *)
Definition slots (m : InsertionMapping) : list (option pystr) :=
  [m_name m; m_opening_hours m; m_website m; m_phone m; m_address m;
   m_capacity m; m_osm_id m; m_latitude m; m_longitude m; m_geometry m].

(** What an update of the functional object [id] may do to a stored row:
    the keys stay, and a row with another id stays as it is. *)
Definition kept (id : Z) (old new : functional_object) : Prop :=
  fo_id new = fo_id old
  /\ fo_physical_object_id new = fo_physical_object_id old
  /\ fo_city_service_type_id new = fo_city_service_type_id old
  /\ fo_city_function_id new = fo_city_function_id old
  /\ fo_city_infrastructure_type_id new = fo_city_infrastructure_type_id old
  /\ (fo_id old <> id -> new = old).

(** A statement that ends or marks a transaction. *)
Definition transaction_control (st : statement) : Prop :=
  st = Commit \/ st = Savepoint \/ st = RollbackTo.

(** [m] commits nothing: what is committed stays as it is. *)
Definition keeps_committed `{GIS : PostGIS} {A} (m : M A) : Prop :=
  forall w, committed (sess (m w).2) = committed (sess w).

(** More worlds on the sample city. *)
Module Scene.
Import Fixture.

(** A dry run midway: the sample cafe was written by an earlier row and is
    not committed; [faults] is what the environment will do to the
    statements to come. *)
Definition midway (faults : list (option exn)) : world := {|
  sess := {| committed := Sample.empty_tables; current := Sample.cafe_tables;
             savepoints := [];
             next_phys_id := 101; next_build_id := 200; next_fo_id := 301 |};
  faults := faults; randoms := [7]; localtime := StructTime 2024 1 2 3 4 5;
  stdin := py "n"; trace := [];
  vars := {| i := 0%nat; present := 0; added_to_address := 0; added_to_geom := 0;
             added_as_points := 0; skipped := 0;
             results := [py ""; py ""; py ""]; functional_ids := [-1; -1; -1] |}
|}.

(** The sample cafe with two properties. *)
Definition cafe_with_properties : tables :=
  with_functional_objects
    [{| fo_id := 300; fo_name := PyStr (py "Cafe"); fo_opening_hours := PyNone;
        fo_website := PyNone; fo_phone := PyNone;
        fo_city_service_type_id := 11; fo_city_function_id := 5;
        fo_city_infrastructure_type_id := 2; fo_capacity := PyInt 50;
        fo_is_capacity_real := PyBool true; fo_physical_object_id := 100;
        fo_properties := dict_of_pairs [(py "wifi", PyBool true);
                                        (py "cuisine", PyStr (py "georgian"))];
        fo_updated_at := PyNone |}]
    (with_physical_objects [Sample.cafe_place] Sample.empty_tables).

(** Text ordered by code points. *)
Fixpoint by_code_points (a b : pystr) : bool :=
  match a, b with
  | [], _ => true
  | _ :: _, [] => false
  | x :: a', y :: b' => (x <? y)%N || ((x =? y)%N && by_code_points a' b')
  end.

End Scene.

(** ** The other helpers of the package *)

(** *** [get_properties_keys] (lines 283-295)

    [SELECT DISTINCT jsonb_object_keys(properties) FROM functional_objects
     WHERE city_service_type_id = (SELECT id FROM st) ORDER BY 1], where
    [st] holds the ids of the service types with that name or code.  A
    scalar subquery over no row is [NULL], which equals no id; over more
    than one row the server rejects the statement.  [ORDER BY] follows the
    collation of the database, [collate]. *)
Section Keys.
Context `{GIS : PostGIS}.
Variable collate : pystr -> pystr -> bool.

Definition get_properties_keys (city_service_type : pystr) (t : tables)
  : result (list pystr) :=
  let st := List.filter (fun s => pystr_eqb (st_name s) city_service_type
                                  || pystr_eqb (st_code s) city_service_type)
                        (city_service_types t) in
  match st with
  | [] => Ret []
  | [s] =>
      let keys :=
        fo ← List.filter (fun fo => fo_city_service_type_id fo =? st_id s)
                         (functional_objects t);
        (map fst (map_to_list (fo_properties fo))) in
      Ret (merge_sort (fun a b => Is_true (collate a b)) (remove_dups keys))
  | _ =>
      Raise (Exn DatabaseError
               (py "more than one row returned by a subquery used as an expression"))
  end.

End Keys.

(** *** [load_objects] (lines 955-969)

    The readers for the six extensions call pandas on a file; the
    dispatcher is parametric in them. *)

(** [s.rfind(c)] for a one-character [c]: the index of its last
    occurrence, [-1] when there is none. *)
Fixpoint rfind_from (c : N) (s : pystr) (idx last : Z) : Z :=
  match s with
  | [] => last
  | x :: s' => rfind_from c s' (idx + 1) (if (x =? c)%N then idx else last)
  end.

Definition rfind (c : N) (s : pystr) : Z := rfind_from c s 0 (-1).

(** [filename[filename.rfind(".") + 1 :]] *)
Definition extension (filename : pystr) : pystr :=
  str_from (Z.to_nat (rfind 46%N filename + 1)) filename.

Section Loaders.
Variables frame defaults columns : Type.

Definition loader : Type := pystr -> option defaults -> option columns -> result frame.

Variables load_objects_csv load_objects_xlsx load_objects_excel load_objects_json
          load_objects_geojson : loader.

Definition funcs : gmap pystr loader :=
  dict_of_pairs
    [(py "csv", load_objects_csv); (py "xlsx", load_objects_xlsx);
     (py "xls", load_objects_excel); (py "ods", load_objects_excel);
     (py "json", load_objects_json); (py "geojson", load_objects_geojson)].

Definition not_supported (filename : pystr) : exn :=
  Exn ValueError
    (py "File extension " ++ dq ++ extension filename ++ dq ++ py " is not supported").

(** The [try] covers the lookup in [funcs] and the call of the reader. *)
Definition load_objects (filename : pystr) (default_values : option defaults)
    (needed_columns : option columns) : result frame :=
  match funcs !! extension filename with
  | Some reader =>
      match reader filename default_values needed_columns with
      | Ret res => Ret res
      | Raise e =>
          if decide (exn_cls e = KeyError) then Raise (not_supported filename)
          else Raise e
      end
  | None => Raise (not_supported filename)
  end.

End Loaders.

(** *** [run_cli] (lines 1018-1029): the options it rewrites *)

(** [address_prefixes.sort(key=len, reverse=True)] is the stable sort by
    descending length, as [sorted(address_prefixes, key=lambda s: -len(s))]
    is: both keep prefixes of equal length in the order they were given. *)
Definition cli_address_prefixes (address_prefix : list pystr) : list pystr :=
  if (length address_prefix =? 0)%nat then [py "Россия, Санкт-Петербург"]
  else sorted_by_length address_prefix.

(** [s.find(c)] for a one-character [c]: the index of its first
    occurrence, [-1] when there is none. *)
Fixpoint find_from (c : N) (s : pystr) (idx : Z) : Z :=
  match s with
  | [] => -1
  | x :: s' => if (x =? c)%N then idx else find_from c s' (idx + 1)
  end.

Definition str_find (c : N) (s : pystr) : Z := find_from c s 0.

(** [s[:n]] and [s[n:]] for an index that may be negative. *)
Definition str_until (n : Z) (s : pystr) : pystr :=
  if n <? 0 then take (length s - Z.to_nat (- n)) s else take (Z.to_nat n) s.

Definition str_after (n : Z) (s : pystr) : pystr :=
  if n <? 0 then drop (length s - Z.to_nat (- n)) s else drop (Z.to_nat n) s.

(** [{entry[: entry.find(":")]: entry[entry.find(":") + 1 :] for entry in
    properties_mapping}], or [None] where [run_cli] exits because an entry
    has no colon. *)
Definition properties_mapping_entry (entry : pystr) : pystr * pystr :=
  (str_until (str_find 58%N entry) entry, str_after (str_find 58%N entry + 1) entry).

Definition properties_mapping_dict (properties_mapping : list pystr)
  : option (gmap pystr pystr) :=
  if forallb (fun entry => cp_in entry 58%N) properties_mapping   (* [":" in entry] *)
  then Some (dict_of_pairs (map properties_mapping_entry properties_mapping))
  else None.                                    (* [sys.exit(1)] *)

(** ** [operations.py] *)

Module Operations.

(** [ceil(n / d)] of line 52: the quotient is a float, exact for every
    list that fits in memory. *)
Definition ceil_div (n d : nat) : nat := ((n + d - 1) / d)%nat.

(** Lines 50-53 of [update_physical_objects_locations]: the tuples
    [phys_ids[batch_number * batch_size : (batch_number + 1) * batch_size]]
    that the [UPDATE]s are sent with. *)
Definition batches (batch_size : nat) (phys_ids : list Z) : list (list Z) :=
  map (fun batch_number =>
         take batch_size (drop (batch_number * batch_size) phys_ids))
      (seq 0 (ceil_div (length phys_ids) batch_size)).

Definition batch_size : nat := 2000.

End Operations.

(** * Theorems *)

(** ** The coercion layer *)

Lemma from_name_sql_name (t : SQLType) :
  t <> TIMESTAMP -> from_name (sql_name t) = Ret t.
Proof. destruct t; intros Ht; try congruence; vm_compute; reflexivity. Qed.

(** C8.  The name [sql_name] gives for [TIMESTAMP], "timestamp with time
    zone", is no key of [sqltype_mapping] and does not start with
    "character varying": [from_name] raises [ValueError] on it, while the
    six other types come back (lemma [from_name_sql_name]). *)
Theorem from_name_sql_name_TIMESTAMP :
  raised_class (from_name (sql_name TIMESTAMP)) = Some ValueError
  /\ forall t, t <> TIMESTAMP -> from_name (sql_name t) = Ret t.
Proof. split; [vm_compute; reflexivity | apply from_name_sql_name]. Qed.

(** C9, as the code has it.  On a non-empty string, boolean coercion
    returns [False] exactly when the lowered string is one of the falsy
    tokens, and [True] otherwise. *)
Theorem cast_BOOLEAN_str `{RT : PyRuntime} (s : pystr) :
  s <> [] ->
  cast BOOLEAN (PyStr s)
  = Ret (PyBool (negb (str_in (str_lower s) falsy_tokens))).
Proof.
  intros Hs.
  assert (Hne : pystr_eqb s [] = false)
    by (unfold pystr_eqb; apply bool_decide_eq_false_2; exact Hs).
  unfold cast, is_null. rewrite Hne.
  unfold cast_try, py_bool. rewrite Hne.
  change (bool_decide (BOOLEAN = INT) || bool_decide (BOOLEAN = SMALLINT)) with false.
  change (bool_decide (BOOLEAN = DOUBLE)) with false.
  change (bool_decide (BOOLEAN = BOOLEAN)) with true.
  cbv iota.
  destruct (str_in (str_lower s) falsy_tokens); reflexivity.
Qed.

Lemma cast_BOOLEAN_str_witness :
  py "Off" <> []
  /\ cast (RT := Fixture.runtime) BOOLEAN (PyStr (py "Off")) = Ret (PyBool false).
Proof.
  split; [discriminate |].
  exact (cast_BOOLEAN_str (RT := Fixture.runtime) (py "Off") ltac:(discriminate)).
Defined.

(** A value that is not a string is coerced to [None]: the branch for
    [BOOLEAN] is guarded by [isinstance(value, str)], and the
    [NotImplementedError] below it is caught by the cast itself. *)
Lemma cast_BOOLEAN_not_str `{RT : PyRuntime} (v : pyval) :
  is_str v = false -> cast BOOLEAN v = Ret PyNone.
Proof.
  intros Hv. destruct v; try discriminate; unfold cast;
    destruct (is_null _); reflexivity.
Qed.

(** C9, as the specification states it, fails on a value that is not a string: the
    integer [1] is not null and is none of the tokens, and the cast gives
    [None], not [True]. *)
Lemma cast_BOOLEAN_int :
  is_null (PyInt 1) = false
  /\ cast (RT := Fixture.runtime) BOOLEAN (PyInt 1) = Ret PyNone
  /\ cast (RT := Fixture.runtime) BOOLEAN (PyInt 1) <> Ret (PyBool true).
Proof. repeat split; discriminate. Qed.

(** ** [update_object] *)

Section UpdateFacts.
Context `{RT : PyRuntime}.

(** When the stored capacity is real and the row has no capacity column,
    the candidate for [capacity] is filtered out (its new value is [None])
    and the candidate for [is_capacity_real] always passes the filter, so
    [change[:-2]] removes the flag together with the last of the four other
    fields that did change. *)
Lemma change_list_real_capacity (nm oh ws ph cp : pyval) (row : Series)
    (name : pyval) (mapping : InsertionMapping) (current_time : pystr) :
  in_row (m_capacity mapping) row = false ->
  change_list [nm; oh; ws; ph; cp; PyBool true] row name mapping current_time
  = removelast
      (List.filter changed
         [(c_name, nm, name);
          (c_opening_hours, oh, row_get (m_opening_hours mapping) PyNone row);
          (c_website, ws, row_get (m_website mapping) PyNone row);
          (c_phone, ph, row_get (m_phone mapping) PyNone row)])
    ++ [(c_updated_at, PyStr (py ""), PyStr current_time)].
Proof.
  intros Hcap. unfold change_list, candidates.
  change (List.last [nm; oh; ws; ph; cp; PyBool true] PyNone) with (PyBool true).
  rewrite Hcap. cbn [andb negb py_bool].
  assert (Hnone : row_get (m_capacity mapping) PyNone row = PyNone).
  { unfold in_row in Hcap. unfold row_get.
    destruct (m_capacity mapping) as [k|]; [|reflexivity].
    destruct (row !! k) eqn:Hk; [|reflexivity].
    apply bool_decide_eq_false_1 in Hcap. exfalso; apply Hcap; eauto. }
  rewrite Hnone.
  f_equal.
  cbn [zip zip_with].
  set (four := [(c_name, nm, name); _; _; _]).
  set (l := List.filter changed four).
  assert (E : List.filter changed
                (four ++ [(c_capacity, cp, PyNone);
                          (c_is_capacity_real, PyBool true, PyBool false)])
              = l ++ [(c_is_capacity_real, PyBool true, PyBool false)]).
  { rewrite List.filter_app. f_equal. cbn [List.filter]. unfold changed at 1.
    cbn [fst snd is_none negb]. rewrite andb_false_r. reflexivity. }
  change (List.filter changed _) with
    (List.filter changed
       (four ++ [(c_capacity, cp, PyNone);
                 (c_is_capacity_real, PyBool true, PyBool false)])).
  rewrite E, length_app, Nat.add_comm. cbn [length Nat.add Nat.sub].
  clearbody l. clear E.
  destruct l as [|x l] using rev_ind; [reflexivity|].
  rewrite length_app. cbn [length]. rewrite Nat.add_sub.
  rewrite <- app_assoc, take_app_length. now rewrite removelast_last.
Qed.

End UpdateFacts.

(** ** Rows the batch does not survive *)

Section Escapes.
Context `{RT : PyRuntime} `{GIS : PostGIS}.
Local Open Scope monad_scope.
Variables (service_type : pystr) (mapping : InsertionMapping)
          (properties_mapping : list (pystr * pystr))
          (address_prefixes : list pystr) (new_prefix : pystr) (commit : bool)
          (city_id service_type_id : Z) (is_service_building : bool).

(** [float(v)] raises [ValueError], [TypeError] or [OverflowError], none
    of which is a [RuntimeError]. *)
Lemma py_float_raises v e :
  py_float v = Raise e -> is_RuntimeError (exn_cls e) = false.
Proof.
  destruct v; cbn; try discriminate; try (intros [= <-]; reflexivity).
  - unfold float_of_Z. destruct (binary_normalize _ _ _ _ _); try discriminate.
    intros [= <-]. reflexivity.
  - destruct (float_of_str s); [discriminate|]. intros [= <-]. reflexivity.
Qed.

(** A row without a geometry blob whose latitude cannot be read as a
    float: the exception of [float] passes the handler of lines 440-443
    and the handler of the row, and leaves the loop. *)
Lemma unparsable_latitude_escapes row v e w :
  in_row (m_geometry mapping) row = false ->
  row_item (m_latitude mapping) row = Ret v ->
  py_float v = Raise e ->
  row_attempt service_type mapping properties_mapping address_prefixes new_prefix
    commit city_id service_type_id is_service_building row w = (Raise e, w).
Proof.
  intros Hg Hv He. pose proof (py_float_raises v e He) as Hr.
  unfold row_attempt, row_body, row_coordinates, try_except_RuntimeError, bind, lift.
  rewrite Hg, Hv, He. cbn. rewrite Hr. cbn. rewrite Hr. reflexivity.
Qed.

(** A row with neither the geometry blob nor the latitude column:
    [row[mapping.latitude]] raises [KeyError] before the test for missing
    fields of lines 461-468 is reached. *)
Lemma missing_latitude_escapes row w :
  in_row (m_geometry mapping) row = false ->
  in_row (m_latitude mapping) row = false ->
  exists e,
    row_attempt service_type mapping properties_mapping address_prefixes new_prefix
      commit city_id service_type_id is_service_building row w = (Raise e, w)
    /\ exn_cls e = KeyError.
Proof.
  intros Hg Hl.
  assert (Hk : exists e, row_item (m_latitude mapping) row = Raise e
                         /\ exn_cls e = KeyError).
  { unfold in_row, row_item in *. destruct (m_latitude mapping) as [k|]; [|eauto].
    destruct (row !! k) eqn:Hk; [|eauto].
    apply bool_decide_eq_false_1 in Hl. exfalso. apply Hl. eauto. }
  destruct Hk as (e & He & Hc). exists e. split; [|exact Hc].
  unfold row_attempt, row_body, row_coordinates, try_except_RuntimeError, bind, lift.
  rewrite Hg, He. cbn. rewrite Hc. cbn. rewrite Hc. reflexivity.
Qed.

(** A building-based row whose address cell is a string, with at least
    one prefix configured: the first turn of the prefix loop calls
    [startswith] with the list of prefixes, which is a [TypeError]. *)
Lemma find_prefix_raises row s prefix rest :
  row_get (m_address mapping) (PyStr (py "")) row = PyStr s ->
  raised_class (find_prefix mapping address_prefixes row (prefix :: rest))
  = Some TypeError.
Proof. intros Hs. cbn. rewrite Hs. reflexivity. Qed.

(** So the prefix loop never breaks with an address: it runs out of
    prefixes (there are none) or raises. *)
Lemma find_prefix_never_extracts row rest address :
  find_prefix mapping address_prefixes row rest <> Ret (Some address).
Proof.
  destruct rest as [|prefix rest]; cbn; [discriminate|].
  destruct (row_get (m_address mapping) (PyStr (py "")) row); discriminate.
Qed.

Lemma row_address_never_extracts row w address w' :
  row_address mapping address_prefixes is_service_building row w
  <> (Ret (Some (Some address)), w').
Proof.
  unfold row_address. destruct (_ && _); [|discriminate].
  unfold bind, lift.
  pose proof (find_prefix_never_extracts row address_prefixes) as Hnever.
  destruct (find_prefix mapping address_prefixes row address_prefixes) as [[a|]|e];
    [|discriminate..].
  now destruct (Hnever a).
Qed.

End Escapes.

Section Evaluations.
Import Fixture.

(** C1.  Scenario B: the address "Россия, Санкт-Петербург, Невский пр-кт, 1"
    with the prefix "Россия, Санкт-Петербург", and a stored building of
    the city whose address ends with "Невский пр-кт, 1" at the row's
    point: the lookup by address would answer with that building.  It is
    never sent: the prefix test raises [TypeError] before an address is
    extracted, [add_objects] raises, and the school is not stored. *)
Theorem scenario_B_never_looks_up_by_address :
  let t := Sample.school_tables in
  let run := Sample.add [Sample.nevsky_school_row] "schools" (Sample.world_of t) in
  select_building_by_address 1 (py "Невский пр-кт, 1") 30.25 59.5 t = Some (100, 200)
  /\ raised_class run.1 = Some TypeError
  /\ rev (trace run.2) = [SelectCity; SelectServiceType; Savepoint; Commit; Savepoint]
  /\ ~ In SelectBuildingByAddress (trace run.2)
  /\ functional_ids (vars run.2) = [-1]
  /\ functional_objects (current (sess run.2)) = [].
Proof.
  vm_compute. repeat split; try reflexivity.
  intros H. repeat (destruct H as [H|H]; [discriminate H|]). exact H.
Qed.

(** C2.  Scenario D: the address "Москва, Тверская, 1" with the single
    prefix "Россия, Санкт-Петербург".  The row is not skipped: the prefix
    test raises [TypeError], no handler catches it and [add_objects] raises;
    nothing beyond the checkpoint of row 0 was sent. *)
Theorem scenario_D_raises_TypeError :
  let run := Sample.add [Sample.moscow_school_row] "schools"
               (Sample.world_of Sample.empty_tables) in
  raised_class run.1 = Some TypeError
  /\ rev (trace run.2) = [SelectCity; SelectServiceType; Savepoint; Commit; Savepoint]
  /\ skipped (vars run.2) = 0.
Proof. vm_compute. repeat split; reflexivity. Qed.

(** C6.  A latitude that is not a number, and a row without the latitude
    column: in both cases the row is not skipped, the exception
    ([ValueError], [KeyError]) leaves [add_objects]. *)
Theorem invalid_coordinates_raise :
  let w := Sample.world_of Sample.empty_tables in
  raised_class (Sample.add [Sample.bad_latitude_row] "cafes" w).1 = Some ValueError
  /\ raised_class (Sample.add [Sample.no_latitude_row] "cafes" w).1 = Some KeyError
  /\ skipped (vars (Sample.add [Sample.bad_latitude_row] "cafes" w).2) = 0
  /\ skipped (vars (Sample.add [Sample.no_latitude_row] "cafes" w).2) = 0.
Proof. vm_compute. repeat split; reflexivity. Qed.

(** C4.  Three rows, the second with a latitude that is not a number.
    The exception of the second row is no [RuntimeError]: it is not caught,
    nothing is rolled back, the row is not counted as skipped, the third
    row is never processed and [add_objects] raises.  The first row's
    insert was made but is not committed. *)
Theorem row_exception_aborts_the_batch :
  let run := Sample.add [Sample.cafe_row; Sample.bad_latitude_row; Sample.bistro_row]
               "cafes" (Sample.world_of Sample.empty_tables) in
  raised_class run.1 = Some ValueError
  /\ i (vars run.2) = 1%nat
  /\ skipped (vars run.2) = 0
  /\ functional_ids (vars run.2) = [300; -1; -1]
  /\ ~ In RollbackTo (trace run.2)
  /\ length (functional_objects (current (sess run.2))) = 1%nat
  /\ functional_objects (committed (sess run.2)) = [].
Proof.
  vm_compute. repeat split; try reflexivity.
  intros H. repeat (destruct H as [H|H]; [discriminate H|]). exact H.
Qed.

(** C5.  The stored cafe has a real capacity; the row has no capacity
    column and a new phone number.  The phone is a change by the test of
    [change], yet the [UPDATE] sets only [updated_at]: [change[:-2]] took
    the phone away together with the capacity flag, and the stored phone
    stays. *)
Theorem update_object_drops_changed_phone :
  let run := update_object Sample.cafe_row 300 (PyStr (py "Cafe")) Sample.mapping []
               true (Sample.world_of Sample.cafe_tables) in
  changed (c_phone, PyStr (py "1"), PyStr (py "2")) = true
  /\ run.1 = Ret 300
  /\ trace run.2
     = [Savepoint;
        UpdateFunctionalObject 300 [(c_updated_at, PyStr (py "2024-01-02 03:04:05"))];
        SelectFunctionalObjectFields]
  /\ map fo_phone (functional_objects (current (sess run.2))) = [PyStr (py "1")].
Proof. vm_compute. repeat split; reflexivity. Qed.

End Evaluations.

(** ** Rules for [on_session] and [sends] *)

Section LogicRules.
Context `{RT : PyRuntime} `{GIS : PostGIS}.
Local Open Scope monad_scope.

Lemma on_session_ret {A} (P : session -> Prop) (a : A) Q E :
  (forall s, P s -> Q a s) -> on_session P (ret a) Q E.
Proof. intros HQ w Hw. cbn. auto. Qed.

Lemma on_session_raise {A} (P : session -> Prop) e (Q : A -> session -> Prop) E :
  (forall s, P s -> E s) -> on_session P (raise e) Q E.
Proof. intros HE w Hw. cbn. auto. Qed.

Lemma on_session_lift {A} (P : session -> Prop) (r : result A) Q E :
  (forall a s, r = Ret a -> P s -> Q a s) -> (forall s, P s -> E s) ->
  on_session P (lift r) Q E.
Proof. intros HQ HE w Hw. unfold lift. destruct r; auto. Qed.

Lemma on_session_bind {A B} (P : session -> Prop) (m : M A) (k : A -> M B) R Q E :
  on_session P m R E -> (forall a, on_session (R a) (k a) Q E) ->
  on_session P (bind m k) Q E.
Proof.
  intros Hm Hk w Hw. unfold bind. specialize (Hm w Hw).
  destruct (m w) as [[a|e] w1]; [apply (Hk a w1 Hm) | exact Hm].
Qed.

Lemma on_session_weaken {A} (P P' : session -> Prop) (m : M A) Q Q' E E' :
  on_session P' m Q' E' ->
  (forall s, P s -> P' s) -> (forall a s, Q' a s -> Q a s) -> (forall s, E' s -> E s) ->
  on_session P m Q E.
Proof.
  intros Hm HP HQ HE w Hw. specialize (Hm w (HP _ Hw)).
  destruct (m w) as [[a|e] w1]; auto.
Qed.

Lemma on_session_with_vars (P : session -> Prop) f E :
  on_session P (with_vars f) (fun _ => P) E.
Proof. intros w Hw. exact Hw. Qed.

Lemma on_session_get_vars (P : session -> Prop) E :
  on_session P get_vars (fun _ => P) E.
Proof. intros w Hw. exact Hw. Qed.

Lemma on_session_execute {A} (P : session -> Prop) st
    (run : session -> result A * session) Q E :
  (forall s, P s -> E s) ->
  (forall s, P s -> match run s with
                    | (Ret a, s') => Q a s'
                    | (Raise _, s') => E s'
                    end) ->
  on_session P (execute st run) Q E.
Proof.
  intros HE Hrun w Hw. unfold execute.
  destruct (faults w) as [|[e|] rest]; cbn; auto;
    specialize (Hrun _ Hw); destruct (run (sess w)) as [[a|e] s']; exact Hrun.
Qed.

Lemma on_session_query {A} (P : session -> Prop) st (q : tables -> result A) :
  on_session P (query st q) (fun _ => P) P.
Proof.
  apply on_session_execute; [auto|]. intros s Hs. destruct (q (current s)); exact Hs.
Qed.

Lemma on_session_try {A} (P : session -> Prop) (m : M A) handler Q E1 E :
  on_session P m Q E1 -> (forall e, on_session E1 (handler e) Q E) ->
  (forall s, E1 s -> E s) ->
  on_session P (try_except_RuntimeError m handler) Q E.
Proof.
  intros Hm Hh HE w Hw. unfold try_except_RuntimeError. specialize (Hm w Hw).
  destruct (m w) as [[a|e] w1]; [exact Hm|].
  destruct (is_RuntimeError (exn_cls e)); [apply (Hh e w1 Hm) | cbn; auto].
Qed.

Lemma sends_ret {A} P (a : A) : sends P (ret a).
Proof. intros w. exists []. split; [reflexivity | constructor]. Qed.

Lemma sends_raise {A} P e : sends P (raise e : M A).
Proof. intros w. exists []. split; [reflexivity | constructor]. Qed.

Lemma sends_lift {A} P (r : result A) : sends P (lift r).
Proof. intros w. exists []. split; [reflexivity | constructor]. Qed.

Lemma sends_with_vars P f : sends P (with_vars f).
Proof. intros w. exists []. split; [reflexivity | constructor]. Qed.

Lemma sends_execute {A} (P : statement -> Prop) st (run : session -> result A * session) :
  P st -> sends P (execute st run).
Proof.
  intros Hst w. exists [st]. split; [|repeat constructor; exact Hst].
  unfold execute. destruct (faults w) as [|[e|] rest]; cbn;
    try destruct (run (sess w)); reflexivity.
Qed.

Lemma sends_bind {A B} P (m : M A) (k : A -> M B) :
  sends P m -> (forall a, sends P (k a)) -> sends P (bind m k).
Proof.
  intros Hm Hk w. unfold bind. destruct (Hm w) as (n1 & E1 & F1).
  destruct (m w) as [[a|e] w1]; cbn in *.
  - destruct (Hk a w1) as (n2 & E2 & F2). exists (n2 ++ n1). split.
    + rewrite E2, E1. apply app_assoc.
    + apply Forall_app; auto.
  - exists n1. auto.
Qed.

Lemma sends_try {A} P (m : M A) handler :
  sends P m -> (forall e, sends P (handler e)) ->
  sends P (try_except_RuntimeError m handler).
Proof.
  intros Hm Hh w. unfold try_except_RuntimeError. destruct (Hm w) as (n1 & E1 & F1).
  destruct (m w) as [[a|e] w1]; cbn in *; [exists n1; auto|].
  destruct (is_RuntimeError (exn_cls e)); [|exists n1; auto].
  destruct (Hh e w1) as (n2 & E2 & F2). exists (n2 ++ n1). split.
  - rewrite E2, E1. apply app_assoc.
  - apply Forall_app; auto.
Qed.

End LogicRules.

(** ** Savepoints *)

Section Savepoints.
Context `{RT : PyRuntime} `{GIS : PostGIS}.
Local Open Scope monad_scope.

Lemma reads_ret {A} (a : A) : reads (ret a).
Proof. intros w. reflexivity. Qed.

Lemma reads_raise {A} e : reads (raise e : M A).
Proof. intros w. reflexivity. Qed.

Lemma reads_lift {A} (r : result A) : reads (lift r).
Proof. intros w. reflexivity. Qed.

Lemma reads_with_vars f : reads (with_vars f).
Proof. intros w. reflexivity. Qed.

Lemma reads_get_vars : reads get_vars.
Proof. intros w. reflexivity. Qed.

Lemma reads_query {A} st (q : tables -> result A) : reads (query st q).
Proof.
  intros w. unfold query, execute.
  destruct (faults w) as [|[e|] rest]; cbn; try destruct (q _); reflexivity.
Qed.

Lemma reads_execute {A} st (run : session -> result A * session) :
  (forall s, (run s).2 = s) -> reads (execute st run).
Proof.
  intros Hrun w. unfold execute.
  destruct (faults w) as [|[e|] rest]; cbn; try reflexivity;
    specialize (Hrun (sess w)); destruct (run (sess w)); exact Hrun.
Qed.

Lemma reads_bind {A B} (m : M A) (k : A -> M B) :
  reads m -> (forall a, reads (k a)) -> reads (bind m k).
Proof.
  intros Hm Hk w. unfold bind. specialize (Hm w).
  destruct (m w) as [[a|e] w1]; cbn in *; [rewrite Hk|]; exact Hm.
Qed.

Lemma reads_try {A} (m : M A) handler :
  reads m -> (forall e, reads (handler e)) -> reads (try_except_RuntimeError m handler).
Proof.
  intros Hm Hh w. unfold try_except_RuntimeError. specialize (Hm w).
  destruct (m w) as [[a|e] w1]; cbn in *; [exact Hm|].
  destruct (is_RuntimeError (exn_cls e)); [rewrite Hh|]; exact Hm.
Qed.

Lemma reads_keeps {A} (m : M A) : reads m -> keeps_savepoints m.
Proof. intros Hm w. now rewrite Hm. Qed.

Lemma keeps_bind {A B} (m : M A) (k : A -> M B) :
  keeps_savepoints m -> (forall a, keeps_savepoints (k a)) ->
  keeps_savepoints (bind m k).
Proof.
  intros Hm Hk w. unfold bind. specialize (Hm w).
  destruct (m w) as [[a|e] w1]; cbn in *; [rewrite Hk|]; exact Hm.
Qed.

Lemma keeps_execute {A} st (run : session -> result A * session) :
  (forall s, savepoints (run s).2 = savepoints s) ->
  keeps_savepoints (execute st run).
Proof.
  intros Hrun w. unfold execute.
  destruct (faults w) as [|[e|] rest]; cbn; try reflexivity;
    specialize (Hrun (sess w)); destruct (run (sess w)); exact Hrun.
Qed.

Lemma on_session_reads {A} (P : session -> Prop) (m : M A) :
  reads m -> on_session P m (fun _ => P) P.
Proof.
  intros Hm w Hw. specialize (Hm w). destruct (m w) as [[a|e] w1]; cbn in Hm;
    now rewrite Hm.
Qed.

Lemma clean_held T s : clean T s -> held T s.
Proof. now intros [? _]. Qed.

Lemma clean_fresh T s : clean T s -> fresh s.
Proof. intros [Hh Hc]. unfold fresh. now rewrite Hc. Qed.

Lemma on_session_reads_to {A} (P E : session -> Prop) (m : M A) :
  reads m -> (forall s, P s -> E s) -> on_session P m (fun _ => P) E.
Proof.
  intros Hm HE. eapply on_session_weaken; [apply (on_session_reads P m Hm)|..]; auto.
Qed.

Lemma reads_randint a b : reads (randint a b).
Proof.
  intros w. unfold randint. destruct a, b; try reflexivity.
  destruct (_ <? _); reflexivity.
Qed.

Lemma on_session_keeps {A} (T : tables) (m : M A) :
  keeps_savepoints m -> on_session (held T) m (fun _ => held T) (held T).
Proof.
  intros Hm w Hw. specialize (Hm w). unfold held in *.
  destruct (m w) as [[a|e] w1]; cbn in Hm; now rewrite Hm.
Qed.

End Savepoints.

(** Decomposes a goal [reads m] or [keeps_savepoints m] along the
    structure of [m]. *)
Ltac footprint :=
  repeat first
    [ apply reads_ret | apply reads_raise | apply reads_lift | apply reads_with_vars
    | apply reads_get_vars | apply reads_query | apply reads_randint
    | apply reads_execute; intros ?; reflexivity
    | apply keeps_execute; intros ?;
      first [reflexivity | destruct (ST_GeomFromGeoJSON _); reflexivity]
    | apply reads_bind; [|intros ?]
    | apply reads_try; [|intros ?]
    | apply keeps_bind; [|intros ?]
    | match goal with
      | |- reads (match ?x with _ => _ end) => destruct x
      | |- keeps_savepoints (match ?x with _ => _ end) => destruct x
      | |- reads (if ?b then _ else _) => destruct b
      | |- keeps_savepoints (if ?b then _ else _) => destruct b
      end
    | progress unfold blob_parameters, point_parameters, update_geometry, rollback_row,
        conn_commit, conn_rollback, lookup_by_address, lookup_building_by_geometry,
        lookup_physical_object
    | apply reads_keeps ].

Section SavepointFacts.
Context `{RT : PyRuntime} `{GIS : PostGIS}.
Local Open Scope monad_scope.
Variables (service_type : pystr) (mapping : InsertionMapping)
          (properties_mapping : list (pystr * pystr))
          (address_prefixes : list pystr) (new_prefix : pystr)
          (city_id service_type_id : Z) (is_service_building : bool).

Lemma savepoint_fresh T :
  on_session (held T) SAVEPOINT_previous_object (fun _ => fresh) (held T).
Proof.
  apply on_session_execute; [auto|]. intros s Hs. unfold fresh, held. cbn. eauto.
Qed.

Lemma rollback_to_clean T :
  on_session (held T) ROLLBACK_TO_previous_object (fun _ => clean T) (held T).
Proof.
  apply on_session_execute; [auto|]. intros s [rest Hs].
  unfold do_rollback_to. rewrite Hs. cbn [rollback_to].
  change (pystr_eqb previous_object previous_object) with true. cbn.
  split; [exists rest|]; reflexivity.
Qed.

(** In commit mode [insert_object] ends by setting the savepoint: when it
    returns, the savepoint holds the tables with the new functional
    object; when it raises, the savepoint it found is still the latest. *)
Lemma insert_object_session T row phys_id name :
  on_session (held T)
    (insert_object row phys_id name service_type_id mapping properties_mapping true)
    (fun _ => fresh) (held T).
Proof.
  unfold insert_object.
  eapply on_session_bind; [apply on_session_keeps; footprint | intros fetched].
  eapply on_session_bind; [apply on_session_keeps; footprint | intros [[cmin cmax] ids]].
  eapply on_session_bind; [apply on_session_keeps; footprint | intros [capacity real]].
  eapply on_session_bind; [apply on_session_keeps; footprint | intros id].
  eapply on_session_bind; [apply savepoint_fresh | intros ?; cbv beta].
  apply on_session_ret; auto.
Qed.

Lemma update_object_session T row fo name :
  on_session (held T)
    (update_object row fo name mapping properties_mapping true)
    (fun _ => fresh) (held T).
Proof.
  unfold update_object.
  eapply on_session_bind; [apply on_session_keeps; footprint | intros fetched].
  eapply on_session_bind; [apply on_session_keeps; footprint | intros stored].
  eapply on_session_bind;
    [apply on_session_keeps; intros w; reflexivity | intros t].
  eapply on_session_bind; [apply on_session_keeps; footprint | intros ?; cbv beta].
  eapply on_session_bind; [apply on_session_keeps; footprint | intros ?; cbv beta].
  eapply on_session_bind; [apply savepoint_fresh | intros ?; cbv beta].
  apply on_session_ret; auto.
Qed.

Lemma rollback_row_clean T :
  on_session (held T) (rollback_row true) (fun _ => clean T) (held T).
Proof. apply rollback_to_clean. Qed.

Lemma bind_reads {A B} (P E : session -> Prop) (m : M A) (k : A -> M B) Q :
  reads m -> (forall s, P s -> E s) -> (forall a, on_session P (k a) Q E) ->
  on_session P (bind m k) Q E.
Proof.
  intros Hm HE Hk. apply on_session_bind with (R := fun _ => P); [|exact Hk].
  now apply on_session_reads_to.
Qed.

Lemma bind_with_vars {B} (P E : session -> Prop) f (k : unit -> M B) Q :
  on_session P (k tt) Q E -> on_session P (bind (with_vars f) k) Q E.
Proof.
  intros Hk. apply on_session_bind with (R := fun _ => P).
  - apply on_session_with_vars.
  - intros []. exact Hk.
Qed.

Lemma row_coordinates_session T row :
  on_session (clean T) (row_coordinates mapping true row)
    (fun _ => clean T) (held T).
Proof.
  unfold row_coordinates. destruct (in_row (m_geometry mapping) row).
  - eapply on_session_try with (E1 := clean T).
    + apply on_session_reads. footprint.
    + intros e.
      apply bind_reads; [footprint | apply clean_held | intros _].
      apply on_session_bind with (R := fun _ => clean T).
      * eapply on_session_weaken; [apply (rollback_row_clean T) | apply clean_held | ..];
          cbv beta; auto.
      * intros _. apply on_session_ret; auto.
    + apply clean_held.
  - apply on_session_reads_to; [|apply clean_held]. footprint.
Qed.

Local Abbreviation container_post T :=
  (fun found s => match found with Updated => fresh s | _ => clean T s end).

Lemma update_existing_session T row fo name (message : pystr) :
  on_session (clean T)
    (update_existing mapping properties_mapping true row name fo message)
    (container_post T) (held T).
Proof.
  unfold update_existing. do 2 apply bind_with_vars.
  apply on_session_bind with (R := fun _ => fresh).
  { eapply on_session_weaken; [apply (update_object_session T) | apply clean_held | ..];
      cbv beta; auto. }
  intros _. apply bind_with_vars. apply on_session_ret; auto.
Qed.

Lemma found_by_address_session T row name phys build :
  on_session (clean T)
    (found_by_address mapping properties_mapping true service_type_id row name
       phys build)
    (container_post T) (held T).
Proof.
  unfold found_by_address.
  apply bind_reads; [footprint | apply clean_held | intros [fo|]].
  - apply update_existing_session.
  - do 2 apply bind_with_vars. apply on_session_ret; auto.
Qed.

Lemma found_building_by_geometry_session T row name geom_type current_geom_type
    phys build stored :
  on_session (clean T)
    (found_building_by_geometry mapping properties_mapping true service_type_id
       row name geom_type current_geom_type phys build stored)
    (container_post T) (held T).
Proof.
  unfold found_building_by_geometry.
  apply bind_reads; [footprint | apply clean_held | intros [fo|]].
  - apply update_existing_session.
  - do 2 apply bind_with_vars.
    apply bind_reads; [footprint | apply clean_held | intros _].
    apply on_session_ret; auto.
Qed.

Lemma found_physical_object_session T row name geom_type current_geom_type phys :
  on_session (clean T)
    (found_physical_object mapping properties_mapping true service_type_id
       row name geom_type current_geom_type phys)
    (container_post T) (held T).
Proof.
  unfold found_physical_object.
  apply bind_reads; [footprint | apply clean_held | intros [fo|]].
  - apply update_existing_session.
  - do 2 apply bind_with_vars.
    apply bind_reads; [footprint | apply clean_held | intros _].
    apply on_session_ret; auto.
Qed.

Lemma building_container_session T row name address geom_type longitude latitude
    municipality_id administrative_unit_id :
  on_session (clean T)
    (building_container mapping properties_mapping true city_id service_type_id
       row name address geom_type longitude latitude municipality_id
       administrative_unit_id)
    (container_post T) (held T).
Proof.
  unfold building_container.
  apply bind_reads; [footprint | apply clean_held | intros [[phys build]|]].
  - apply found_by_address_session.
  - apply bind_reads; [footprint | apply clean_held |].
    intros [[[[current_geom_type phys] build] stored]|].
    + apply found_building_by_geometry_session.
    + apply on_session_ret; auto.
Qed.

Lemma physical_container_session T row name geom_type longitude latitude
    municipality_id administrative_unit_id :
  on_session (clean T)
    (physical_container mapping properties_mapping true city_id service_type_id
       row name geom_type longitude latitude municipality_id administrative_unit_id)
    (container_post T) (held T).
Proof.
  unfold physical_container.
  apply bind_reads; [footprint | apply clean_held | intros [[current_geom_type phys]|]].
  - apply found_physical_object_session.
  - apply on_session_ret; auto.
Qed.

Lemma keeps_new_container row address geom_type longitude latitude
    municipality_id administrative_unit_id :
  keeps_savepoints
    (new_container mapping new_prefix city_id is_service_building row address
       geom_type longitude latitude municipality_id administrative_unit_id).
Proof. unfold new_container. footprint. Qed.

Lemma insert_into_session T row phys name :
  on_session (held T)
    (id <- insert_object row phys name service_type_id mapping properties_mapping true ;;
     with_vars (set_functional_id id))
    (fun _ => fresh) (held T).
Proof.
  apply on_session_bind with (R := fun _ => fresh); [apply insert_object_session|].
  intros id. apply on_session_with_vars.
Qed.

Lemma row_upsert_session T row geom_type latitude longitude address :
  on_session (clean T)
    (row_upsert service_type mapping properties_mapping new_prefix true city_id
       service_type_id is_service_building row geom_type latitude longitude address)
    (fun _ => fresh) (held T).
Proof.
  unfold row_upsert.
  apply bind_reads; [footprint | apply clean_held | intros municipality_id].
  apply bind_reads; [footprint | apply clean_held | intros administrative_unit_id].
  apply on_session_bind with (R := container_post T).
  { destruct is_service_building;
      [apply building_container_session | apply physical_container_session]. }
  intros [|phys|].
  - apply on_session_ret; auto.
  - eapply on_session_weaken; [apply (insert_into_session T) | apply clean_held | ..]; auto.
  - apply on_session_bind with (R := fun _ => held T).
    + eapply on_session_weaken;
        [apply (on_session_keeps T), keeps_new_container | apply clean_held | ..]; auto.
    + intros phys. apply insert_into_session.
Qed.

Lemma row_body_session T row :
  on_session (clean T)
    (row_body service_type mapping properties_mapping address_prefixes new_prefix true
       city_id service_type_id is_service_building row)
    (fun _ => fresh) (held T).
Proof.
  unfold row_body.
  apply on_session_bind with (R := fun _ => clean T); [apply row_coordinates_session|].
  intros [[[geom_type latitude] longitude]|].
  2:{ apply on_session_ret. apply clean_fresh. }
  apply bind_reads; [unfold row_address; footprint | apply clean_held | intros [address|]].
  2:{ apply on_session_ret. apply clean_fresh. }
  destruct (_ && _).
  - apply bind_with_vars.
    apply on_session_weaken
      with (P' := clean T) (Q' := fun _ => clean T) (E' := held T);
      [apply on_session_with_vars | auto | intros _ s; apply clean_fresh | auto].
  - apply row_upsert_session.
Qed.

Lemma row_failed_session T e :
  on_session (held T) (row_failed true e) (fun _ => clean T) (held T).
Proof.
  unfold row_failed.
  apply on_session_bind with (R := fun _ => clean T); [apply rollback_row_clean|].
  intros _. apply bind_with_vars. apply on_session_with_vars.
Qed.

Lemma row_attempt_session T row :
  on_session (clean T)
    (row_attempt service_type mapping properties_mapping address_prefixes new_prefix
       true city_id service_type_id is_service_building row)
    (fun _ => fresh) (held T).
Proof.
  unfold row_attempt. apply on_session_try with (E1 := held T).
  - apply row_body_session.
  - intros e.
    apply on_session_weaken
      with (P' := held T) (Q' := fun _ => clean T) (E' := held T);
      [apply row_failed_session | auto | intros ? s; apply clean_fresh | auto].
  - auto.
Qed.

Lemma checkpoint_session T log_n idx :
  on_session (fun s => fresh s /\ current s = T) (checkpoint true log_n idx)
    (fun _ s => clean T s) (fun _ => True).
Proof.
  unfold checkpoint.
  destruct (log_n =? 0); [apply on_session_raise; auto|].
  destruct (_ =? 0).
  2:{ apply on_session_ret. intros s [Hf Hs]. split; [|exact Hs]. now rewrite <- Hs. }
  apply on_session_bind with (R := fun _ s => current s = T).
  - apply on_session_execute; [auto|]. intros s [_ Hs]. exact Hs.
  - intros _. apply on_session_execute; [auto|]. intros s Hs. cbn.
    split; [|exact Hs]. unfold held. cbn. rewrite Hs. eauto.
Qed.

Lemma row_step_session T log_n idx row :
  on_session (fun s => fresh s /\ current s = T)
    (row_step service_type mapping properties_mapping address_prefixes new_prefix
       true city_id service_type_id is_service_building log_n idx row)
    (fun _ => fresh) (fun _ => True).
Proof.
  unfold row_step. apply bind_with_vars.
  apply on_session_bind with (R := fun _ => clean T); [apply checkpoint_session|].
  intros _.
  apply on_session_weaken with (P' := clean T) (Q' := fun _ => fresh) (E' := held T);
    [apply row_attempt_session | auto..].
Qed.

Lemma row_step_fresh log_n idx row :
  on_session fresh
    (row_step service_type mapping properties_mapping address_prefixes new_prefix
       true city_id service_type_id is_service_building log_n idx row)
    (fun _ => fresh) (fun _ => True).
Proof.
  intros w Hw. exact (row_step_session (current (sess w)) log_n idx row w (conj Hw eq_refl)).
Qed.

Lemma rows_loop_fresh log_n rows : forall idx,
  on_session fresh
    (rows_loop service_type mapping properties_mapping address_prefixes new_prefix
       true city_id service_type_id is_service_building log_n idx rows)
    (fun _ => fresh) (fun _ => True).
Proof.
  induction rows as [|row rest IH]; intros idx; cbn [rows_loop].
  - apply on_session_ret; auto.
  - apply on_session_bind with (R := fun _ => fresh); [apply row_step_fresh|].
    intros _. apply IH.
Qed.

End SavepointFacts.

(** ** Runs that return *)

Section Returns.
Context `{RT : PyRuntime} `{GIS : PostGIS}.
Local Open Scope monad_scope.

Lemma bind_returns {A B} (m : M A) (k : A -> M B) w b w' :
  bind m k w = (Ret b, w') ->
  exists a w1, m w = (Ret a, w1) /\ k a w1 = (Ret b, w').
Proof.
  unfold bind. destruct (m w) as [[a|e] w1]; [eauto | discriminate].
Qed.

Lemma execute_returns {A} st (run : session -> result A * session) w a w' :
  execute st run w = (Ret a, w') ->
  run (sess w) = (Ret a, sess w')
  /\ trace w' = st :: trace w /\ vars w' = vars w.
Proof.
  unfold execute. destruct (faults w) as [|[e|] rest]; try discriminate;
    destruct (run (sess w)) as [r s']; intros [= -> <-]; cbn; auto.
Qed.

Lemma query_returns {A} st (q : tables -> result A) w a w' :
  query st q w = (Ret a, w') ->
  q (current (sess w)) = Ret a
  /\ sess w' = sess w /\ trace w' = st :: trace w /\ vars w' = vars w.
Proof.
  intros Hq. apply execute_returns in Hq as (Hrun & Ht & Hv).
  injection Hrun as Hr Hs. auto.
Qed.

Lemma lift_returns {A} (r : result A) w a w' :
  lift r w = (Ret a, w') -> r = Ret a /\ w' = w.
Proof. unfold lift. intros [= -> <-]. auto. Qed.

Lemma ret_returns {A} (x : A) w a w' : ret x w = (Ret a, w') -> a = x /\ w' = w.
Proof. unfold ret. intros [= <- <-]. auto. Qed.

Lemma with_vars_returns f w a w' :
  with_vars f w = (Ret a, w') ->
  sess w' = sess w /\ trace w' = trace w /\ vars w' = f (vars w).
Proof. unfold with_vars. intros [= _ <-]. auto. Qed.

Lemma randint_returns lo hi w a w' :
  randint lo hi w = (Ret a, w') ->
  sess w' = sess w /\ trace w' = trace w /\ vars w' = vars w.
Proof.
  unfold randint. destruct lo, hi; try discriminate.
  destruct (_ <? _); [discriminate|]. intros [= _ <-]. auto.
Qed.

(** A query either meets a fault or answers from the tables; the session
    is the same either way. *)
Lemma query_runs {A} st (q : tables -> result A) w :
  (exists e, query st q w = (Raise e, after st w))
  \/ query st q w = (q (current (sess w)), after st w).
Proof.
  unfold query, execute, after. destruct (faults w) as [|[e|] rest]; cbn; eauto.
Qed.

Lemma update_object_returns row fo name mapping properties_mapping commit w id w' :
  update_object row fo name mapping properties_mapping commit w = (Ret id, w') ->
  id = fo /\ vars w' = vars w
  /\ exists set later,
       trace w' = later ++ UpdateFunctionalObject fo set
                            :: SelectFunctionalObjectFields :: trace w.
Proof.
  unfold update_object. intros Hrun.
  apply bind_returns in Hrun as (fetched & w1 & Hq & Hrun).
  apply bind_returns in Hrun as (stored & w2 & Hl & Hrun).
  apply bind_returns in Hrun as (t & w3 & Ht & Hrun).
  apply bind_returns in Hrun as ([] & w4 & Hupd & Hrun).
  apply bind_returns in Hrun as ([] & w5 & Hprops & Hrun).
  apply bind_returns in Hrun as ([] & w6 & Hsp & Hrun).
  apply ret_returns in Hrun as [-> ->].
  apply query_returns in Hq as (_ & _ & Ht1 & Hv1).
  apply lift_returns in Hl as [_ ->].
  injection Ht as _ <-.
  apply execute_returns in Hupd as (_ & Ht4 & Hv4).
  assert (H5 : vars w5 = vars w4 /\ exists l, trace w5 = l ++ trace w4).
  { destruct (negb _).
    - apply execute_returns in Hprops as (_ & Ht5 & Hv5). split; [auto|].
      exists [UpdateFunctionalObjectProperties]. exact Ht5.
    - apply ret_returns in Hprops as [_ ->]. split; [auto|]. now exists []. }
  destruct H5 as (Hv5 & l5 & Ht5).
  assert (H6 : vars w6 = vars w5 /\ exists l, trace w6 = l ++ trace w5).
  { destruct commit.
    - apply execute_returns in Hsp as (_ & Ht6 & Hv6). split; [auto|].
      exists [Savepoint]. exact Ht6.
    - apply ret_returns in Hsp as [_ ->]. split; [auto|]. now exists []. }
  destruct H6 as (Hv6 & l6 & Ht6).
  split; [reflexivity|]. split; [congruence|].
  eexists _, (l6 ++ l5). rewrite Ht6, Ht5, Ht4, Ht1, <- app_assoc. reflexivity.
Qed.

(** In commit mode [insert_object] sets the savepoint right after the
    [INSERT], and what the savepoint holds is what the transaction sees. *)
Lemma insert_object_sets_savepoint row phys_id name service_type_id mapping
    properties_mapping w id w' :
  insert_object row phys_id name service_type_id mapping properties_mapping true w
  = (Ret id, w') ->
  fresh (sess w')
  /\ exists before, trace w' = Savepoint :: InsertFunctionalObject :: before.
Proof.
  unfold insert_object. intros Hrun.
  apply bind_returns in Hrun as (fetched & w1 & _ & Hrun).
  apply bind_returns in Hrun as ([[cmin cmax] ids] & w2 & _ & Hrun).
  apply bind_returns in Hrun as ([capacity real] & w3 & _ & Hrun).
  apply bind_returns in Hrun as (fo & w4 & Hins & Hrun).
  apply bind_returns in Hrun as ([] & w5 & Hsp & Hrun).
  apply ret_returns in Hrun as [-> ->].
  apply execute_returns in Hins as (_ & Ht4 & _).
  apply execute_returns in Hsp as (Hs5 & Ht5 & _).
  injection Hs5 as Hs5. split.
  - rewrite <- Hs5. unfold fresh, held. cbn. eauto.
  - rewrite Ht5, Ht4. eauto.
Qed.

(** The same for [update_object]: the savepoint follows the last
    [UPDATE]. *)
Lemma update_object_sets_savepoint row fo name mapping properties_mapping w id w' :
  update_object row fo name mapping properties_mapping true w = (Ret id, w') ->
  fresh (sess w')
  /\ exists set before,
       trace w' = Savepoint :: UpdateFunctionalObject fo set :: before
       \/ trace w' = Savepoint :: UpdateFunctionalObjectProperties
                       :: UpdateFunctionalObject fo set :: before.
Proof.
  unfold update_object. intros Hrun.
  apply bind_returns in Hrun as (fetched & w1 & _ & Hrun).
  apply bind_returns in Hrun as (stored & w2 & _ & Hrun).
  apply bind_returns in Hrun as (t & w3 & _ & Hrun).
  apply bind_returns in Hrun as ([] & w4 & Hupd & Hrun).
  apply bind_returns in Hrun as ([] & w5 & Hprops & Hrun).
  apply bind_returns in Hrun as ([] & w6 & Hsp & Hrun).
  apply ret_returns in Hrun as [-> ->].
  apply execute_returns in Hupd as (_ & Ht4 & _).
  apply execute_returns in Hsp as (Hs6 & Ht6 & _).
  injection Hs6 as Hs6. split.
  - rewrite <- Hs6. unfold fresh, held. cbn. eauto.
  - rewrite Ht6. destruct (negb _).
    + apply execute_returns in Hprops as (_ & Ht5 & _). rewrite Ht5, Ht4. eauto.
    + apply ret_returns in Hprops as [_ ->]. rewrite Ht4. eauto.
Qed.

End Returns.

Section RowFailure.
Context `{RT : PyRuntime} `{GIS : PostGIS}.
Local Open Scope monad_scope.
Variables (service_type : pystr) (mapping : InsertionMapping)
          (properties_mapping : list (pystr * pystr))
          (address_prefixes : list pystr) (new_prefix : pystr)
          (city_id service_type_id : Z) (is_service_building : bool).

(** C10.  Commit mode.  The loop has processed the rows [earlier] and
    reached [row], whose body raises an exception that the handler of the
    inner [try] takes care of.  Then the tables are exactly those the
    earlier rows left: [ROLLBACK TO previous_object] discards the writes of
    the failing row and nothing else, because every earlier row ended by
    setting the savepoint ([insert_object_sets_savepoint],
    [update_object_sets_savepoint]).  The savepoint is fresh again
    afterwards. *)
Theorem earlier_writes_survive_row_failure
    (log_n : Z) (idx : nat) (earlier : list Series) (row : Series)
    (w w1 w2 w3 w' : world) (e : exn) :
  fresh (sess w) ->
  rows_loop service_type mapping properties_mapping address_prefixes new_prefix true
    city_id service_type_id is_service_building log_n idx earlier w = (Ret tt, w1) ->
  (with_vars (set_i (idx + length earlier)) ;;
   checkpoint true log_n (idx + length earlier)) w1 = (Ret tt, w2) ->
  row_body service_type mapping properties_mapping address_prefixes new_prefix true
    city_id service_type_id is_service_building row w2 = (Raise e, w3) ->
  row_attempt service_type mapping properties_mapping address_prefixes new_prefix true
    city_id service_type_id is_service_building row w2 = (Ret tt, w') ->
  current (sess w') = current (sess w1) /\ fresh (sess w').
Proof.
  intros Hw Hloop Hcheck Hbody Hattempt.
  pose proof (rows_loop_fresh service_type mapping properties_mapping address_prefixes
                new_prefix city_id service_type_id is_service_building
                log_n earlier idx w Hw) as H1.
  rewrite Hloop in H1.
  set (T := current (sess w1)).
  assert (H2 : clean T (sess w2)).
  { apply bind_returns in Hcheck as ([] & w0 & Hv & Hcheck).
    apply with_vars_returns in Hv as (Hs0 & _).
    pose proof (checkpoint_session T log_n (idx + length earlier) w0) as Hc.
    rewrite Hs0 in Hc. specialize (Hc (conj H1 eq_refl)).
    now rewrite Hcheck in Hc. }
  pose proof (row_body_session service_type mapping properties_mapping address_prefixes
                new_prefix city_id service_type_id is_service_building T row w2 H2)
    as H3.
  rewrite Hbody in H3.
  unfold row_attempt, try_except_RuntimeError in Hattempt. rewrite Hbody in Hattempt.
  destruct (is_RuntimeError (exn_cls e)); [|discriminate].
  pose proof (row_failed_session T e w3 H3) as H4. rewrite Hattempt in H4.
  split; [apply H4 | apply (clean_fresh T), H4].
Qed.

End RowFailure.

Lemma earlier_writes_survive_row_failure_witness :
  let w := Sample.started Sample.empty_tables Sample.library_failure in
  let w1 := (Sample.cafes_loop true 0 [Sample.cafe_row] w).2 in
  let w2 := (bind (with_vars (set_i 1)) (fun _ => checkpoint true 200 1) w1).2 in
  let w' := (Sample.cafes_attempt true Sample.bistro_row w2).2 in
  length (functional_objects (current (sess w1))) = 1%nat
  /\ current (sess w') = current (sess w1) /\ fresh (sess w').
Proof.
  intros w w1 w2 w'. split; [reflexivity|].
  apply (earlier_writes_survive_row_failure (RT := Fixture.runtime) (GIS := Fixture.server)
           (py "cafes") Sample.mapping [] [py "Россия, Санкт-Петербург"] (py "")
           1 11 false 200 0 [Sample.cafe_row] Sample.bistro_row
           w w1 w2 (Sample.cafes_body true Sample.bistro_row w2).2 w'
           (Exn RuntimeError (py "generator raised StopIteration"))).
  - exists []. reflexivity.
  - vm_compute. reflexivity.
  - vm_compute. reflexivity.
  - vm_compute. reflexivity.
  - vm_compute. reflexivity.
Defined.

(** ** The lookups before the loop *)

Section EarlyReturn.
Context `{RT : PyRuntime} `{GIS : PostGIS}.
Local Open Scope monad_scope.

Lemma with_outcomes_replicate (objects : list Series) (msg : pystr) (id : Z) :
  with_outcomes objects (replicate (length objects) msg) (replicate (length objects) id)
  = map (fun row => with_outcome row msg id) objects.
Proof.
  unfold with_outcomes. apply list_eq. intros j.
  rewrite list_lookup_imap, list_lookup_fmap.
  destruct (objects !! j) as [row|] eqn:Hj; [|reflexivity]. cbn.
  apply lookup_lt_Some in Hj.
  rewrite !(list_lookup_total_correct _ j _ (lookup_replicate_2 _ _ _ Hj)).
  reflexivity.
Qed.

(** The two columns [add_objects] adds to a row: [result] and
    [functional_obj_id] hold the outcome, every other cell is the row's. *)
Lemma with_outcome_cells (row : Series) (msg : pystr) (id : Z) :
  with_outcome row msg id !! py "result" = Some (PyStr msg)
  /\ with_outcome row msg id !! py "functional_obj_id" = Some (PyInt id)
  /\ forall k, k <> py "result" -> k <> py "functional_obj_id" ->
               with_outcome row msg id !! k = row !! k.
Proof.
  unfold with_outcome, Series. split; [|split].
  - rewrite lookup_insert_ne by (vm_compute; discriminate).
    apply lookup_insert_eq.
  - apply lookup_insert_eq.
  - intros k Hr Hf. rewrite !lookup_insert_ne by congruence. reflexivity.
Qed.

Lemma query_no_fault {A} st (q : tables -> result A) w :
  fault_at 0 w = None ->
  query st q w
  = (q (current (sess w)),
     {| sess := sess w; faults := tail (faults w); randoms := randoms w;
        localtime := localtime w; stdin := stdin w; trace := st :: trace w;
        vars := vars w |}).
Proof.
  unfold fault_at, query, execute. destruct (faults w) as [|[e|] rest]; cbn;
    [reflexivity | discriminate | reflexivity].
Qed.

(** C7.  When the city is not in [cities], or the service type is found
    neither by name nor by code, [add_objects] returns at once.  The frame
    it returns has a row for every input row: its cell [result] is the
    message of the failed lookup, its cell [functional_obj_id] is [-1]
    and its other cells are those of the input row with the address
    cleaned.  Only the lookups were sent and the session is untouched. *)
Theorem add_objects_unknown_city_or_service_type
    (objects : list Series) (city_name service_type : pystr)
    (mapping : InsertionMapping) (properties_mapping : list (pystr * pystr))
    (address_prefixes : list pystr) (new_prefix : pystr) (commit : bool)
    (log_n : Z) (w : world) (message : pystr) (sent : list statement) :
  (fault_at 0 w = None
   /\ select_city city_name (current (sess w)) = None
   /\ message = unknown_city city_name /\ sent = [SelectCity])
  \/ (fault_at 0 w = None /\ fault_at 1 w = None
      /\ is_Some (select_city city_name (current (sess w)))
      /\ select_service_type service_type (current (sess w)) = None
      /\ message = unknown_service_type service_type
      /\ sent = [SelectServiceType; SelectCity]) ->
  exists out w',
    add_objects objects city_name service_type mapping properties_mapping
      address_prefixes new_prefix commit log_n w = (Ret out, w')
    /\ length out = length objects
    /\ (forall j row, objects !! j = Some row ->
          exists r,
            out !! j = Some r
            /\ r !! py "result" = Some (PyStr message)
            /\ r !! py "functional_obj_id" = Some (PyInt (-1))
            /\ forall k, k <> py "result" -> k <> py "functional_obj_id" ->
                         r !! k = clean_address mapping row !! k)
    /\ sess w' = sess w
    /\ trace w' = sent ++ trace w.
Proof.
  intros Hcase.
  assert (Hrows : forall j row, objects !! j = Some row ->
            exists r,
              map (fun row => with_outcome (clean_address mapping row) message (-1))
                  objects !! j = Some r
              /\ r !! py "result" = Some (PyStr message)
              /\ r !! py "functional_obj_id" = Some (PyInt (-1))
              /\ forall k, k <> py "result" -> k <> py "functional_obj_id" ->
                           r !! k = clean_address mapping row !! k).
  { intros j row Hj. eexists. split.
    - change (@map) with (@fmap list _). rewrite list_lookup_fmap, Hj. reflexivity.
    - apply with_outcome_cells. }
  enough (exists w',
    add_objects objects city_name service_type mapping properties_mapping
      address_prefixes new_prefix commit log_n w
    = (Ret (map (fun row => with_outcome (clean_address mapping row) message (-1))
                objects), w')
    /\ sess w' = sess w
    /\ trace w' = sent ++ trace w) as (w' & Hrun & Hs & Ht).
  { eexists _, w'. split; [exact Hrun|]. split; [apply length_map|].
    split; [exact Hrows|]. split; assumption. }
  clear Hrows. unfold add_objects.
  set (cleaned := map (clean_address mapping) objects).
  unfold bind at 1. cbn [with_vars].
  set (w0 := {| sess := sess w; vars := _ |}).
  assert (F0 : fault_at 0 w0 = fault_at 0 w) by reflexivity.
  destruct Hcase as [(H0 & Hcity & -> & ->) | (H0 & H1 & [c Hcity] & Hst & -> & ->)].
  - unfold bind at 1. rewrite query_no_fault by (now rewrite F0).
    cbn [sess current w0]. rewrite Hcity.
    eexists. split; [apply (f_equal2 pair); [f_equal|reflexivity] | split; reflexivity].
    subst cleaned. rewrite with_outcomes_replicate, map_map.
    unfold unknown_city, unknown_service_type. reflexivity.
  - unfold bind at 1. rewrite query_no_fault by (now rewrite F0).
    cbn [sess current w0]. rewrite Hcity.
    unfold bind at 1. rewrite query_no_fault.
    2:{ unfold fault_at in *. cbn [faults w0]. rewrite lookup_tail. exact H1. }
    cbn [sess current]. rewrite Hst.
    eexists. split; [apply (f_equal2 pair); [f_equal|reflexivity] | split; reflexivity].
    subst cleaned. rewrite with_outcomes_replicate, map_map.
    unfold unknown_city, unknown_service_type. reflexivity.
Qed.

End EarlyReturn.

(** ** The container lookup *)

(** Decomposes a goal [sends P m] along the structure of [m]; what is left
    is [P st] for the statements of [m]. *)
Ltac sending :=
  repeat first
    [ apply sends_ret | apply sends_raise | apply sends_lift | apply sends_with_vars
    | apply sends_bind; [|intros ?]
    | apply sends_try; [|intros ?]
    | apply sends_execute
    | match goal with
      | |- sends _ (match ?x with _ => _ end) => destruct x
      | |- sends _ (if ?b then _ else _) => destruct b
      | |- sends _ (fun w => (Ret _, w)) => apply sends_ret
      end
    | progress unfold query, blob_parameters, point_parameters, update_geometry,
        rollback_row, conn_commit, conn_rollback, SAVEPOINT_previous_object,
        ROLLBACK_TO_previous_object, get_vars ].

Section ContainerFacts.
Context `{RT : PyRuntime} `{GIS : PostGIS}.
Local Open Scope monad_scope.
Variables (service_type : pystr) (mapping : InsertionMapping)
          (properties_mapping : list (pystr * pystr))
          (address_prefixes : list pystr) (new_prefix : pystr) (commit : bool)
          (city_id service_type_id : Z) (is_service_building : bool).

Lemma sends_randint P a b : sends P (randint a b).
Proof.
  intros w. exists []. split; [|constructor]. unfold randint.
  destruct a, b; try reflexivity. destruct (_ <? _); reflexivity.
Qed.

Lemma sends_update_object P row fo name :
  (forall st, st <> InsertFunctionalObject -> st <> InsertPhysicalObject ->
              st <> InsertBuilding -> st <> SelectBuildingByGeometry ->
              st <> SelectBuildingByPoint -> P st) ->
  sends P (update_object row fo name mapping properties_mapping commit).
Proof.
  intros HP. unfold update_object. sending; try (apply HP; discriminate).
  intros w. exists []. split; [reflexivity | constructor].
Qed.

#[local] Opaque update_object insert_object.

Lemma sends_found_by_address row name phys_id build_id :
  sends not_geometry_lookup
    (found_by_address mapping properties_mapping commit service_type_id row name
       phys_id build_id).
Proof.
  unfold found_by_address, update_existing. sending; try (split; discriminate).
  apply sends_update_object. intros st ? ? ? ? ?. split; assumption.
Qed.

Lemma found_by_address_returns row name phys_id build_id w found w' :
  found_by_address mapping properties_mapping commit service_type_id row name
    phys_id build_id w = (Ret found, w') ->
  (found = Container phys_id
   /\ select_functional_object phys_id service_type_id name (current (sess w))
      = Ret None
   /\ added_to_address (vars w') = added_to_address (vars w) + 1
   /\ trace w' = SelectFunctionalObject :: trace w)
  \/ (found = Updated
      /\ exists fo set later,
           select_functional_object phys_id service_type_id name (current (sess w))
           = Ret (Some fo)
           /\ trace w' = later ++ UpdateFunctionalObject fo set
                           :: SelectFunctionalObjectFields
                           :: SelectFunctionalObject :: trace w).
Proof.
  unfold found_by_address, update_existing. intros Hrun.
  apply bind_returns in Hrun as (res & w1 & Hq & Hrun).
  apply query_returns in Hq as (Hq & Hs1 & Ht1 & Hv1).
  destruct res as [fo|].
  - right. split.
    + apply bind_returns in Hrun as ([] & w2 & _ & Hrun).
      apply bind_returns in Hrun as ([] & w3 & _ & Hrun).
      apply bind_returns in Hrun as (id & w4 & _ & Hrun).
      apply bind_returns in Hrun as ([] & w5 & _ & Hrun).
      now apply ret_returns in Hrun as [-> _].
    + apply bind_returns in Hrun as ([] & w2 & H2 & Hrun).
      apply bind_returns in Hrun as ([] & w3 & H3 & Hrun).
      apply bind_returns in Hrun as (id & w4 & Hupd & Hrun).
      apply bind_returns in Hrun as ([] & w5 & H5 & Hrun).
      apply ret_returns in Hrun as [_ ->].
      apply with_vars_returns in H2 as (_ & Ht2 & _).
      apply with_vars_returns in H3 as (_ & Ht3 & _).
      apply with_vars_returns in H5 as (_ & Ht5 & _).
      apply update_object_returns in Hupd as (_ & _ & set & later & Ht4).
      exists fo, set, later. split; [exact Hq|]. congruence.
  - left.
    apply bind_returns in Hrun as ([] & w2 & H2 & Hrun).
    apply bind_returns in Hrun as ([] & w3 & H3 & Hrun).
    apply ret_returns in Hrun as [-> ->].
    apply with_vars_returns in H2 as (_ & Ht2 & Hv2).
    apply with_vars_returns in H3 as (_ & Ht3 & Hv3).
    repeat split; [exact Hq | | congruence].
    rewrite Hv3, Hv2, Hv1. reflexivity.
Qed.

(** The container lookup of a building-based row, were it handed a
    non-empty address (the extraction before it never does, see
    [row_address_never_extracts]), with a building of the city whose
    stored address matches [LIKE '%address'] and whose physical object's
    centre is less than 100 m from the row's point.  The first statement
    is the lookup by address; neither geometry lookup is sent, whether the
    run returns or raises; and a run that returns has resolved the
    container to a pair that satisfies the address clause. *)
Theorem address_match_takes_precedence
    (row : Series) (name : pyval) (address geom_type : pystr)
    (longitude latitude : float) (municipality_id administrative_unit_id : option Z)
    (w : world) (candidate : physical_object * building) :
  address <> py "" ->
  In candidate (phys_join_build (current (sess w))) ->
  address_match city_id address longitude latitude candidate = true ->
  let run := building_container mapping properties_mapping commit city_id
               service_type_id row name (Some address) geom_type longitude latitude
               municipality_id administrative_unit_id w in
  exists later,
    trace run.2 = later ++ SelectBuildingByAddress :: trace w
    /\ Forall not_geometry_lookup later
    /\ forall found, run.1 = Ret found ->
         exists chosen,
           In chosen (phys_join_build (current (sess w)))
           /\ address_match city_id address longitude latitude chosen = true
           /\ (found = Container (phys_id chosen.1)
               /\ added_to_address (vars run.2) = added_to_address (vars w) + 1
               \/ found = Updated
                  /\ exists fo set,
                       select_functional_object (phys_id chosen.1) service_type_id
                         name (current (sess w)) = Ret (Some fo)
                       /\ In (UpdateFunctionalObject fo set) later).
Proof.
  intros Haddr Hin Hmatch run.
  assert (Hne : negb (pystr_eqb address (py "")) = true).
  { unfold pystr_eqb. now rewrite bool_decide_eq_false_2. }
  destruct (List.find (address_match city_id address longitude latitude)
              (phys_join_build (current (sess w)))) as [chosen|] eqn:Hfind.
  2:{ apply (find_none _ _ Hfind) in Hin. congruence. }
  assert (Hrun : run = match query SelectBuildingByAddress
                               (fun t => Ret (select_building_by_address city_id address
                                                longitude latitude t)) w with
                       | (Ret (Some (p, b)), w1) =>
                           found_by_address mapping properties_mapping commit
                             service_type_id row name p b w1
                       | (Ret None, w1) => run
                       | (Raise e, w1) => (Raise e, w1)
                       end).
  { subst run. unfold building_container, lookup_by_address. rewrite Hne.
    unfold bind at 1.
    destruct (query_runs SelectBuildingByAddress
                (fun t => Ret (select_building_by_address city_id address
                                 longitude latitude t)) w) as [[e ->] | ->];
      [reflexivity|].
    unfold select_building_by_address. rewrite Hfind. reflexivity. }
  destruct (query_runs SelectBuildingByAddress
              (fun t => Ret (select_building_by_address city_id address
                               longitude latitude t)) w) as [[e Hq] | Hq];
    rewrite Hq in Hrun.
  - rewrite Hrun. exists []. repeat split; [constructor | discriminate].
  - unfold select_building_by_address in Hrun. rewrite Hfind in Hrun.
    cbn [fmap option_fmap option_map] in Hrun.
    destruct (sends_found_by_address row name (phys_id chosen.1) (build_id chosen.2)
                (after SelectBuildingByAddress w)) as (later & Ht & Hlater).
    rewrite <- Hrun in Ht. exists later. split; [exact Ht|]. split; [exact Hlater|].
    intros found Hfound. exists chosen.
    apply find_some in Hfind as [Hc1 Hc2]. split; [exact Hc1|]. split; [exact Hc2|].
    destruct run as [r w'] eqn:Erun. cbn in Hfound, Ht |- *. subst r.
    symmetry in Hrun. apply found_by_address_returns in Hrun
      as [(-> & _ & Hcount & _) | (-> & fo & set & later' & Hfo & Ht')].
    + left. split; [reflexivity | exact Hcount].
    + right. split; [reflexivity|]. exists fo, set. split; [exact Hfo|].
      cbn [after trace] in Ht, Ht'. rewrite Ht' in Ht.
      change (later' ++ UpdateFunctionalObject fo set :: SelectFunctionalObjectFields
                :: SelectFunctionalObject :: SelectBuildingByAddress :: trace w)
        with (later' ++ [UpdateFunctionalObject fo set; SelectFunctionalObjectFields;
                         SelectFunctionalObject] ++ SelectBuildingByAddress :: trace w)
        in Ht.
      rewrite app_assoc in Ht. apply app_inv_tail in Ht. subst later.
      apply in_or_app. right. left. reflexivity.
Qed.

End ContainerFacts.
(** ** The lookup by address is out of reach *)

Section NoAddressLookup.
Context `{RT : PyRuntime} `{GIS : PostGIS}.
Local Open Scope monad_scope.
Variables (service_type : pystr) (mapping : InsertionMapping)
          (properties_mapping : list (pystr * pystr))
          (address_prefixes : list pystr) (new_prefix : pystr) (commit : bool)
          (city_id service_type_id : Z) (is_service_building : bool).

(** [sends] through a [bind] whose first part returns only values in [Q]. *)
Lemma sends_bind_post {A B} P (Q : A -> Prop) (m : M A) (k : A -> M B) :
  (forall w a w', m w = (Ret a, w') -> Q a) ->
  sends P m -> (forall a, Q a -> sends P (k a)) -> sends P (bind m k).
Proof.
  intros HQ Hm Hk w. unfold bind. destruct (Hm w) as (n1 & E1 & F1).
  destruct (m w) as [[a|e] w1] eqn:Hrun; cbn in *.
  - destruct (Hk a (HQ _ _ _ Hrun) w1) as (n2 & E2 & F2). exists (n2 ++ n1). split.
    + rewrite E2, E1. apply app_assoc.
    + apply Forall_app; auto.
  - exists n1. auto.
Qed.

(** Whatever the row, the prefixes and the tables, the body of the loop
    never sends the lookup of a building by address: no address reaches
    it. *)
Lemma row_body_never_looks_up_by_address row :
  sends (fun st => st <> SelectBuildingByAddress)
    (row_body service_type mapping properties_mapping address_prefixes new_prefix
       commit city_id service_type_id is_service_building row).
Proof.
  unfold row_body. apply sends_bind.
  { unfold row_coordinates. sending; discriminate. }
  intros [[[geom_type latitude] longitude]|]; [|apply sends_ret].
  apply sends_bind_post with (Q := fun extracted => forall a, extracted <> Some (Some a)).
  { intros w a w' Hrun address ->. now apply row_address_never_extracts in Hrun. }
  { unfold row_address. sending; discriminate. }
  intros [[address|]|] Hnone; [now destruct (Hnone address) | | apply sends_ret].
  destruct (_ && _); [sending; discriminate|].
  unfold row_upsert, building_container, physical_container, lookup_by_address,
    found_by_address, found_building_by_geometry, found_physical_object,
    lookup_building_by_geometry, lookup_physical_object, update_existing,
    new_container.
  sending; try discriminate;
    try (apply sends_update_object; intros; discriminate);
    try (intros w; exists []; (split; [reflexivity | constructor]));
    apply sends_randint.
Qed.

End NoAddressLookup.

(** ** De-duplication *)

Section Dedup.
Context `{RT : PyRuntime} `{GIS : PostGIS}.
Local Open Scope monad_scope.
Variables (service_type : pystr) (mapping : InsertionMapping)
          (properties_mapping : list (pystr * pystr))
          (new_prefix : pystr) (commit : bool)
          (city_id service_type_id : Z).

#[local] Opaque update_object insert_object.

Lemma in_row_item key row :
  in_row key row = true <-> exists v, row_item key row = Ret v.
Proof.
  unfold in_row, row_item. destruct key as [k|].
  - destruct (row !! k) eqn:Hk.
    + split; [eauto | intros _]. apply bool_decide_eq_true_2. eauto.
    + split; [intros Hb | intros [v [=]]].
      apply bool_decide_eq_true_1 in Hb as [v [=]].
  - split; [discriminate | intros [v [=]]].
Qed.

Lemma not_in_row_item key row :
  in_row key row = false -> exists e, row_item key row = Raise e.
Proof.
  intros Hn. destruct (row_item key row) as [v|e] eqn:Hr; [|eauto].
  assert (in_row key row = true) by (apply in_row_item; eauto). congruence.
Qed.

Lemma update_existing_returns row name fo message w found w' :
  update_existing mapping properties_mapping commit row name fo message w
  = (Ret found, w') ->
  found = Updated
  /\ present (vars w') = present (vars w) + 1
  /\ exists set later,
       trace w' = later ++ UpdateFunctionalObject fo set
                    :: SelectFunctionalObjectFields :: trace w.
Proof.
  unfold update_existing. intros Hrun.
  apply bind_returns in Hrun as ([] & w2 & H2 & Hrun).
  apply bind_returns in Hrun as ([] & w3 & H3 & Hrun).
  apply bind_returns in Hrun as (id & w4 & Hupd & Hrun).
  apply bind_returns in Hrun as ([] & w5 & H5 & Hrun).
  apply ret_returns in Hrun as [-> ->].
  apply with_vars_returns in H2 as (_ & Ht2 & Hv2).
  apply with_vars_returns in H3 as (_ & Ht3 & Hv3).
  apply with_vars_returns in H5 as (_ & Ht5 & Hv5).
  apply update_object_returns in Hupd as (_ & Hv4 & set & later & Ht4).
  split; [reflexivity|]. split.
  - rewrite Hv5, Hv4, Hv3, Hv2. reflexivity.
  - exists set, later. congruence.
Qed.

(** The geometry upgrade of a point container never returns. *)
Lemma geometry_upgrade_returns (upgrade : bool) message w w' :
  (if upgrade then update_geometry ;; with_vars (append_result message) else ret tt) w
  = (Ret tt, w') ->
  upgrade = false /\ w' = w.
Proof.
  destruct upgrade.
  - intros Hrun. apply bind_returns in Hrun as ([] & w1 & Hu & _).
    apply execute_returns in Hu as (Hu & _). discriminate.
  - intros Hrun. apply ret_returns in Hrun as [_ ->]. auto.
Qed.

Lemma found_by_address_deduplicated row name phys build w found w' :
  found_by_address mapping properties_mapping commit service_type_id row name
    phys build w = (Ret found, w') ->
  deduplicated service_type_id phys name w w' found.
Proof.
  unfold found_by_address. intros Hrun.
  apply bind_returns in Hrun as (res & w1 & Hq & Hrun).
  apply query_returns in Hq as (Hq & Hs1 & Ht1 & Hv1).
  destruct res as [fo|].
  - right. apply update_existing_returns in Hrun as (-> & Hp & set & later & Ht).
    split; [reflexivity|]. exists fo, set, later. repeat split; congruence.
  - left.
    apply bind_returns in Hrun as ([] & w2 & H2 & Hrun).
    apply bind_returns in Hrun as ([] & w3 & H3 & Hrun).
    apply ret_returns in Hrun as [-> ->].
    apply with_vars_returns in H2 as (Hs2 & _).
    apply with_vars_returns in H3 as (Hs3 & _).
    repeat split; congruence.
Qed.

Lemma found_building_by_geometry_deduplicated row name geom_type current_geom_type
    phys build stored w found w' :
  found_building_by_geometry mapping properties_mapping commit service_type_id
    row name geom_type current_geom_type phys build stored w = (Ret found, w') ->
  deduplicated service_type_id phys name w w' found.
Proof.
  unfold found_building_by_geometry. intros Hrun.
  apply bind_returns in Hrun as (res & w1 & Hq & Hrun).
  apply query_returns in Hq as (Hq & Hs1 & Ht1 & Hv1).
  destruct res as [fo|].
  - right. apply update_existing_returns in Hrun as (-> & Hp & set & later & Ht).
    split; [reflexivity|]. exists fo, set, later. repeat split; congruence.
  - left.
    apply bind_returns in Hrun as ([] & w2 & H2 & Hrun).
    apply bind_returns in Hrun as ([] & w3 & H3 & Hrun).
    apply bind_returns in Hrun as ([] & w4 & H4 & Hrun).
    apply ret_returns in Hrun as [-> ->].
    apply with_vars_returns in H2 as (Hs2 & _).
    apply with_vars_returns in H3 as (Hs3 & _).
    apply geometry_upgrade_returns in H4 as [_ ->].
    repeat split; congruence.
Qed.

Lemma found_physical_object_deduplicated row name geom_type current_geom_type
    phys w found w' :
  found_physical_object mapping properties_mapping commit service_type_id
    row name geom_type current_geom_type phys w = (Ret found, w') ->
  deduplicated service_type_id phys name w w' found.
Proof.
  unfold found_physical_object. intros Hrun.
  apply bind_returns in Hrun as (res & w1 & Hq & Hrun).
  apply query_returns in Hq as (Hq & Hs1 & Ht1 & Hv1).
  destruct res as [fo|].
  - right. apply update_existing_returns in Hrun as (-> & Hp & set & later & Ht).
    split; [reflexivity|]. exists fo, set, later. repeat split; congruence.
  - left.
    apply bind_returns in Hrun as ([] & w2 & H2 & Hrun).
    apply bind_returns in Hrun as ([] & w3 & H3 & Hrun).
    apply bind_returns in Hrun as ([] & w4 & H4 & Hrun).
    apply ret_returns in Hrun as [-> ->].
    apply with_vars_returns in H2 as (Hs2 & _).
    apply with_vars_returns in H3 as (Hs3 & _).
    apply geometry_upgrade_returns in H4 as [_ ->].
    repeat split; congruence.
Qed.

(** A lookup that returns has read its answer off the tables and left
    session and local variables alone. *)
Lemma lookup_by_address_returns address longitude latitude w res w1 :
  lookup_by_address city_id address longitude latitude w = (Ret res, w1) ->
  res = address_lookup city_id address longitude latitude (current (sess w))
  /\ sess w1 = sess w /\ vars w1 = vars w
  /\ exists sent, trace w1 = sent ++ trace w.
Proof.
  unfold lookup_by_address, address_lookup. destruct address as [a|].
  - destruct (negb _).
    + intros Hq. apply query_returns in Hq as (Hq & Hs & Ht & Hv).
      injection Hq as <-. repeat split; auto. now exists [SelectBuildingByAddress].
    + intros Hr. apply ret_returns in Hr as [-> ->]. repeat split; auto. now exists [].
  - intros Hr. apply ret_returns in Hr as [-> ->]. repeat split; auto. now exists [].
Qed.

Lemma blob_parameters_returns blob w w1 :
  blob_parameters blob w = (Ret tt, w1) -> is_none blob = false /\ w1 = w.
Proof.
  unfold blob_parameters. destruct (is_none blob); [discriminate|].
  intros Hr. apply ret_returns in Hr as [_ ->]. auto.
Qed.

Lemma point_parameters_returns municipality_id administrative_unit_id w w1 :
  point_parameters municipality_id administrative_unit_id w = (Ret tt, w1) ->
  is_Some municipality_id /\ is_Some administrative_unit_id /\ w1 = w.
Proof.
  unfold point_parameters.
  destruct municipality_id, administrative_unit_id; try discriminate.
  intros Hr. apply ret_returns in Hr as [_ ->]. eauto.
Qed.

Lemma lookup_building_by_geometry_returns row municipality_id administrative_unit_id
    w res w1 :
  lookup_building_by_geometry mapping city_id row municipality_id
    administrative_unit_id w = (Ret res, w1) ->
  (exists blob,
     row_item (m_geometry mapping) row = Ret blob /\ is_none blob = false
     /\ select_building_by_geometry city_id municipality_id administrative_unit_id
          blob (current (sess w)) = Ret res)
  /\ sess w1 = sess w /\ vars w1 = vars w
  /\ exists sent, trace w1 = sent ++ trace w.
Proof.
  unfold lookup_building_by_geometry. destruct (in_row _ row).
  - intros Hrun.
    apply bind_returns in Hrun as (blob & w2 & Hb & Hrun).
    apply lift_returns in Hb as [Hb ->].
    apply bind_returns in Hrun as ([] & w3 & Hp & Hrun).
    apply blob_parameters_returns in Hp as [Hn ->].
    apply query_returns in Hrun as (Hq & Hs & Ht & Hv).
    split; [exists blob; auto|]. repeat split; auto.
    now exists [SelectBuildingByGeometry].
  - intros Hrun.
    apply bind_returns in Hrun as ([] & w2 & _ & Hrun).
    apply query_returns in Hrun as (Hq & _). discriminate.
Qed.

Lemma lookup_physical_object_returns row longitude latitude municipality_id
    administrative_unit_id w res w1 :
  lookup_physical_object mapping city_id row longitude latitude municipality_id
    administrative_unit_id w = (Ret res, w1) ->
  ((exists blob,
      row_item (m_geometry mapping) row = Ret blob /\ is_none blob = false
      /\ select_physical_object_by_geometry city_id municipality_id
           administrative_unit_id blob (current (sess w)) = Ret res)
   \/ (in_row (m_geometry mapping) row = false
       /\ is_Some municipality_id /\ is_Some administrative_unit_id
       /\ res = select_physical_object_by_point city_id municipality_id
                  administrative_unit_id longitude latitude (current (sess w))))
  /\ sess w1 = sess w /\ vars w1 = vars w
  /\ exists sent, trace w1 = sent ++ trace w.
Proof.
  unfold lookup_physical_object. destruct (in_row _ row) eqn:Hin.
  - intros Hrun.
    apply bind_returns in Hrun as (blob & w2 & Hb & Hrun).
    apply lift_returns in Hb as [Hb ->].
    apply bind_returns in Hrun as ([] & w3 & Hp & Hrun).
    apply blob_parameters_returns in Hp as [Hn ->].
    apply query_returns in Hrun as (Hq & Hs & Ht & Hv).
    split; [left; exists blob; auto|]. repeat split; auto.
    now exists [SelectPhysicalObjectByGeometry].
  - intros Hrun.
    apply bind_returns in Hrun as ([] & w2 & Hp & Hrun).
    apply point_parameters_returns in Hp as (Hm & Ha & ->).
    apply query_returns in Hrun as (Hq & Hs & Ht & Hv).
    injection Hq as <-. split; [right; auto|]. repeat split; auto.
    now exists [SelectPhysicalObjectByPoint].
Qed.

Lemma deduplicated_resolved is_service_building row name address longitude latitude
    municipality_id administrative_unit_id phys (w w1 w' : world) found sent :
  container_of mapping city_id is_service_building row address longitude latitude
    municipality_id administrative_unit_id (current (sess w)) = Some phys ->
  sess w1 = sess w -> vars w1 = vars w -> trace w1 = sent ++ trace w ->
  deduplicated service_type_id phys name w1 w' found ->
  resolved mapping city_id service_type_id is_service_building row name address
    longitude latitude municipality_id administrative_unit_id w w' found.
Proof.
  intros Hc Hs Hv Ht [(-> & Hnone & Hs') | (-> & fo & set & later & Hfo & Htr & Hp)];
    unfold resolved; rewrite Hs in *.
  - auto.
  - exists phys, fo, set, later,
      (SelectFunctionalObjectFields :: SelectFunctionalObject :: sent).
    repeat split; auto.
    + rewrite Htr, Ht. reflexivity.
    + congruence.
Qed.

Lemma building_container_resolved row name address geom_type longitude latitude
    municipality_id administrative_unit_id w found w' :
  building_container mapping properties_mapping commit city_id service_type_id
    row name address geom_type longitude latitude municipality_id
    administrative_unit_id w = (Ret found, w') ->
  resolved mapping city_id service_type_id true row name address longitude latitude
    municipality_id administrative_unit_id w w' found.
Proof.
  unfold building_container. intros Hrun.
  apply bind_returns in Hrun as (res & w1 & Hl & Hrun).
  apply lookup_by_address_returns in Hl as (Hres & Hs1 & Hv1 & sent1 & Ht1).
  destruct res as [[phys build]|].
  - apply found_by_address_deduplicated in Hrun.
    apply (deduplicated_resolved true row name address longitude latitude
             municipality_id administrative_unit_id phys w w1 w' found sent1);
      auto.
    unfold container_of. now rewrite <- Hres.
  - apply bind_returns in Hrun as (res & w2 & Hl & Hrun).
    apply lookup_building_by_geometry_returns in Hl
      as ((blob & Hb & Hn & Hq) & Hs2 & Hv2 & sent2 & Ht2).
    rewrite Hs1 in Hq.
    destruct res as [[[[current_geom_type phys] build] stored]|].
    + apply found_building_by_geometry_deduplicated in Hrun.
      apply (deduplicated_resolved true row name address longitude latitude
               municipality_id administrative_unit_id phys w w2 w' found
               (sent2 ++ sent1)); try congruence.
      * unfold container_of. now rewrite <- Hres, Hb, Hn, Hq.
      * rewrite Ht2, Ht1. apply app_assoc.
    + apply ret_returns in Hrun as [-> ->]. unfold resolved, container_of, looked_up.
      rewrite <- Hres, Hb, Hn, Hq. repeat split; congruence.
Qed.

Lemma physical_container_resolved row name address geom_type longitude latitude
    municipality_id administrative_unit_id w found w' :
  physical_container mapping properties_mapping commit city_id service_type_id
    row name geom_type longitude latitude municipality_id
    administrative_unit_id w = (Ret found, w') ->
  resolved mapping city_id service_type_id false row name address longitude latitude
    municipality_id administrative_unit_id w w' found.
Proof.
  unfold physical_container. intros Hrun.
  apply bind_returns in Hrun as (res & w1 & Hl & Hrun).
  apply lookup_physical_object_returns in Hl as (Hres & Hs1 & Hv1 & sent1 & Ht1).
  assert (Hc : container_of mapping city_id false row address longitude latitude
                 municipality_id administrative_unit_id (current (sess w))
               = snd <$> res).
  { unfold container_of.
    destruct Hres as [(blob & Hb & Hn & Hq) | (Hin & [m Hm] & [a Ha] & ->)].
    - rewrite Hb, Hn, Hq. now destruct res as [[]|].
    - apply not_in_row_item in Hin as [e ->]. now rewrite Hm, Ha. }
  destruct res as [[current_geom_type phys]|].
  - apply found_physical_object_deduplicated in Hrun.
    apply (deduplicated_resolved false row name address longitude latitude
             municipality_id administrative_unit_id phys w w1 w' found sent1);
      auto.
  - apply ret_returns in Hrun as [-> ->]. unfold resolved.
    split; [exact Hc|]. split; [exact Hs1|]. unfold looked_up.
    destruct Hres as [(blob & Hb & Hn & Hq) | (Hin & Hm & Ha & _)].
    + now rewrite Hb.
    + apply not_in_row_item in Hin as [e ->]. auto.
Qed.

Lemma sends_update_existing P row name fo message :
  (forall st, st <> InsertFunctionalObject -> st <> InsertPhysicalObject ->
              st <> InsertBuilding -> st <> SelectBuildingByGeometry ->
              st <> SelectBuildingByPoint -> P st) ->
  sends P (update_existing mapping properties_mapping commit row name fo message).
Proof.
  intros HP. unfold update_existing. sending.
  apply sends_update_object. exact HP.
Qed.

Lemma sends_container (is_service_building : bool) row name address geom_type
    longitude latitude municipality_id administrative_unit_id :
  sends not_insert
    (if is_service_building
     then building_container mapping properties_mapping commit city_id
            service_type_id row name address geom_type longitude latitude
            municipality_id administrative_unit_id
     else physical_container mapping properties_mapping commit city_id
            service_type_id row name geom_type longitude latitude
            municipality_id administrative_unit_id).
Proof.
  assert (Hupd : forall fo,
             sends not_insert
               (update_object row fo name mapping properties_mapping commit)).
  { intros. apply sends_update_object. intros st ? ? ? _ _. repeat split; assumption. }
  destruct is_service_building;
    unfold building_container, physical_container, lookup_by_address,
      lookup_building_by_geometry, lookup_physical_object, found_by_address,
      found_building_by_geometry, found_physical_object;
    sending; try apply Hupd; repeat split; discriminate.
Qed.


End Dedup.
(** ** Running a row again

    A row whose first run inserted its service, on the tables that run
    left: the container of the service is one of the rows the container
    lookup may answer with (the only one, when the run stored it), and
    the de-duplication query finds a service there.  These are the two
    premises of the theorem on stored services, for the second run. *)

Section Rerun.
Context `{RT : PyRuntime} `{GIS : PostGIS}.
Local Open Scope monad_scope.
Variables (service_type : pystr) (mapping : InsertionMapping)
          (properties_mapping : list (pystr * pystr))
          (new_prefix : pystr) (commit : bool)
          (city_id service_type_id : Z).

Lemma find_app_None {A} (f : A -> bool) (l more : list A) :
  List.find f l = None -> List.find f (l ++ more) = List.find f more.
Proof.
  induction l as [|x l IH]; [reflexivity|]. cbn. destruct (f x); [discriminate | exact IH].
Qed.

Lemma find_last {A} (f : A -> bool) (l : list A) (x : A) :
  f x = true -> exists y, List.find f (l ++ [x]) = Some y.
Proof.
  intros Hx. induction l as [|z l IH]; cbn.
  - rewrite Hx. eauto.
  - destruct (f z); eauto.
Qed.

Lemma find_ext {A} (f g : A -> bool) (l : list A) :
  (forall x, f x = g x) -> List.find f l = List.find g l.
Proof.
  intros Hfg. induction l as [|x l IH]; [reflexivity|]. cbn. now rewrite Hfg, IH.
Qed.

Lemma filter_none {A} (P : A -> Prop) `{!forall x, Decision (P x)} (l : list A) :
  Forall (fun x => ~ P x) l -> filter P l = [].
Proof.
  induction 1 as [|x l Hx _ IH]; [reflexivity|].
  rewrite filter_cons_False by exact Hx. exact IH.
Qed.

Lemma filter_all {A} (P : A -> Prop) `{!forall x, Decision (P x)} (l : list A) :
  Forall P l -> filter P l = l.
Proof.
  induction 1 as [|x l Hx _ IH]; [reflexivity|].
  rewrite filter_cons_True by exact Hx. now rewrite IH.
Qed.

(** The join once a physical object with a fresh id and its buildings
    were added: the pairs of before, then the new ones. *)
Lemma phys_join_build_new (P : physical_object) (Bs : list building) (t t' : tables) :
  physical_objects t' = physical_objects t ++ [P] ->
  buildings t' = buildings t ++ Bs ->
  Forall (fun p => phys_id p <> phys_id P) (physical_objects t) ->
  Forall (fun b => build_physical_object_id b <> phys_id P) (buildings t) ->
  Forall (fun b => build_physical_object_id b = phys_id P) Bs ->
  phys_join_build t' = phys_join_build t ++ map (pair P) Bs.
Proof.
  intros Hp Hb Hfp Hfb HBs. unfold phys_join_build. rewrite Hp, Hb, bind_app.
  f_equal.
  - clear Hp. induction Hfp as [|p l Hid _ IH]; [reflexivity|]. cbn. rewrite IH. f_equal.
    rewrite filter_app.
    rewrite (filter_none (fun b => build_physical_object_id b = phys_id p) Bs).
    + now rewrite app_nil_r.
    + eapply Forall_impl; [exact HBs|]. cbn. intros b Hb1 Hb2. congruence.
  - cbn. rewrite app_nil_r, filter_app.
    rewrite (filter_none _ (buildings t)) by exact Hfb.
    rewrite (filter_all _ Bs) by exact HBs. cbn.
    clear. induction Bs as [|b Bs IH]; [reflexivity|]. cbn. now rewrite IH.
Qed.

Lemma in_territories_own (P : physical_object) :
  in_territories (phys_municipality_id P) (phys_administrative_unit_id P) P = true.
Proof.
  unfold in_territories.
  destruct (phys_municipality_id P) eqn:Hm, (phys_administrative_unit_id P) eqn:Ha;
    cbn; rewrite ?bool_decide_eq_true_2; auto.
Qed.

Lemma no_building_fresh (P : physical_object) (t : tables) :
  Forall (fun b => build_physical_object_id b <> phys_id P) (buildings t) ->
  no_building t P = true.
Proof.
  unfold no_building. intros Hf. induction Hf as [|b l Hb _ IH]; [reflexivity|].
  cbn. apply Z.eqb_neq in Hb. rewrite Hb. exact IH.
Qed.

Lemma pystr_eqb_refl (s : pystr) : pystr_eqb s s = true.
Proof. unfold pystr_eqb. now apply bool_decide_eq_true_2. Qed.

(** The chain of a service type is the chain of that service type. *)
Lemma select_service_type_chain_id id t capacity_min capacity_max ids :
  select_service_type_chain id t = Some (capacity_min, capacity_max, ids) ->
  ids.1.1 = id.
Proof.
  unfold select_service_type_chain. intros Hh. apply head_Some_elem_of in Hh.
  apply list_elem_of_bind in Hh as (it & Hh & _).
  apply list_elem_of_bind in Hh as (cf & Hh & _).
  apply list_elem_of_bind in Hh as (st & Hh & Hst).
  apply list_elem_of_singleton in Hh. apply list_elem_of_filter in Hst as [[_ Hid] _].
  injection Hh as _ _ ->. exact Hid.
Qed.

(** An insert that returns has appended the functional object, with the
    container, the service type and the name it was given. *)
Lemma insert_object_returns row phys name w id w' :
  insert_object row phys name service_type_id mapping properties_mapping commit w
  = (Ret id, w') ->
  exists fo,
    current (sess w')
    = with_functional_objects (functional_objects (current (sess w)) ++ [fo])
        (current (sess w))
    /\ fo_physical_object_id fo = phys
    /\ fo_city_service_type_id fo = service_type_id
    /\ fo_name fo = name.
Proof.
  unfold insert_object. intros Hrun.
  apply bind_returns in Hrun as (fetched & w1 & Hq & Hrun).
  apply query_returns in Hq as (Hq & Hs1 & _). injection Hq as <-.
  apply bind_returns in Hrun as ([[capacity_min capacity_max] ids] & w2 & Hl & Hrun).
  apply lift_returns in Hl as [Hl ->].
  apply bind_returns in Hrun as ([capacity real] & w3 & Hcap & Hrun).
  assert (Hs3 : sess w3 = sess w1).
  { destruct (_ && _).
    - apply ret_returns in Hcap as [_ ->]. reflexivity.
    - apply bind_returns in Hcap as (c & wc & Hr & Hcap).
      apply randint_returns in Hr as (Hs & _).
      apply ret_returns in Hcap as [_ ->]. exact Hs. }
  apply bind_returns in Hrun as (fid & w4 & Hins & Hrun).
  apply execute_returns in Hins as (Hins & _).
  apply bind_returns in Hrun as ([] & w5 & Hsp & Hrun).
  apply ret_returns in Hrun as [-> ->].
  assert (Hs5 : current (sess w5) = current (sess w4)).
  { destruct commit.
    - apply execute_returns in Hsp as (Hsp & _). injection Hsp as <-. reflexivity.
    - apply ret_returns in Hsp as [_ ->]. reflexivity. }
  unfold insert_functional_object in Hins. injection Hins as Hid Hs4.
  eexists. rewrite Hs5, <- Hs4. cbn [current]. rewrite Hs3, Hs1.
  split; [reflexivity|]. cbn.
  split; [reflexivity|]. split; [|reflexivity].
  destruct (select_service_type_chain service_type_id (current (sess w)))
    as [[[? ?] ?]|] eqn:Hc; [|discriminate].
  injection Hl as -> -> ->. eapply select_service_type_chain_id. exact Hc.
Qed.

(** A new container that returns has appended one physical object with
    the next id, in the row's city and territories and with the row's
    geometry, and, for a building-based service, its building. *)
Lemma new_container_returns (is_service_building : bool) row address geom_type
    longitude latitude municipality_id administrative_unit_id w p w' :
  new_container mapping new_prefix city_id is_service_building row address geom_type
    longitude latitude municipality_id administrative_unit_id w = (Ret p, w') ->
  let t := current (sess w) in
  let t' := current (sess w') in
  municipalities t' = municipalities t
  /\ administrative_units t' = administrative_units t
  /\ exists P Bs,
       physical_objects t' = physical_objects t ++ [P]
       /\ buildings t' = buildings t ++ Bs
       /\ phys_id P = next_phys_id (sess w) /\ p = phys_id P
       /\ phys_city_id P = city_id
       /\ phys_municipality_id P = municipality_id
       /\ phys_administrative_unit_id P = administrative_unit_id
       /\ match row_item (m_geometry mapping) row with
          | Ret blob => ST_GeomFromGeoJSON blob = Some (phys_geometry P)
          | Raise _ => phys_geometry P = ST_MakePoint longitude latitude
          end
       /\ Forall (fun b => build_physical_object_id b = phys_id P) Bs
       /\ (if is_service_building then Bs <> [] else Bs = []).
Proof.
  intros Hrun t t'. unfold new_container in Hrun.
  apply bind_returns in Hrun as (phys & w1 & Hphys & Hrun).
  apply bind_returns in Hrun as ([] & w2 & Hbuild & Hrun).
  apply bind_returns in Hrun as ([] & w3 & Hinc & Hrun).
  apply ret_returns in Hrun as [-> ->].
  apply with_vars_returns in Hinc as (Hs3 & _).
  assert (H1 : exists P,
             current (sess w1)
             = with_physical_objects (physical_objects t ++ [P]) t
             /\ phys_id P = next_phys_id (sess w) /\ phys = phys_id P
             /\ phys_city_id P = city_id
             /\ phys_municipality_id P = municipality_id
             /\ phys_administrative_unit_id P = administrative_unit_id
             /\ match row_item (m_geometry mapping) row with
                | Ret blob => ST_GeomFromGeoJSON blob = Some (phys_geometry P)
                | Raise _ => phys_geometry P = ST_MakePoint longitude latitude
                end).
  { destruct (in_row (m_geometry mapping) row) eqn:Hin.
    - apply bind_returns in Hphys as (blob & w0 & Hb & Hphys).
      apply lift_returns in Hb as [Hb ->]. rewrite Hb.
      apply execute_returns in Hphys as (Hphys & _).
      destruct (ST_GeomFromGeoJSON blob) as [g|]; [|discriminate].
      unfold insert_physical_object_row in Hphys. injection Hphys as Hid Hs.
      eexists. rewrite <- Hs. cbn [current]. split; [reflexivity|]. cbn. auto 10.
    - apply not_in_row_item in Hin as [e He]. rewrite He.
      apply execute_returns in Hphys as (Hphys & _).
      unfold insert_physical_object_row in Hphys. injection Hphys as Hid Hs.
      eexists. rewrite <- Hs. cbn [current]. split; [reflexivity|]. cbn. auto 10. }
  destruct H1 as (P & Ht1 & Hid & -> & Hcity & Hm & Ha & Hg).
  assert (H2 : exists Bs,
             current (sess w2)
             = with_buildings (buildings (current (sess w1)) ++ Bs) (current (sess w1))
             /\ Forall (fun b => build_physical_object_id b = phys_id P) Bs
             /\ (if is_service_building then Bs <> [] else Bs = [])).
  { destruct is_service_building.
    - assert (Hins : exists stored b w0,
                 execute InsertBuilding (insert_building_row (phys_id P) stored) w1
                 = (Ret b, w0) /\ sess w2 = sess w0).
      { destruct address as [a|];
          apply bind_returns in Hbuild as (b & w0 & Hins & Hv);
          apply with_vars_returns in Hv as (Hs & _); eauto. }
      destruct Hins as (stored & b & w0 & Hins & ->).
      apply execute_returns in Hins as (Hins & _).
      unfold insert_building_row in Hins. injection Hins as _ Hs.
      eexists [_]. rewrite <- Hs. cbn [current]. split; [reflexivity|].
      split; [repeat constructor | discriminate].
    - exists []. rewrite app_nil_r.
      assert (Hs : sess w2 = sess w1).
      { destruct (negb _); apply with_vars_returns in Hbuild as (Hs & _); exact Hs. }
      rewrite Hs. split; [now destruct (current (sess w1))|]. split; [constructor | reflexivity]. }
  destruct H2 as (Bs & Ht2 & HBs & Hshape).
  subst t'. rewrite Hs3, Ht2, Ht1. cbn.
  split; [reflexivity|]. split; [reflexivity|].
  exists P, Bs. auto 12.
Qed.

(** The container the row inserted is the container the row resolves to
    afterwards. *)
Lemma new_container_is_found (is_service_building : bool) row address
    longitude latitude (t t' : tables) (P : physical_object) (Bs : list building) :
  physical_objects t' = physical_objects t ++ [P] ->
  buildings t' = buildings t ++ Bs ->
  Forall (fun p => phys_id p <> phys_id P) (physical_objects t) ->
  Forall (fun b => build_physical_object_id b <> phys_id P) (buildings t) ->
  Forall (fun b => build_physical_object_id b = phys_id P) Bs ->
  (if is_service_building then Bs <> [] else Bs = []) ->
  phys_city_id P = city_id ->
  match row_item (m_geometry mapping) row with
  | Ret blob => ST_GeomFromGeoJSON blob = Some (phys_geometry P)
  | Raise _ => phys_geometry P = ST_MakePoint longitude latitude
  end ->
  finds_itself mapping row longitude latitude ->
  looked_up mapping is_service_building row (phys_municipality_id P)
    (phys_administrative_unit_id P) ->
  container_of mapping city_id is_service_building row address longitude latitude
    (phys_municipality_id P) (phys_administrative_unit_id P) t = None ->
  container_of mapping city_id is_service_building row address longitude latitude
    (phys_municipality_id P) (phys_administrative_unit_id P) t' = Some (phys_id P).
Proof.
  intros Hp Hb Hfp Hfb HBs Hshape Hcity Hg [Hblob Hpoint] Hl Hnone.
  pose proof (in_territories_own P) as Hterr.
  assert (Hcity' : (phys_city_id P =? city_id) = true) by now apply Z.eqb_eq.
  unfold container_of, looked_up in *. destruct is_service_building.
  - (* a building-based service *)
    destruct Bs as [|B Bs]; [contradiction|].
    destruct (row_item (m_geometry mapping) row) as [blob|e] eqn:Hrow;
      [|destruct Hl; discriminate].
    rewrite Hl in *.
    destruct (Hblob blob _ eq_refl Hg) as [Hself _].
    assert (Hgeometry :
      match select_building_by_geometry city_id (phys_municipality_id P)
              (phys_administrative_unit_id P) blob t' with
      | Ret (Some (_, phys, _, _)) => Some phys
      | _ => None
      end = Some (phys_id P)).
    { destruct (address_lookup city_id address longitude latitude t) as [[? ?]|];
        [discriminate|].
      unfold select_building_by_geometry in *. rewrite Hg in *.
      rewrite (phys_join_build_new P (B :: Bs) t t') by assumption.
      destruct (List.find _ (phys_join_build t)) as [[[? ?] ?]|] eqn:Hfind;
        [discriminate|].
      rewrite (find_app_None _ _ _ Hfind). cbn. now rewrite Hcity', Hterr, Hself. }
    destruct (address_lookup city_id address longitude latitude t') as [[phys build]|]
      eqn:Hnew; [|exact Hgeometry].
    f_equal. unfold address_lookup in *. destruct address as [a|]; [|discriminate].
    destruct (negb _); [|discriminate].
    unfold select_building_by_address in *.
    rewrite (phys_join_build_new P (B :: Bs) t t') in Hnew by assumption.
    destruct (List.find _ (phys_join_build t)) as [?|] eqn:Hfind; [discriminate|].
    rewrite (find_app_None _ _ _ Hfind) in Hnew.
    destruct (List.find _ (map (pair P) (B :: Bs))) as [[p b]|] eqn:Hfound;
      [|discriminate].
    apply find_some in Hfound as [Hin _]. apply in_map_iff in Hin as (b' & [= <- <-] & _).
    now injection Hnew as <- _.
  - (* a free-standing service *)
    subst Bs. rewrite app_nil_r in Hb.
    assert (Hno : forall p, no_building t' p = no_building t p).
    { intros p. unfold no_building. now rewrite Hb. }
    pose proof (no_building_fresh P t Hfb) as Hfree.
    destruct (row_item (m_geometry mapping) row) as [blob|e] eqn:Hrow.
    + rewrite Hl in *. destruct (Hblob blob _ eq_refl Hg) as [_ Hself].
      unfold select_physical_object_by_geometry in *. rewrite Hg in *. rewrite Hp.
      destruct (List.find _ (physical_objects t)) as [[? ?]|] eqn:Hfind;
        [discriminate|].
      erewrite find_ext by (intros p; rewrite Hno; reflexivity).
      rewrite (find_app_None _ _ _ Hfind). cbn. now rewrite Hcity', Hfree, Hterr, Hself.
    + destruct Hl as (_ & [m Hm] & [a Ha]). rewrite Hm, Ha in *.
      unfold select_physical_object_by_point in *. rewrite Hp.
      destruct (List.find _ (physical_objects t)) as [?|] eqn:Hfind; [discriminate|].
      erewrite find_ext by (intros p; rewrite Hno; reflexivity).
      rewrite (find_app_None _ _ _ Hfind). cbn.
      now rewrite Hcity', Hfree, Hterr, Hg, Hpoint.
Qed.

(** A run of [row_upsert] that returns, taken apart. *)
Lemma row_upsert_returns (is_service_building : bool) row geom_type latitude longitude
    address w w1 :
  row_upsert service_type mapping properties_mapping new_prefix commit city_id
    service_type_id is_service_building row geom_type latitude longitude address w
  = (Ret tt, w1) ->
  let t := current (sess w) in
  let name := row_name service_type mapping row in
  let m := select_territory (municipalities t) longitude latitude in
  let a := select_territory (administrative_units t) longitude latitude in
  exists w2 found w3,
    sess w2 = sess w
    /\ trace w2 = SelectAdministrativeUnit :: SelectMunicipality :: trace w
    /\ (if is_service_building
        then building_container mapping properties_mapping commit city_id
               service_type_id row name address geom_type longitude latitude m a
        else physical_container mapping properties_mapping commit city_id
               service_type_id row name geom_type longitude latitude m a) w2
       = (Ret found, w3)
    /\ match found with
       | Updated => w1 = w3
       | Container phys =>
           exists id w4,
             insert_object row phys name service_type_id mapping properties_mapping
               commit w3 = (Ret id, w4)
             /\ sess w1 = sess w4
       | NoContainer =>
           exists phys w4 id w5,
             new_container mapping new_prefix city_id is_service_building row address
               geom_type longitude latitude m a w3 = (Ret phys, w4)
             /\ insert_object row phys name service_type_id mapping properties_mapping
                  commit w4 = (Ret id, w5)
             /\ sess w1 = sess w5
       end.
Proof.
  intros Hrun t name m a. unfold row_upsert in Hrun.
  apply bind_returns in Hrun as (m' & wa & Hm & Hrun).
  apply query_returns in Hm as (Hm & Hsa & Hta & _). injection Hm as <-.
  apply bind_returns in Hrun as (a' & w2 & Ha & Hrun).
  apply query_returns in Ha as (Ha & Hs2 & Ht2 & _). injection Ha as <-.
  rewrite Hsa in Hrun.
  apply bind_returns in Hrun as (found & w3 & Hc & Hrun).
  exists w2, found, w3.
  split; [congruence|]. split; [congruence|]. split; [exact Hc|].
  destruct found as [|phys|].
  - apply ret_returns in Hrun as [_ ->]. reflexivity.
  - apply bind_returns in Hrun as (id & w4 & Hins & Hrun).
    apply with_vars_returns in Hrun as (Hs & _). eauto.
  - apply bind_returns in Hrun as (phys & w4 & Hnew & Hrun).
    apply bind_returns in Hrun as (id & w5 & Hins & Hrun).
    apply with_vars_returns in Hrun as (Hs & _). eauto 8.
Qed.

Lemma in_phys_join_build (t : tables) (pb : physical_object * building) :
  In pb (phys_join_build t) -> In pb.1 (physical_objects t).
Proof.
  intros Hin. apply list_elem_of_In in Hin. unfold phys_join_build in Hin.
  apply list_elem_of_bind in Hin as (p & Hin & Hp).
  apply list_elem_of_bind in Hin as (b & Hin & _).
  apply list_elem_of_singleton in Hin as ->. now apply list_elem_of_In.
Qed.

(** The container the model resolves a row to is one of the rows the
    lookups may answer with. *)
Lemma container_of_may_resolve (is_service_building : bool) row address
    longitude latitude municipality_id administrative_unit_id t phys :
  container_of mapping city_id is_service_building row address longitude latitude
    municipality_id administrative_unit_id t = Some phys ->
  may_resolve_to mapping city_id is_service_building row address longitude latitude
    municipality_id administrative_unit_id t phys.
Proof.
  unfold container_of, may_resolve_to. destruct is_service_building.
  - destruct (address_lookup city_id address longitude latitude t) as [[p b]|] eqn:Ha.
    + intros [= ->]. unfold address_lookup in Ha. destruct address as [a|]; [|discriminate].
      destruct (negb _); [|discriminate]. unfold select_building_by_address in Ha.
      destruct (List.find _ _) as [pb|] eqn:Hfind; [|discriminate].
      injection Ha as <- _. apply find_some in Hfind as [Hin Hm]. exists pb. auto.
    + destruct (row_item (m_geometry mapping) row) as [blob|]; [|discriminate].
      destruct (is_none blob); [discriminate|].
      unfold select_building_by_geometry.
      destruct (ST_GeomFromGeoJSON blob) as [g|]; [|discriminate].
      destruct (List.find _ _) as [pb|] eqn:Hfind; [|discriminate].
      cbn. intros [= <-]. apply find_some in Hfind as [Hin Hm]. exists pb. auto.
  - destruct (row_item (m_geometry mapping) row) as [blob|].
    + destruct (is_none blob); [discriminate|].
      unfold select_physical_object_by_geometry.
      destruct (ST_GeomFromGeoJSON blob) as [g|]; [|discriminate].
      destruct (List.find _ _) as [p|] eqn:Hfind; [|discriminate].
      cbn. intros [= <-]. apply find_some in Hfind as [Hin Hm]. exists p. auto.
    + destruct municipality_id, administrative_unit_id; try discriminate.
      unfold select_physical_object_by_point.
      destruct (List.find _ _) as [p|] eqn:Hfind; [|discriminate].
      cbn. intros [= <-]. apply find_some in Hfind as [Hin Hm]. exists p. auto.
Qed.

(** A row the lookups may answer with is a stored physical object. *)
Lemma may_resolve_to_stored (is_service_building : bool) row address
    longitude latitude municipality_id administrative_unit_id t phys :
  may_resolve_to mapping city_id is_service_building row address longitude latitude
    municipality_id administrative_unit_id t phys ->
  exists p, In p (physical_objects t) /\ phys_id p = phys.
Proof.
  unfold may_resolve_to, answers.
  repeat match goal with
         | |- context [match ?x with _ => _ end] => destruct x
         | |- context [if ?x then _ else _] => destruct x
         end;
    try contradiction;
    intros (x & Hin & _ & Hid); try (apply in_phys_join_build in Hin); eauto.
Qed.

(** When the lookups found no container and the row stored a new one, the
    new one is the only row the lookups may answer with afterwards. *)
Lemma new_container_only_candidate (is_service_building : bool) row address
    longitude latitude municipality_id administrative_unit_id
    (t t' : tables) (P : physical_object) (Bs : list building) :
  physical_objects t' = physical_objects t ++ [P] ->
  buildings t' = buildings t ++ Bs ->
  Forall (fun p => phys_id p <> phys_id P) (physical_objects t) ->
  Forall (fun b => build_physical_object_id b <> phys_id P) (buildings t) ->
  Forall (fun b => build_physical_object_id b = phys_id P) Bs ->
  (if is_service_building then Bs <> [] else Bs = []) ->
  container_of mapping city_id is_service_building row address longitude latitude
    municipality_id administrative_unit_id t = None ->
  forall phys,
    may_resolve_to mapping city_id is_service_building row address longitude latitude
      municipality_id administrative_unit_id t' phys ->
    phys = phys_id P.
Proof.
  intros Hp Hb Hfp Hfb HBs Hshape Hnone phys.
  assert (Hjoin : forall x, In x (phys_join_build t') ->
                            In x (phys_join_build t) \/ x.1 = P).
  { intros x Hin. rewrite (phys_join_build_new P Bs t t') in Hin by assumption.
    apply in_app_or in Hin as [Hin|Hin]; [now left|right].
    apply in_map_iff in Hin as (b & <- & _). reflexivity. }
  unfold container_of, may_resolve_to, answers in *. destruct is_service_building.
  - destruct (address_lookup city_id address longitude latitude t) as [[? ?]|] eqn:Ha;
      [discriminate|].
    destruct (address_lookup city_id address longitude latitude t') as [?|] eqn:Ha'.
    + destruct address as [a|]; [|contradiction].
      intros (x & Hin & Hm & <-). unfold address_lookup in Ha, Ha'.
      destruct (negb _); [|discriminate]. unfold select_building_by_address in Ha.
      destruct (List.find _ (phys_join_build t)) as [?|] eqn:Hfind; [discriminate|].
      destruct (Hjoin x Hin) as [Hold | ->]; [|reflexivity].
      pose proof (find_none _ _ Hfind x Hold) as Hno. cbv beta in Hno. congruence.
    + destruct (row_item (m_geometry mapping) row) as [blob|]; [|contradiction].
      destruct (is_none blob); [contradiction|].
      unfold select_building_by_geometry in Hnone.
      destruct (ST_GeomFromGeoJSON blob) as [g|]; [|contradiction].
      intros (x & Hin & Hm & <-).
      destruct (List.find _ (phys_join_build t)) as [?|] eqn:Hfind;
        [cbn in Hnone; discriminate|].
      destruct (Hjoin x Hin) as [Hold | ->]; [|reflexivity].
      pose proof (find_none _ _ Hfind x Hold) as Hno. cbv beta in Hno.
      unfold building_geometry_match in Hm. congruence.
  - subst Bs. rewrite app_nil_r in Hb.
    assert (Hno : forall p, no_building t' p = no_building t p).
    { intros p. unfold no_building. now rewrite Hb. }
    rewrite Hp.
    destruct (row_item (m_geometry mapping) row) as [blob|].
    + destruct (is_none blob); [contradiction|].
      unfold select_physical_object_by_geometry in Hnone.
      destruct (ST_GeomFromGeoJSON blob) as [g|]; [|contradiction].
      intros (x & Hin & Hm & <-).
      destruct (List.find _ (physical_objects t)) as [?|] eqn:Hfind;
        [cbn in Hnone; discriminate|].
      apply in_app_or in Hin as [Hold | [-> | []]]; [|reflexivity].
      pose proof (find_none _ _ Hfind x Hold) as Hnot. cbv beta in Hnot.
      unfold physical_geometry_match in Hm. rewrite Hno in Hm. congruence.
    + destruct municipality_id, administrative_unit_id; try contradiction.
      unfold select_physical_object_by_point in Hnone.
      intros (x & Hin & Hm & <-).
      destruct (List.find _ (physical_objects t)) as [?|] eqn:Hfind;
        [cbn in Hnone; discriminate|].
      apply in_app_or in Hin as [Hold | [-> | []]]; [|reflexivity].
      pose proof (find_none _ _ Hfind x Hold) as Hnot. cbv beta in Hnot.
      unfold physical_point_match in Hm. rewrite Hno in Hm. congruence.
Qed.

(** X23.  A row whose run has just inserted its service, on the tables
    that run left.  The service is the last row of [functional_objects]
    and satisfies the clause of the de-duplication query for its own
    container, so that the query answers with a stored service there.  The
    container is one of the physical objects the container lookup of the
    same row may answer with; and when the run stored the container
    itself, it is the only one, whichever row a [LIMIT 1] picks. *)
Lemma inserted_service_is_found_again (is_service_building : bool) row geom_type
    latitude longitude address w w1 sent :
  is_str (row_name service_type mapping row) = true ->
  finds_itself mapping row longitude latitude ->
  fresh_physical_id (sess w) ->
  row_upsert service_type mapping properties_mapping new_prefix commit city_id
    service_type_id is_service_building row geom_type latitude longitude address w
  = (Ret tt, w1) ->
  trace w1 = sent ++ trace w ->
  In InsertFunctionalObject sent ->
  let t1 := current (sess w1) in
  let name := row_name service_type mapping row in
  let may_answer :=
    may_resolve_to mapping city_id is_service_building row address longitude latitude
      (select_territory (municipalities t1) longitude latitude)
      (select_territory (administrative_units t1) longitude latitude) t1 in
  exists fo,
    last (functional_objects t1) = Some fo
    /\ same_service service_type_id (fo_physical_object_id fo) name fo = true
    /\ (exists id,
          select_functional_object (fo_physical_object_id fo) service_type_id name t1
          = Ret (Some id))
    /\ may_answer (fo_physical_object_id fo)
    /\ (Forall (fun p => phys_id p <> fo_physical_object_id fo)
               (physical_objects (current (sess w))) ->
        forall phys, may_answer phys -> phys = fo_physical_object_id fo).
Proof.
  intros Hname Hself [Hfp Hfb] Hrun Htrace Hins t1 name0 may_answer.
  subst name0 may_answer.
  apply row_upsert_returns in Hrun as (w2 & found & w3 & Hs2 & Ht2 & Hc & Hrest).
  set (name := row_name service_type mapping row) in *.
  set (t := current (sess w)) in *.
  set (m := select_territory (municipalities t) longitude latitude) in *.
  set (a := select_territory (administrative_units t) longitude latitude) in *.
  assert (Hres : resolved mapping city_id service_type_id is_service_building row
                   name address longitude latitude m a w2 w3 found).
  { destruct is_service_building.
    - eapply building_container_resolved; eassumption.
    - eapply physical_container_resolved; eassumption. }
  unfold resolved in Hres. rewrite Hs2 in Hres. fold t in Hres.
  assert (Hstored : forall phys fos fo,
             fo_physical_object_id fo = phys ->
             fo_city_service_type_id fo = service_type_id ->
             fo_name fo = name ->
             same_service service_type_id phys name fo = true
             /\ exists id,
                  select_functional_object phys service_type_id name
                    (with_functional_objects (fos ++ [fo]) t) = Ret (Some id)).
  { intros phys fos fo Hp Hst Hn.
    assert (Hsame : same_service service_type_id phys name fo = true).
    { unfold same_service. rewrite Hp, Hst, Hn, !Z.eqb_refl.
      destruct name as [| | | |s|]; try discriminate. cbn. apply pystr_eqb_refl. }
    split; [exact Hsame|]. unfold select_functional_object.
    destruct name as [| | | |s|] eqn:Hs; try discriminate. cbn [functional_objects].
    destruct (find_last
                (fun f => (fo_physical_object_id f =? phys)
                          && (fo_city_service_type_id f =? service_type_id)
                          && py_eq (fo_name f) (PyStr s)) fos fo) as [y Hy].
    - exact Hsame.
    - exists (fo_id y). cbn. now rewrite Hy. }
  destruct found as [|phys|].
  - (* the first run updated: it sent no INSERT *)
    subst w3.
    destruct (sends_container mapping properties_mapping commit city_id
                service_type_id is_service_building row name address geom_type
                longitude latitude m a w2) as (sent_c & Hsent & Hno).
    rewrite Hc in Hsent. cbn [snd] in Hsent.
    rewrite Hsent, Ht2 in Htrace.
    change (sent_c ++ SelectAdministrativeUnit :: SelectMunicipality :: trace w)
      with (sent_c ++ [SelectAdministrativeUnit; SelectMunicipality] ++ trace w)
      in Htrace.
    rewrite app_assoc in Htrace. apply app_inv_tail in Htrace. subst sent.
    apply in_app_or in Hins as [Hins | [Hins | [Hins | []]]]; try discriminate.
    destruct (proj1 (List.Forall_forall _ _) Hno _ Hins) as [Hne _]. congruence.
  - (* inserted into a container that was found *)
    destruct Hres as (Hcont & _ & Hs3).
    destruct Hrest as (id & w4 & Hinsert & Hs1).
    apply insert_object_returns in Hinsert as (fo & Ht4 & Hp & Hst & Hn).
    rewrite Hs3 in Ht4. fold t in Ht4.
    subst t1. rewrite Hs1, Ht4.
    destruct (Hstored phys (functional_objects t) fo Hp Hst Hn) as [Hsame Hfound].
    apply container_of_may_resolve in Hcont.
    exists fo. rewrite Hp. split; [apply last_snoc|]. split; [exact Hsame|].
    split; [exact Hfound|]. split; [exact Hcont|].
    intros Hnew. apply may_resolve_to_stored in Hcont as (p & Hin & Hid).
    destruct (proj1 (List.Forall_forall _ _) Hnew p Hin Hid).
  - (* inserted into a new container *)
    destruct Hres as (Hnone & Hs3 & Hlooked).
    destruct Hrest as (phys & w4 & id & w5 & Hnew & Hinsert & Hs1).
    apply new_container_returns in Hnew
      as (Hmun & Hadm & P & Bs & Hp & Hb & Hid & -> & Hcity & Hm & Ha & Hg & HBs & Hshape).
    rewrite Hs3 in Hmun, Hadm, Hp, Hb, Hid. fold t in Hmun, Hadm, Hp, Hb.
    apply insert_object_returns in Hinsert as (fo & Ht5 & Hfo & Hst & Hn).
    subst t1. rewrite Hs1, Ht5.
    destruct (Hstored (phys_id P) (functional_objects (current (sess w4))) fo
                Hfo Hst Hn) as [Hsame Hfound].
    assert (Hfp' : Forall (fun p => phys_id p <> phys_id P) (physical_objects t)).
    { eapply Forall_impl; [exact Hfp|]. cbn. intros p Hne. congruence. }
    assert (Hfb' : Forall (fun b => build_physical_object_id b <> phys_id P)
                     (buildings t)).
    { eapply Forall_impl; [exact Hfb|]. cbn. intros b Hne. congruence. }
    exists fo. rewrite Hfo. split; [apply last_snoc|]. split; [exact Hsame|].
    split; [revert Hfound; unfold select_functional_object; now destruct name|].
    change (may_resolve_to mapping city_id is_service_building row address longitude
              latitude
              (select_territory (municipalities (current (sess w4))) longitude
                 latitude)
              (select_territory (administrative_units (current (sess w4)))
                 longitude latitude) (current (sess w4)) (phys_id P)
            /\ (Forall (fun p => phys_id p <> phys_id P) (physical_objects t) ->
                forall phys,
                  may_resolve_to mapping city_id is_service_building row address
                    longitude latitude
                    (select_territory (municipalities (current (sess w4))) longitude
                       latitude)
                    (select_territory (administrative_units (current (sess w4)))
                       longitude latitude) (current (sess w4)) phys ->
                  phys = phys_id P)).
    rewrite Hmun, Hadm. fold m a. split.
    + apply container_of_may_resolve.
      subst m a. rewrite <- Hm in *. rewrite <- Ha in *.
      eapply new_container_is_found; eassumption.
    + intros _. eapply new_container_only_candidate; eassumption.
Qed.

End Rerun.

(** The sample cafe, inserted into the empty sample city and run again:
    the cafe is stored in the container the first run made, which is the
    only one the lookup of the second run can answer with, and the second
    run finds the cafe and updates it. *)
Example cafe_is_updated_when_run_again :
  let upsert := row_upsert (py "cafes") Sample.mapping [] (py "") true 1 11 false
                  Sample.cafe_row (py "ST_Point") 59.5 30.25 None in
  let first := upsert (Sample.world_of Sample.empty_tables) in
  let second := upsert first.2 in
  let t1 := current (sess first.2) in
  let name := row_name (py "cafes") Sample.mapping Sample.cafe_row in
  let may_answer :=
    may_resolve_to Sample.mapping 1 false Sample.cafe_row None 30.25 59.5
      (select_territory (municipalities t1) 30.25 59.5)
      (select_territory (administrative_units t1) 30.25 59.5) t1 in
  (exists fo,
     last (functional_objects t1) = Some fo
     /\ same_service 11 (fo_physical_object_id fo) name fo = true
     /\ (exists id,
           select_functional_object (fo_physical_object_id fo) 11 name t1
           = Ret (Some id))
     /\ may_answer (fo_physical_object_id fo)
     /\ forall phys, may_answer phys -> phys = fo_physical_object_id fo)
  /\ second.1 = Ret tt
  /\ rev (firstn 7 (trace second.2))
     = [SelectMunicipality; SelectAdministrativeUnit; SelectPhysicalObjectByPoint;
        SelectFunctionalObject; SelectFunctionalObjectFields;
        UpdateFunctionalObject 300 [(c_updated_at, PyStr (py "2024-01-02 03:04:05"))];
        Savepoint]
  /\ length (functional_objects (current (sess second.2))) = 1%nat
  /\ present (vars second.2) = present (vars first.2) + 1.
Proof.
  intros upsert first second t1 name may_answer. split.
  - assert (Hfirst : first = (Ret tt, first.2)) by (vm_compute; reflexivity).
    destruct (inserted_service_is_found_again (GIS := Fixture.server) (py "cafes")
                Sample.mapping [] (py "") true 1 11 false Sample.cafe_row
                (py "ST_Point") 59.5 30.25 None (Sample.world_of Sample.empty_tables)
                first.2
                [Savepoint; InsertFunctionalObject; SelectServiceTypeChain;
                 InsertPhysicalObject; SelectPhysicalObjectByPoint;
                 SelectAdministrativeUnit; SelectMunicipality])
      as (fo & Hlast & Hsame & Hquery & Hmay & Honly).
    + vm_compute. reflexivity.
    + split; [|vm_compute; reflexivity].
      intros blob g Hblob. vm_compute in Hblob. discriminate.
    + split; vm_compute; constructor.
    + exact Hfirst.
    + vm_compute. reflexivity.
    + right. left. reflexivity.
    + exists fo. split; [exact Hlast|]. split; [exact Hsame|]. split; [exact Hquery|].
      split; [exact Hmay|]. apply Honly. constructor.
  - vm_compute. repeat split; reflexivity.
Defined.

(** ** The theorems on the sample city *)

Section Witnesses.
Import Fixture.

Lemma add_objects_unknown_city_or_service_type_witness :
  exists out w',
    add_objects [Sample.cafe_row] (py "Москва") (py "cafes") Sample.mapping []
      [py "Россия, Санкт-Петербург"] (py "") true 200
      (Sample.world_of Sample.empty_tables) = (Ret out, w')
    /\ length out = 1%nat
    /\ (exists r,
          out !! 0%nat = Some r
          /\ r !! py "result" = Some (PyStr (unknown_city (py "Москва")))
          /\ r !! py "functional_obj_id" = Some (PyInt (-1))
          /\ r !! py "Name" = Some (PyStr (py "Cafe")))
    /\ sess w' = sess (Sample.world_of Sample.empty_tables)
    /\ trace w' = [SelectCity] ++ trace (Sample.world_of Sample.empty_tables).
Proof.
  destruct (add_objects_unknown_city_or_service_type [Sample.cafe_row]
              (py "Москва") (py "cafes") Sample.mapping []
              [py "Россия, Санкт-Петербург"] (py "") true 200
              (Sample.world_of Sample.empty_tables) (unknown_city (py "Москва"))
              [SelectCity])
    as (out & w' & Hrun & Hlen & Hrows & Hs & Ht).
  { left. repeat split; reflexivity. }
  destruct (Hrows 0%nat Sample.cafe_row eq_refl) as (r & Hr & Hres & Hid & Hrest).
  exists out, w'. split; [exact Hrun|]. split; [exact Hlen|].
  split; [|split; assumption].
  exists r. split; [exact Hr|]. split; [exact Hres|]. split; [exact Hid|].
  rewrite Hrest by (vm_compute; discriminate). vm_compute. reflexivity.
Defined.

Lemma address_match_takes_precedence_witness :
  let w := Sample.world_of Sample.school_tables in
  let run := building_container Sample.mapping [] true 1 10 Sample.moscow_school_row
               (PyStr (py "School")) (Some (py "Невский пр-кт, 1")) (py "ST_Point")
               30.25 59.5 (Some 7) (Some 3) w in
  run.1 = Ret (Container 100)
  /\ exists later,
       trace run.2 = later ++ SelectBuildingByAddress :: trace w
       /\ Forall not_geometry_lookup later.
Proof.
  intros w run. split; [vm_compute; reflexivity|].
  destruct (address_match_takes_precedence Sample.mapping [] true 1 10
              Sample.moscow_school_row (PyStr (py "School")) (py "Невский пр-кт, 1")
              (py "ST_Point") 30.25 59.5 (Some 7) (Some 3) w
              (Sample.cafe_place, Sample.school_building))
    as (later & Ht & Hl & _).
  - vm_compute. discriminate.
  - vm_compute. left. reflexivity.
  - vm_compute. reflexivity.
  - exists later. split; assumption.
Defined.


End Witnesses.

(** * Further properties of the code *)

(** ** Helpers of [add_objects] *)

Section Prefixes.

Lemma insert_by_length_perm x l : insert_by_length x l ≡ₚ x :: l.
Proof.
  induction l as [|y l IH]; [reflexivity|]. cbn [insert_by_length].
  destruct (length x <? length y)%nat; [|reflexivity]. rewrite IH. apply Permutation_swap.
Qed.

Lemma insert_by_length_sorted x l :
  StronglySorted (fun a b => (length b <= length a)%nat) l ->
  StronglySorted (fun a b => (length b <= length a)%nat) (insert_by_length x l).
Proof.
  induction 1 as [|y l Hs IH Hy]; cbn [insert_by_length].
  - repeat constructor.
  - destruct (length x <? length y)%nat eqn:Hlt.
    + apply Nat.ltb_lt in Hlt. constructor; [exact IH|].
      rewrite insert_by_length_perm. constructor; [lia | exact Hy].
    + apply Nat.ltb_ge in Hlt. constructor; [constructor; assumption|].
      constructor; [exact Hlt|].
      eapply Forall_impl; [exact Hy|]. cbn. intros z Hz. lia.
Qed.

Lemma insert_by_length_stable n x l :
  List.filter (fun s => length s =? n)%nat (insert_by_length x l)
  = List.filter (fun s => length s =? n)%nat (x :: l).
Proof.
  induction l as [|y l IH]; [reflexivity|]. cbn [insert_by_length].
  destruct (length x <? length y)%nat eqn:Hlt; [|reflexivity].
  apply Nat.ltb_lt in Hlt. cbn [List.filter] in *. rewrite IH.
  destruct (length y =? n)%nat eqn:Hy, (length x =? n)%nat eqn:Hx; try reflexivity.
  apply Nat.eqb_eq in Hy, Hx. lia.
Qed.

(** X1.  The prefixes as [add_objects] sorts them (line 372): the same
    prefixes, the longest first, and prefixes of equal length in the order
    they were given. *)
Theorem sorted_by_length_longest_first (l : list pystr) :
  sorted_by_length l ≡ₚ l
  /\ StronglySorted (fun a b => (length b <= length a)%nat) (sorted_by_length l)
  /\ forall n, List.filter (fun s => length s =? n)%nat (sorted_by_length l)
               = List.filter (fun s => length s =? n)%nat l.
Proof.
  unfold sorted_by_length. induction l as [|x l (IHp & IHs & IHf)]; cbn [foldr].
  - repeat split; constructor.
  - split; [|split].
    + rewrite insert_by_length_perm. now constructor.
    + now apply insert_by_length_sorted.
    + intros n. rewrite insert_by_length_stable. cbn [List.filter]. now rewrite IHf.
Qed.

End Prefixes.

Section Cleaning.

Lemma lstrip_drop chars s : exists k, lstrip chars s = drop k s.
Proof.
  induction s as [|c s [k IH]]; [now exists 0%nat|]. cbn.
  destruct (cp_in chars c); [now exists (S k) | now exists 0%nat].
Qed.

Lemma lstrip_head chars s c :
  head (lstrip chars s) = Some c -> cp_in chars c = false.
Proof.
  induction s as [|d s IH]; [discriminate|]. cbn.
  destruct (cp_in chars d) eqn:Hd; [exact IH|]. cbn. now intros [= <-].
Qed.

Lemma lstrip_id chars s :
  (forall c, head s = Some c -> cp_in chars c = false) -> lstrip chars s = s.
Proof.
  destruct s as [|c s]; [reflexivity|]. cbn. intros H. now rewrite (H c eq_refl).
Qed.

Lemma head_rev {A} (l : list A) : head (rev l) = last l.
Proof.
  induction l as [|x l IH] using rev_ind; [reflexivity|].
  now rewrite rev_app_distr, last_snoc.
Qed.

Lemma rstrip_take chars s : exists n, rstrip chars s = take n s.
Proof.
  unfold rstrip. destruct (lstrip_drop chars (rev s)) as [k ->].
  exists (length s - k)%nat. rewrite List.skipn_rev. apply rev_involutive.
Qed.

Lemma rstrip_last chars s c :
  last (rstrip chars s) = Some c -> cp_in chars c = false.
Proof.
  unfold rstrip. rewrite <- head_rev, rev_involutive. apply lstrip_head.
Qed.

Lemma rstrip_id chars s :
  (forall c, last s = Some c -> cp_in chars c = false) -> rstrip chars s = s.
Proof.
  intros H. unfold rstrip. rewrite lstrip_id; [apply rev_involutive|].
  intros c. rewrite head_rev. apply H.
Qed.

Lemma head_take {A} n (l : list A) x : head (take n l) = Some x -> head l = Some x.
Proof. destruct n, l; cbn; congruence. Qed.

Lemma str_strip_stripped chars s : stripped chars (str_strip chars s).
Proof.
  unfold str_strip. split.
  - intros c Hc. destruct (rstrip_take chars (lstrip chars s)) as [n Hn].
    rewrite Hn in Hc. apply head_take in Hc. eapply lstrip_head, Hc.
  - apply rstrip_last.
Qed.

Lemma str_strip_id chars s : stripped chars s -> str_strip chars s = s.
Proof.
  intros [Hh Hl]. unfold str_strip. rewrite (lstrip_id _ _ Hh). now apply rstrip_id.
Qed.

Lemma str_strip_sublist chars s c : c ∈ str_strip chars s -> c ∈ s.
Proof.
  unfold str_strip. destruct (rstrip_take chars (lstrip chars s)) as [n ->].
  destruct (lstrip_drop chars s) as [k ->].
  intros H. eapply subseteq_drop, subseteq_take, H.
Qed.

Lemma str_remove_absent c s : c ∉ str_remove c s.
Proof. unfold str_remove, pystr. rewrite list_elem_of_filter. now intros [? _]. Qed.

Lemma str_remove_id c s : c ∉ s -> str_remove c s = s.
Proof.
  unfold str_remove. induction s as [|d s IH]; [reflexivity|]. intros Hc.
  change (filter (fun x => x <> c) (d :: s))
    with (if decide (d <> c) then d :: filter (fun x => x <> c) s
          else filter (fun x => x <> c) s).
  destruct (decide (d <> c)) as [_|Heq].
  - f_equal. apply IH. set_solver.
  - exfalso. apply Hc. apply dec_stable in Heq as ->. left.
Qed.

(** The cleaned text of an address cell. *)
Lemma cleaned_text (x : pystr) :
  let y := str_strip whitespace (str_remove 63%N x) in
  (63%N ∉ y) /\ stripped whitespace y
  /\ str_strip whitespace (str_remove 63%N y) = y.
Proof.
  intros y.
  assert (Hq : 63%N ∉ y).
  { intros Hin. apply str_strip_sublist in Hin. exact (str_remove_absent _ _ Hin). }
  split; [exact Hq|]. split; [apply str_strip_stripped|].
  rewrite (str_remove_id _ _ Hq). apply str_strip_id, str_strip_stripped.
Qed.

(** X2.  What lines 364-367 leave in the address column [k] of a row: a
    string without question mark and without white space around it, or
    [None] where the cell held anything but a string; a row without the
    column stays without it, and no other cell is touched. *)
Theorem clean_address_cell (mapping : InsertionMapping) (row : Series) (k : pystr) :
  m_address mapping = Some k ->
  match clean_address mapping row !! k with
  | Some v => clean_cell v /\ is_Some (row !! k)
  | None => row !! k = None
  end
  /\ forall k', k' <> k -> clean_address mapping row !! k' = row !! k'.
Proof.
  intros Hk. unfold clean_address, Series in *. rewrite Hk.
  destruct (row !! k) as [v|] eqn:Hv.
  - split.
    + destruct v as [|b|n|x|s|t]; rewrite lookup_insert_eq;
        (split; [|eauto]); cbn; auto.
      destruct (cleaned_text s) as (H1 & H2 & _). auto.
    + intros k' Hne. destruct v; now rewrite lookup_insert_ne by congruence.
  - rewrite Hv. split; reflexivity.
Qed.

Lemma clean_address_cell_witness :
  clean_address Sample.mapping
    (Sample.row_of [("yand_adr", PyStr (py " Невский пр-кт?, 1 "))]%string)
  !! py "yand_adr" = Some (PyStr (py "Невский пр-кт, 1"))
  /\ match clean_address Sample.mapping
             (Sample.row_of [("yand_adr", PyStr (py " Невский пр-кт?, 1 "))]%string)
           !! py "yand_adr" with
     | Some v => clean_cell v
                 /\ is_Some (Sample.row_of
                               [("yand_adr", PyStr (py " Невский пр-кт?, 1 "))]%string
                             !! py "yand_adr")
     | None => Sample.row_of [("yand_adr", PyStr (py " Невский пр-кт?, 1 "))]%string
               !! py "yand_adr" = None
     end.
Proof.
  split; [vm_compute; reflexivity|].
  exact (proj1 (clean_address_cell Sample.mapping
                  (Sample.row_of [("yand_adr", PyStr (py " Невский пр-кт?, 1 "))]%string)
                  (py "yand_adr") eq_refl)).
Defined.

(** X3.  Cleaning the address column twice is cleaning it once. *)
Theorem clean_address_idempotent (mapping : InsertionMapping) (row : Series) :
  clean_address mapping (clean_address mapping row) = clean_address mapping row.
Proof.
  unfold clean_address, Series in *. destruct (m_address mapping) as [k|]; [|reflexivity].
  destruct (row !! k) as [v|] eqn:Hv; [|now rewrite Hv].
  destruct v; rewrite lookup_insert_eq, ?insert_insert_eq; try reflexivity.
  destruct (cleaned_text s) as (_ & _ & ->). reflexivity.
Qed.

End Cleaning.

(** ** The field mapping *)

Lemma fixer_not_blank (s : option pystr) :
  fixer s <> Some (py "") /\ fixer s <> Some (py "-").
Proof.
  unfold fixer. destruct s as [t|]; [|split; discriminate].
  destruct (str_in t [py ""; py "-"]) eqn:Hin; [split; discriminate|].
  cbn in Hin. rewrite orb_false_r in Hin. apply orb_false_elim in Hin as [H1 H2].
  unfold pystr_eqb in *. apply bool_decide_eq_false_1 in H1, H2.
  split; congruence.
Qed.

(** X4.  No slot of a mapping made by [init_insertion_mapping] names a
    column [""] or ["-"]: those two stand for "not given" and come out as
    [None], so a column that is really called "-" cannot be mapped. *)
Theorem init_insertion_mapping_no_blank_slot
    (name opening_hours website phone address osm_id capacity latitude longitude
     geometry : option pystr) :
  Forall (fun slot => slot <> Some (py "") /\ slot <> Some (py "-"))
    (slots (init_insertion_mapping name opening_hours website phone address osm_id
              capacity latitude longitude geometry)).
Proof. unfold slots, init_insertion_mapping. cbn. repeat constructor; apply fixer_not_blank. Qed.

(** ** [SQLType.from_name] *)

Lemma dict_of_pairs_lookup {V} (l : list (pystr * V)) k v :
  dict_of_pairs l !! k = Some v -> In (k, v) l.
Proof.
  unfold dict_of_pairs.
  assert (H : forall m : gmap pystr V,
             foldl (fun m kv => <[kv.1 := kv.2]> m) m l !! k = Some v ->
                        In (k, v) l \/ m !! k = Some v).
  { induction l as [|[k' v'] l IH]; intros m; cbn; [auto|].
    intros Hl. apply IH in Hl as [Hl | Hl]; [auto|].
    destruct (decide (k' = k)) as [->|Hne].
    - rewrite lookup_insert_eq in Hl. injection Hl as ->. auto.
    - rewrite lookup_insert_ne in Hl by exact Hne. auto. }
  intros Hl. apply H in Hl as [Hl | Hl]; [exact Hl|]. now rewrite lookup_empty in Hl.
Qed.

Lemma is_prefix_app p s : is_prefix p s = true -> exists r, s = p ++ r.
Proof.
  revert s. induction p as [|a p IH]; intros s; [now exists s|].
  destruct s as [|b s]; [discriminate|]. cbn.
  intros H. apply andb_prop in H as [Hab Hp]. apply N.eqb_eq in Hab as ->.
  destruct (IH _ Hp) as [r ->]. now exists r.
Qed.

Lemma is_prefix_refl_app p r : is_prefix p (p ++ r) = true.
Proof. induction p as [|a p IH]; [reflexivity|]. cbn. now rewrite N.eqb_refl. Qed.

(** X5.  Every name that starts with "character varying", such as
    "character varying(50)", is read as [VARCHAR]. *)
Theorem from_name_character_varying (name : pystr) :
  is_prefix (py "character varying") name = true -> from_name name = Ret VARCHAR.
Proof.
  intros Hp. unfold from_name. rewrite Hp.
  destruct (sqltype_mapping !! str_lower name) as [t|] eqn:Hl; [|reflexivity].
  f_equal. apply dict_of_pairs_lookup in Hl.
  apply is_prefix_app in Hp as [r ->].
  unfold str_lower in Hl. rewrite map_app in Hl.
  change (map lower_cp (py "character varying")) with (py "character varying") in Hl.
  remember (py "character varying" ++ map lower_cp r) as key eqn:Hkey.
  assert (Hpre : is_prefix (py "character varying") key = true)
    by (subst key; apply is_prefix_refl_app).
  clear Hkey. vm_compute in Hl.
  repeat (destruct Hl as [Hl|Hl];
          [injection Hl as <- <-; first [reflexivity | vm_compute in Hpre; discriminate]|]).
  destruct Hl.
Qed.

Lemma from_name_character_varying_witness :
  from_name (py "character varying(50)") = Ret VARCHAR.
Proof. exact (from_name_character_varying (py "character varying(50)") eq_refl). Defined.

(** ** [insert_object] and [update_object] *)

Section Executor.
Context `{RT : PyRuntime} `{GIS : PostGIS}.
Local Open Scope monad_scope.

Lemma randint_range lo hi w c w' :
  randint lo hi w = (Ret c, w') ->
  exists a b, lo = PyInt a /\ hi = PyInt b /\ a <= c <= b.
Proof.
  unfold randint.
  destruct lo as [|? |a|? |? |?]; try discriminate;
    destruct hi as [|? |b|? |? |?]; try discriminate.
  destruct (b <? a) eqn:Hlt; [discriminate|]. apply Z.ltb_ge in Hlt.
  intros [= <- _]. exists a, b. split; [reflexivity|]. split; [reflexivity|].
  pose proof (Z.mod_pos_bound (hd 0 (randoms w)) (b - a + 1)). lia.
Qed.

(** X6.  The functional object [insert_object] has written is the last of
    the table and carries the id that is returned.  Its capacity is the
    row's when the row has an integer capacity, and is then flagged as
    real; otherwise it is a number between the minimum and the maximum of
    the service type, flagged as not real. *)
Theorem insert_object_capacity (row : Series) (phys_id : Z) (name : pyval)
    (service_type_id : Z) (mapping : InsertionMapping)
    (properties_mapping : list (pystr * pystr)) (commit : bool) (w w' : world)
    (id : Z) :
  insert_object row phys_id name service_type_id mapping properties_mapping commit w
  = (Ret id, w') ->
  exists fo,
    last (functional_objects (current (sess w'))) = Some fo
    /\ fo_id fo = id
    /\ if in_row (m_capacity mapping) row
          && is_int (row_get (m_capacity mapping) PyNone row)
       then fo_capacity fo = row_get (m_capacity mapping) PyNone row
            /\ fo_is_capacity_real fo = PyBool true
       else exists capacity_min capacity_max capacity ids,
              select_service_type_chain service_type_id (current (sess w))
              = Some (PyInt capacity_min, PyInt capacity_max, ids)
              /\ fo_capacity fo = PyInt capacity
              /\ capacity_min <= capacity <= capacity_max
              /\ fo_is_capacity_real fo = PyBool false.
Proof.
  unfold insert_object. intros Hrun.
  apply bind_returns in Hrun as (fetched & w1 & Hq & Hrun).
  apply query_returns in Hq as (Hq & Hs1 & _). injection Hq as <-.
  apply bind_returns in Hrun as ([[capacity_min capacity_max] ids] & w2 & Hl & Hrun).
  apply lift_returns in Hl as [Hl ->].
  destruct (select_service_type_chain service_type_id (current (sess w)))
    as [chain|] eqn:Hchain; [|discriminate].
  injection Hl as ->.
  apply bind_returns in Hrun as ([capacity real] & w3 & Hcap & Hrun).
  apply bind_returns in Hrun as (fid & w4 & Hins & Hrun).
  apply execute_returns in Hins as (Hins & _).
  apply bind_returns in Hrun as ([] & w5 & Hsp & Hrun).
  apply ret_returns in Hrun as [-> ->].
  assert (Hs5 : current (sess w5) = current (sess w4)).
  { destruct commit.
    - apply execute_returns in Hsp as (Hsp & _). injection Hsp as <-. reflexivity.
    - apply ret_returns in Hsp as [_ ->]. reflexivity. }
  unfold insert_functional_object in Hins. injection Hins as Hid Hs4.
  eexists. rewrite Hs5, <- Hs4. cbn [current functional_objects with_functional_objects].
  rewrite last_snoc. split; [reflexivity|]. cbn [fo_id fo_capacity fo_is_capacity_real].
  split; [exact Hid|].
  destruct (in_row (m_capacity mapping) row
            && is_int (row_get (m_capacity mapping) PyNone row)).
  - apply ret_returns in Hcap as [[= -> ->] _]. auto.
  - apply bind_returns in Hcap as (c & wc & Hr & Hcap).
    apply ret_returns in Hcap as [[= -> ->] _].
    apply randint_range in Hr as (a & b & -> & -> & Hab).
    exists a, b, c, ids. auto.
Qed.

(** X7.  [insert_object] for a service type without its chain of city
    function and infrastructure type: [fetchone()] is [None] and cannot be
    unpacked.  The call raises, a [TypeError] unless the statement itself
    failed; only the [SELECT] was sent and the session is as it was. *)
Theorem insert_object_unknown_service_type (row : Series) (phys_id : Z) (name : pyval)
    (service_type_id : Z) (mapping : InsertionMapping)
    (properties_mapping : list (pystr * pystr)) (commit : bool) (w : world) :
  select_service_type_chain service_type_id (current (sess w)) = None ->
  let run := insert_object row phys_id name service_type_id mapping properties_mapping
               commit w in
  exists e,
    run.1 = Raise e
    /\ (fault_at 0 w = None -> exn_cls e = TypeError)
    /\ sess run.2 = sess w
    /\ trace run.2 = SelectServiceTypeChain :: trace w.
Proof.
  intros Hchain run. subst run. unfold insert_object, bind.
  destruct (query_runs SelectServiceTypeChain
              (fun t => Ret (select_service_type_chain service_type_id t)) w)
    as [[e He] | He]; rewrite He.
  - exists e. repeat split.
    intros Hf. revert He. unfold query, execute, fault_at in *.
    destruct (faults w) as [|[e'|] rest]; cbn in *; congruence.
  - rewrite Hchain. cbn. eexists. repeat split.
Qed.

(** X8.  [update_object] for an id that is not in the table: [fetchone()]
    is [None] and cannot be unpacked.  The call raises, a [TypeError]
    unless the statement itself failed; no [UPDATE] was sent and the
    session is as it was. *)
Theorem update_object_unknown_id (row : Series) (functional_object_id : Z)
    (name : pyval) (mapping : InsertionMapping)
    (properties_mapping : list (pystr * pystr)) (commit : bool) (w : world) :
  Forall (fun fo => fo_id fo <> functional_object_id)
    (functional_objects (current (sess w))) ->
  let run := update_object row functional_object_id name mapping properties_mapping
               commit w in
  exists e,
    run.1 = Raise e
    /\ (fault_at 0 w = None -> exn_cls e = TypeError)
    /\ sess run.2 = sess w
    /\ trace run.2 = SelectFunctionalObjectFields :: trace w.
Proof.
  intros Hnone run. subst run. unfold update_object, bind.
  assert (Hfind : List.find (fun fo => fo_id fo =? functional_object_id)
                    (functional_objects (current (sess w))) = None).
  { induction Hnone as [|fo l Hfo _ IH]; [reflexivity|]. cbn.
    apply Z.eqb_neq in Hfo. now rewrite Hfo. }
  match goal with
  | |- context [query ?st ?q w] =>
      destruct (query_runs st q w) as [[e He] | He]; rewrite He
  end.
  - exists e. repeat split.
    intros Hf. revert He. unfold query, execute, fault_at in *.
    destruct (faults w) as [|[e'|] rest]; cbn in *; congruence.
  - rewrite Hfind. cbn. eexists. repeat split.
Qed.

End Executor.

Lemma insert_object_capacity_witness :
  let run := insert_object Sample.cafe_row 100 (PyStr (py "Cafe")) 11 Sample.mapping []
               true (Sample.world_of Sample.cafe_tables) in
  run.1 = Ret 300
  /\ exists fo,
       last (functional_objects (current (sess run.2))) = Some fo
       /\ fo_id fo = 300
       /\ exists capacity_min capacity_max capacity ids,
            select_service_type_chain 11 Sample.cafe_tables
            = Some (PyInt capacity_min, PyInt capacity_max, ids)
            /\ fo_capacity fo = PyInt capacity
            /\ capacity_min <= capacity <= capacity_max
            /\ fo_is_capacity_real fo = PyBool false.
Proof.
  intros run. split; [vm_compute; reflexivity|].
  exact (insert_object_capacity (GIS := Fixture.server) Sample.cafe_row 100
           (PyStr (py "Cafe")) 11 Sample.mapping [] true
           (Sample.world_of Sample.cafe_tables) run.2 300
           ltac:(vm_compute; reflexivity)).
Defined.

Lemma insert_object_unknown_service_type_witness :
  let run := insert_object Sample.cafe_row 100 (PyStr (py "Cafe")) 12 Sample.mapping []
               true (Sample.world_of Sample.cafe_tables) in
  exists e,
    run.1 = Raise e
    /\ (fault_at 0 (Sample.world_of Sample.cafe_tables) = None -> exn_cls e = TypeError)
    /\ sess run.2 = sess (Sample.world_of Sample.cafe_tables)
    /\ trace run.2 = SelectServiceTypeChain :: trace (Sample.world_of Sample.cafe_tables).
Proof.
  exact (insert_object_unknown_service_type (GIS := Fixture.server) Sample.cafe_row 100
           (PyStr (py "Cafe")) 12 Sample.mapping [] true
           (Sample.world_of Sample.cafe_tables) eq_refl).
Defined.

Lemma update_object_unknown_id_witness :
  let run := update_object Sample.cafe_row 301 (PyStr (py "Cafe")) Sample.mapping []
               true (Sample.world_of Sample.cafe_tables) in
  exists e,
    run.1 = Raise e
    /\ (fault_at 0 (Sample.world_of Sample.cafe_tables) = None -> exn_cls e = TypeError)
    /\ sess run.2 = sess (Sample.world_of Sample.cafe_tables)
    /\ trace run.2
       = SelectFunctionalObjectFields :: trace (Sample.world_of Sample.cafe_tables).
Proof.
  apply (update_object_unknown_id (GIS := Fixture.server) Sample.cafe_row 301
           (PyStr (py "Cafe")) Sample.mapping [] true
           (Sample.world_of Sample.cafe_tables)).
  repeat constructor; discriminate.
Defined.

Section UpdateFrame.
Context `{RT : PyRuntime} `{GIS : PostGIS}.
Local Open Scope monad_scope.

Lemma kept_trans id a b c : kept id a b -> kept id b c -> kept id a c.
Proof.
  unfold kept. intros (H1 & H2 & H3 & H4 & H5 & H6) (K1 & K2 & K3 & K4 & K5 & K6).
  repeat split; try congruence.
  intros Hne. rewrite <- (H6 Hne). apply K6. rewrite (H6 Hne). exact Hne.
Qed.

(** An [UPDATE ... WHERE id = %s] whose assignments leave the keys alone. *)
Lemma update_where_id_kept id (f : functional_object -> functional_object) l :
  (forall fo, fo_id (f fo) = fo_id fo
              /\ fo_physical_object_id (f fo) = fo_physical_object_id fo
              /\ fo_city_service_type_id (f fo) = fo_city_service_type_id fo
              /\ fo_city_function_id (f fo) = fo_city_function_id fo
              /\ fo_city_infrastructure_type_id (f fo)
                 = fo_city_infrastructure_type_id fo) ->
  Forall2 (kept id) l (map (fun fo => if fo_id fo =? id then f fo else fo) l).
Proof.
  intros Hf. induction l as [|fo l IH]; cbn; constructor; [|exact IH].
  destruct (fo_id fo =? id) eqn:Hid.
  - apply Z.eqb_eq in Hid. destruct (Hf fo) as (H1 & H2 & H3 & H4 & H5).
    unfold kept. repeat split; try assumption. congruence.
  - unfold kept. auto 10.
Qed.

Lemma set_columns_keys set fo :
  let fo' := foldl (flip set_column) fo set in
  fo_id fo' = fo_id fo
  /\ fo_physical_object_id fo' = fo_physical_object_id fo
  /\ fo_city_service_type_id fo' = fo_city_service_type_id fo
  /\ fo_city_function_id fo' = fo_city_function_id fo
  /\ fo_city_infrastructure_type_id fo' = fo_city_infrastructure_type_id fo.
Proof.
  revert fo. induction set as [|[c v] set IH]; intros fo; cbn [foldl]; [auto 10|].
  destruct (IH (flip set_column fo (c, v))) as (H1 & H2 & H3 & H4 & H5).
  cbn zeta. rewrite H1, H2, H3, H4, H5. unfold flip, set_column. cbn. auto 10.
Qed.

Lemma Forall2_kept_trans id l1 l2 l3 :
  Forall2 (kept id) l1 l2 -> Forall2 (kept id) l2 l3 -> Forall2 (kept id) l1 l3.
Proof.
  intros H12. revert l3. induction H12 as [|a b l1 l2 Hab _ IH]; intros l3 H23;
    inversion H23; subst; constructor; eauto using kept_trans.
Qed.

Lemma Forall2_kept_refl id l : Forall2 (kept id) l l.
Proof. induction l; constructor; [unfold kept; auto 10 | assumption]. Qed.

(** X9.  What [update_object] leaves alone.  A call that returns gives
    back the id it was given; physical objects and buildings are as
    before; the table of functional objects has the same rows in the same
    order, each with its id, its physical object and its service type, city
    function and infrastructure type, and every row with another id is
    unchanged. *)
Theorem update_object_frame (row : Series) (functional_object_id : Z) (name : pyval)
    (mapping : InsertionMapping) (properties_mapping : list (pystr * pystr))
    (commit : bool) (w w' : world) (id : Z) :
  update_object row functional_object_id name mapping properties_mapping commit w
  = (Ret id, w') ->
  id = functional_object_id
  /\ physical_objects (current (sess w')) = physical_objects (current (sess w))
  /\ buildings (current (sess w')) = buildings (current (sess w))
  /\ Forall2 (kept functional_object_id)
       (functional_objects (current (sess w)))
       (functional_objects (current (sess w'))).
Proof.
  unfold update_object. intros Hrun.
  apply bind_returns in Hrun as (fetched & w1 & Hq & Hrun).
  apply query_returns in Hq as (_ & Hs1 & _).
  apply bind_returns in Hrun as (stored & w2 & Hl & Hrun).
  apply lift_returns in Hl as [_ ->].
  apply bind_returns in Hrun as (t & w3 & Ht & Hrun).
  injection Ht as _ <-.
  apply bind_returns in Hrun as ([] & w4 & Hupd & Hrun).
  apply execute_returns in Hupd as (Hupd & _).
  apply bind_returns in Hrun as ([] & w5 & Hprops & Hrun).
  apply bind_returns in Hrun as ([] & w6 & Hsp & Hrun).
  apply ret_returns in Hrun as [-> ->].
  split; [reflexivity|].
  assert (H6 : current (sess w6) = current (sess w5)).
  { destruct commit.
    - apply execute_returns in Hsp as (Hsp & _). injection Hsp as <-. reflexivity.
    - apply ret_returns in Hsp as [_ ->]. reflexivity. }
  unfold update_where_id in Hupd. injection Hupd as Hs4.
  assert (H4 : physical_objects (current (sess w4)) = physical_objects (current (sess w))
               /\ buildings (current (sess w4)) = buildings (current (sess w))
               /\ Forall2 (kept functional_object_id)
                    (functional_objects (current (sess w)))
                    (functional_objects (current (sess w4)))).
  { rewrite <- Hs4, Hs1. cbn. repeat split.
    apply update_where_id_kept. intros fo. apply set_columns_keys. }
  destruct H4 as (Hp4 & Hb4 & Hf4).
  rewrite H6.
  destruct (negb (jsonb_eq _ _)).
  - apply execute_returns in Hprops as (Hprops & _).
    unfold update_where_id in Hprops. injection Hprops as Hs5.
    rewrite <- Hs5. cbn. repeat split; try assumption.
    eapply Forall2_kept_trans; [exact Hf4|].
    apply update_where_id_kept. intros fo. unfold merge_properties. cbn. auto 10.
  - apply ret_returns in Hprops as [_ ->]. auto.
Qed.

(** X10.  The properties document built from a row (lines 193-197 and
    268-272): a key of the document is a key of [properties_mapping], its
    value is the cell of a column mapped to it, and that cell is neither
    [None] nor the empty string. *)
Theorem functional_object_properties_sound (row : Series)
    (properties_mapping : list (pystr * pystr)) (db_name : pystr) (v : pyval) :
  functional_object_properties row properties_mapping !! db_name = Some v ->
  exists row_name,
    In (db_name, row_name) properties_mapping
    /\ row !! row_name = Some v
    /\ v <> PyNone /\ v <> PyStr (py "").
Proof.
  unfold functional_object_properties. intros Hl.
  apply dict_of_pairs_lookup in Hl. apply list_elem_of_In in Hl.
  apply list_elem_of_omap in Hl as ([db col] & Hin & Hsome).
  destruct (row !! col) as [cell|] eqn:Hcell; [|discriminate].
  destruct (negb (is_none cell) && py_ne cell (PyStr (py ""))) eqn:Hok; [|discriminate].
  injection Hsome as -> ->. apply andb_prop in Hok as [Hn He].
  exists col. split; [now apply list_elem_of_In|]. split; [exact Hcell|].
  split.
  - intros ->. discriminate.
  - intros ->. unfold py_ne, py_eq in He. now rewrite pystr_eqb_refl in He.
Qed.

End UpdateFrame.

Lemma update_object_frame_witness :
  let w := Sample.world_of Sample.cafe_tables in
  let run := update_object Sample.cafe_row 300 (PyStr (py "Cafe")) Sample.mapping []
               true w in
  run.1 = Ret 300
  /\ physical_objects (current (sess run.2)) = physical_objects (current (sess w))
  /\ buildings (current (sess run.2)) = buildings (current (sess w))
  /\ Forall2 (kept 300) (functional_objects (current (sess w)))
       (functional_objects (current (sess run.2))).
Proof.
  intros w run. split; [vm_compute; reflexivity|].
  exact (proj2 (update_object_frame (GIS := Fixture.server) Sample.cafe_row 300
                  (PyStr (py "Cafe")) Sample.mapping [] true w run.2 300
                  ltac:(vm_compute; reflexivity))).
Defined.

Lemma functional_object_properties_sound_witness :
  functional_object_properties Sample.cafe_row [(py "phone", py "contact:phone")]
  !! py "phone" = Some (PyStr (py "2"))
  /\ exists row_name,
       In (py "phone", row_name) [(py "phone", py "contact:phone")]
       /\ Sample.cafe_row !! row_name = Some (PyStr (py "2"))
       /\ PyStr (py "2") <> PyNone /\ PyStr (py "2") <> PyStr (py "").
Proof.
  split; [vm_compute; reflexivity|].
  exact (functional_object_properties_sound Sample.cafe_row
           [(py "phone", py "contact:phone")] (py "phone") (PyStr (py "2"))
           ltac:(vm_compute; reflexivity)).
Defined.

(** ** [add_objects] as a whole *)

Section Batch.
Context `{RT : PyRuntime} `{GIS : PostGIS}.
Local Open Scope monad_scope.
Variables (city_name service_type : pystr) (mapping : InsertionMapping)
          (properties_mapping : list (pystr * pystr))
          (address_prefixes : list pystr) (new_prefix : pystr).

Lemma bind_of_ret {A B} (m : M A) (k : A -> M B) w a w1 :
  m w = (Ret a, w1) -> bind m k w = k a w1.
Proof. intros H. unfold bind. now rewrite H. Qed.

Lemma bind_of_raise {A B} (m : M A) (k : A -> M B) w e w1 :
  m w = (Raise e, w1) -> bind m k w = (Raise e, w1).
Proof. intros H. unfold bind. now rewrite H. Qed.

Lemma query_answers {A} st (f : tables -> A) w :
  fault_at 0 w = None ->
  query st (fun t => Ret (f t)) w = (Ret (f (current (sess w))), after st w).
Proof. intros Hf. now rewrite query_no_fault. Qed.

Lemma try_except_KeyboardInterrupt_returns (m handler orelse : M unit) w w' :
  try_except_KeyboardInterrupt m handler orelse w = (Ret tt, w') ->
  (exists w1, m w = (Ret tt, w1) /\ orelse w1 = (Ret tt, w'))
  \/ (exists e w1, m w = (Raise e, w1) /\ exn_cls e = KeyboardInterrupt
                   /\ handler w1 = (Ret tt, w')).
Proof.
  unfold try_except_KeyboardInterrupt. destruct (m w) as [[[]|e] w1].
  - intros H. left. eauto.
  - destruct (decide (exn_cls e = KeyboardInterrupt)); [|discriminate].
    intros H. right. eauto.
Qed.

(** A run of [add_objects] that returns, taken apart: it stopped at one of
    the two lookups, or went through the loop. *)
Lemma add_objects_returns (objects : list Series) (commit : bool) (log_n : Z) w out w' :
  add_objects objects city_name service_type mapping properties_mapping
    address_prefixes new_prefix commit log_n w = (Ret out, w') ->
  let t := current (sess w) in
  let cleaned := map (clean_address mapping) objects in
  (exists message,
     out = with_outcomes cleaned (replicate (length cleaned) message)
             (replicate (length cleaned) (-1))
     /\ sess w' = sess w
     /\ (select_city city_name t = None \/ select_service_type service_type t = None))
  \/ (exists city_id service_type_id is_service_building w1 w2,
        select_city city_name t = Some city_id
        /\ select_service_type service_type t = Some (service_type_id, is_service_building)
        /\ sess w1 = sess w
        /\ (if commit then SAVEPOINT_previous_object else ret tt) w1 = (Ret tt, w2)
        /\ try_except_KeyboardInterrupt
             (rows_loop service_type mapping properties_mapping
                (sorted_by_length address_prefixes) new_prefix commit city_id
                service_type_id is_service_building log_n 0 cleaned)
             (interrupted commit)
             (if commit then conn_commit else ret tt) w2 = (Ret tt, w')
        /\ out = with_outcomes cleaned (results (vars w')) (functional_ids (vars w'))).
Proof.
  intros Hrun t cleaned. unfold add_objects in Hrun. fold cleaned in Hrun.
  apply bind_returns in Hrun as ([] & w0 & H0 & Hrun).
  apply with_vars_returns in H0 as (Hs0 & _).
  apply bind_returns in Hrun as (city & wc & Hc & Hrun).
  apply query_returns in Hc as (Hc & Hsc & _). injection Hc as <-.
  rewrite Hs0 in *. fold t in Hrun |- *.
  destruct (select_city city_name t) as [city_id|] eqn:Hcity.
  - apply bind_returns in Hrun as (res & w1 & Hst & Hrun).
    apply query_returns in Hst as (Hst & Hs1 & _). injection Hst as <-.
    rewrite Hsc in *. fold t in Hrun |- *.
    destruct (select_service_type service_type t) as [[service_type_id b]|] eqn:Hservice.
    + right.
      apply bind_returns in Hrun as ([] & w2 & Hsp & Hrun).
      apply bind_returns in Hrun as ([] & w3 & Hloop & Hrun).
      apply bind_returns in Hrun as (v & w4 & Hv & Hrun).
      injection Hv as <- <-. apply ret_returns in Hrun as [-> ->].
      exists city_id, service_type_id, b, w1, w2. auto 10.
    + left. apply ret_returns in Hrun as [-> ->]. eexists. split; [reflexivity|].
      split; [congruence | auto].
  - left. apply ret_returns in Hrun as [-> ->]. eexists. split; [reflexivity|].
    split; [congruence | auto].
Qed.

(** X11.  The frame [add_objects] returns has a row for every row of the
    frame it was given, in the same order: it has a string in the column
    [result] and an integer in the column [functional_obj_id], and its
    other cells are those of the input row with the address cleaned. *)
Theorem add_objects_keeps_the_rows (objects : list Series) (commit : bool) (log_n : Z)
    (w w' : world) (out : list Series) :
  add_objects objects city_name service_type mapping properties_mapping
    address_prefixes new_prefix commit log_n w = (Ret out, w') ->
  length out = length objects
  /\ forall j row, objects !! j = Some row ->
       exists r message id,
         out !! j = Some r
         /\ r !! py "result" = Some (PyStr message)
         /\ r !! py "functional_obj_id" = Some (PyInt id)
         /\ forall k, k <> py "result" -> k <> py "functional_obj_id" ->
                      r !! k = clean_address mapping row !! k.
Proof.
  intros Hrun.
  assert (Hout : exists results functional_ids,
             out = with_outcomes (map (clean_address mapping) objects) results
                     functional_ids).
  { apply add_objects_returns in Hrun
      as [(msg & -> & _) | (c & s & b & w1 & w2 & _ & _ & _ & _ & _ & ->)]; eauto. }
  destruct Hout as (results & ids & ->). unfold with_outcomes. split.
  - now rewrite length_imap, length_map.
  - intros j row Hj. rewrite list_lookup_imap, list_lookup_fmap, Hj. cbn.
    eexists _, _, _. split; [reflexivity|]. apply with_outcome_cells.
Qed.

(** X12.  Commit mode, both lookups found.  When [add_objects] returns
    nothing is left uncommitted: the loop ended and the transaction was
    committed, or the user interrupted it and the transaction was
    committed or rolled back as the user chose. *)
Theorem add_objects_leaves_nothing_pending (objects : list Series) (log_n : Z)
    (w w' : world) (out : list Series) :
  is_Some (select_city city_name (current (sess w))) ->
  is_Some (select_service_type service_type (current (sess w))) ->
  add_objects objects city_name service_type mapping properties_mapping
    address_prefixes new_prefix true log_n w = (Ret out, w') ->
  current (sess w') = committed (sess w') /\ savepoints (sess w') = [].
Proof.
  intros [c Hc] [s Hs] Hrun.
  apply add_objects_returns in Hrun
    as [(msg & _ & _ & [Hn | Hn]) | (c' & s' & b & w1 & w2 & _ & _ & _ & _ & Hloop & _)];
    [congruence | congruence |].
  apply try_except_KeyboardInterrupt_returns in Hloop
    as [(w3 & _ & Hend) | (e & w3 & _ & _ & Hend)].
  - apply execute_returns in Hend as (Hend & _). injection Hend as <-. auto.
  - unfold interrupted in Hend.
    apply bind_returns in Hend as ([] & w4 & Hchoice & Hend).
    apply with_vars_returns in Hend as (-> & _).
    apply bind_returns in Hchoice as (choice & w5 & _ & Hchoice).
    apply bind_returns in Hchoice as (yes & w6 & _ & Hchoice).
    destruct yes; apply execute_returns in Hchoice as (Hchoice & _);
      injection Hchoice as <-; auto.
Qed.

Lemma rows_loop_log_n_zero (prefixes : list pystr) (commit : bool)
    (city_id service_type_id : Z) (is_service_building : bool) (idx : nat)
    (row : Series) (rest : list Series) w :
  exists e w',
    rows_loop service_type mapping properties_mapping prefixes new_prefix
      commit city_id service_type_id is_service_building 0 idx (row :: rest) w
    = (Raise e, w')
    /\ exn_cls e = ZeroDivisionError
    /\ sess w' = sess w /\ trace w' = trace w /\ results (vars w') = results (vars w).
Proof.
  cbn [rows_loop]. unfold row_step, checkpoint.
  change (0 =? 0) with true. cbv iota.
  unfold bind, with_vars, raise. cbn [sess trace vars].
  eexists _, _. split; [reflexivity|]. repeat split.
Qed.

(** X13.  [log_n = 0] with at least one row, in a session without
    failures: once both lookups have answered, the test [i % log_n] of the
    first turn of the loop raises [ZeroDivisionError], which leaves
    [add_objects]; no row was looked at and the tables are untouched. *)
Theorem add_objects_log_n_zero (row : Series) (objects : list Series) (commit : bool)
    (w : world) :
  faults w = [] ->
  is_Some (select_city city_name (current (sess w))) ->
  is_Some (select_service_type service_type (current (sess w))) ->
  let run := add_objects (row :: objects) city_name service_type mapping
               properties_mapping address_prefixes new_prefix commit 0 w in
  raised_class run.1 = Some ZeroDivisionError
  /\ trace run.2
     = (if commit then [Savepoint] else []) ++ [SelectServiceType; SelectCity] ++ trace w
  /\ current (sess run.2) = current (sess w)
  /\ results (vars run.2) = replicate (S (length objects)) (py "").
Proof.
  intros Hf [c Hc] [[s b] Hs] run. subst run.
  unfold add_objects. cbn [map].
  set (cleaned := map (clean_address mapping) objects).
  set (n := length (clean_address mapping row :: cleaned)).
  assert (Hn : n = S (length objects))
    by (subst n cleaned; cbn [length]; now rewrite length_map).
  erewrite bind_of_ret by reflexivity.
  erewrite bind_of_ret
    by (apply query_answers; unfold fault_at; cbn [faults]; now rewrite Hf).
  cbn [sess current]. rewrite Hc. cbv iota beta.
  erewrite bind_of_ret
    by (apply query_answers; unfold fault_at, after; cbn [faults]; now rewrite Hf).
  cbn [sess current after]. rewrite Hs. cbv iota beta.
  match goal with
  | |- context [bind (if commit then _ else _) ?k ?w1] =>
      assert (Hw2 : exists w2,
                 (if commit then SAVEPOINT_previous_object else ret tt) w1 = (Ret tt, w2)
                 /\ current (sess w2) = current (sess w)
                 /\ trace w2 = (if commit then [Savepoint] else [])
                               ++ [SelectServiceType; SelectCity] ++ trace w
                 /\ results (vars w2) = replicate n (py ""))
  end.
  { destruct commit.
    - unfold SAVEPOINT_previous_object, execute. cbn [faults]. rewrite Hf.
      cbn [tail]. eexists. split; [reflexivity|]. repeat split.
    - eexists. split; [reflexivity|]. repeat split. }
  destruct Hw2 as (w2 & Hsp & Hcur & Htr & Hres).
  erewrite bind_of_ret by exact Hsp.
  destruct (rows_loop_log_n_zero (sorted_by_length address_prefixes) commit c s b 0
              (clean_address mapping row) cleaned w2)
    as (e & w3 & Hloop & Hcls & Hs3 & Ht3 & Hr3).
  erewrite bind_of_raise.
  2:{ unfold try_except_KeyboardInterrupt. rewrite Hloop.
      destruct (decide (exn_cls e = KeyboardInterrupt)) as [Hk|_]; [|reflexivity].
      rewrite Hcls in Hk. discriminate. }
  cbn [fst snd raised_class]. rewrite Hcls, Hs3, Ht3, Hr3, Hcur, Htr, Hres, Hn. auto.
Qed.

End Batch.

(** A run that did not raise returned what is read off its result. *)
Lemma returned `{GIS : PostGIS} {A} (m : result A * world) (default : A) :
  raised_class m.1 = None ->
  m = (Ret (match m.1 with Ret a => a | Raise _ => default end), m.2).
Proof. destruct m as [[a|e] w]; [reflexivity | discriminate]. Qed.

Lemma raised `{GIS : PostGIS} {A} (m : result A * world) (e : exn) :
  m.1 = Raise e -> m = (Raise e, m.2).
Proof. destruct m as [r w]. cbn. now intros ->. Qed.

Section BatchWitnesses.
Import Fixture.

Lemma add_objects_keeps_the_rows_witness :
  let run := add_objects [Sample.cafe_row] (py "Санкт-Петербург")
               (py "cafes") Sample.mapping [] [py "Россия, Санкт-Петербург"] (py "")
               true 200 (Sample.world_of Sample.empty_tables) in
  let out := match run.1 with Ret out => out | Raise _ => [] end in
  run.1 = Ret out
  /\ length out = 1%nat
  /\ exists r message id,
       out !! 0%nat = Some r
       /\ r !! py "result" = Some (PyStr message)
       /\ r !! py "functional_obj_id" = Some (PyInt id)
       /\ forall k, k <> py "result" -> k <> py "functional_obj_id" ->
                    r !! k = clean_address Sample.mapping Sample.cafe_row !! k.
Proof.
  intros run out.
  pose proof (returned run [] ltac:(vm_compute; reflexivity)) as Hrun.
  split; [exact (f_equal fst Hrun)|].
  pose proof (add_objects_keeps_the_rows (py "Санкт-Петербург") (py "cafes")
                Sample.mapping [] [py "Россия, Санкт-Петербург"] (py "")
                [Sample.cafe_row] true 200
                (Sample.world_of Sample.empty_tables) run.2 out Hrun)
    as [Hlen Hrows].
  split; [exact Hlen|]. exact (Hrows 0%nat Sample.cafe_row eq_refl).
Defined.

Lemma add_objects_leaves_nothing_pending_witness :
  let run := add_objects [Sample.cafe_row] (py "Санкт-Петербург")
               (py "cafes") Sample.mapping [] [py "Россия, Санкт-Петербург"] (py "")
               true 200 (Sample.world_of Sample.empty_tables) in
  length (functional_objects (committed (sess run.2))) = 1%nat
  /\ current (sess run.2) = committed (sess run.2) /\ savepoints (sess run.2) = [].
Proof.
  intros run. split; [vm_compute; reflexivity|].
  pose proof (returned run [] ltac:(vm_compute; reflexivity)) as Hrun.
  refine (add_objects_leaves_nothing_pending (py "Санкт-Петербург") (py "cafes")
            Sample.mapping [] [py "Россия, Санкт-Петербург"] (py "")
            [Sample.cafe_row] 200 (Sample.world_of Sample.empty_tables) run.2
            (match run.1 with Ret out => out | Raise _ => [] end) _ _ Hrun).
  - exists 1. vm_compute. reflexivity.
  - exists (11, false). vm_compute. reflexivity.
Defined.

Lemma add_objects_log_n_zero_witness :
  let run := add_objects [Sample.cafe_row] (py "Санкт-Петербург") (py "cafes")
               Sample.mapping [] [py "Россия, Санкт-Петербург"] (py "") true 0
               (Sample.world_of Sample.empty_tables) in
  raised_class run.1 = Some ZeroDivisionError
  /\ trace run.2 = [Savepoint; SelectServiceType; SelectCity]
  /\ current (sess run.2) = Sample.empty_tables
  /\ results (vars run.2) = [py ""].
Proof.
  refine (add_objects_log_n_zero (py "Санкт-Петербург") (py "cafes") Sample.mapping []
            [py "Россия, Санкт-Петербург"] (py "") Sample.cafe_row [] true
            (Sample.world_of Sample.empty_tables) eq_refl _ _).
  - exists 1. vm_compute. reflexivity.
  - exists (11, false). vm_compute. reflexivity.
Defined.

End BatchWitnesses.

(** ** Dry runs *)

(** [sending] for a computation in which [commit] is [False]. *)
Ltac sending_dry :=
  repeat first
    [ apply sends_ret | apply sends_raise | apply sends_lift | apply sends_with_vars
    | apply sends_randint
    | apply sends_bind; [|intros ?]
    | apply sends_try; [|intros ?]
    | apply sends_execute
    | match goal with
      | |- sends _ (if false then _ else _) => cbv iota
      | |- sends _ (match ?x with _ => _ end) => destruct x
      | |- sends _ (if ?b then _ else _) => destruct b
      | |- sends _ (fun w => (Ret _, w)) =>
          let w := fresh "w" in intros w; exists []; split; [reflexivity | constructor]
      end
    | progress unfold query, blob_parameters, point_parameters, update_geometry,
        rollback_row, conn_commit, conn_rollback, SAVEPOINT_previous_object,
        ROLLBACK_TO_previous_object, get_vars ].

Section CommittedRules.
Context `{RT : PyRuntime} `{GIS : PostGIS}.

Lemma committed_ret {A} (a : A) : keeps_committed (ret a).
Proof. intros w. reflexivity. Qed.

Lemma committed_raise {A} e : keeps_committed (raise e : M A).
Proof. intros w. reflexivity. Qed.

Lemma committed_lift {A} (r : result A) : keeps_committed (lift r).
Proof. intros w. reflexivity. Qed.

Lemma committed_with_vars f : keeps_committed (with_vars f).
Proof. intros w. reflexivity. Qed.

Lemma committed_read {A} (f : world -> A) : keeps_committed (fun w => (Ret (f w), w)).
Proof. intros w. reflexivity. Qed.

Lemma committed_randint a b : keeps_committed (randint a b).
Proof.
  intros w. unfold randint. destruct a, b; try reflexivity.
  destruct (_ <? _); reflexivity.
Qed.

Lemma committed_execute {A} st (run : session -> result A * session) :
  (forall s, committed (run s).2 = committed s) -> keeps_committed (execute st run).
Proof.
  intros Hrun w. unfold execute.
  destruct (faults w) as [|[e|] rest]; cbn; try reflexivity;
    specialize (Hrun (sess w)); destruct (run (sess w)); exact Hrun.
Qed.

Lemma committed_bind {A B} (m : M A) (k : A -> M B) :
  keeps_committed m -> (forall a, keeps_committed (k a)) -> keeps_committed (bind m k).
Proof.
  intros Hm Hk w. unfold bind. specialize (Hm w).
  destruct (m w) as [[a|e] w1]; cbn in *; [rewrite Hk|]; exact Hm.
Qed.

Lemma committed_try {A} (m : M A) handler :
  keeps_committed m -> (forall e, keeps_committed (handler e)) ->
  keeps_committed (try_except_RuntimeError m handler).
Proof.
  intros Hm Hh w. unfold try_except_RuntimeError. specialize (Hm w).
  destruct (m w) as [[a|e] w1]; cbn in *; [exact Hm|].
  destruct (is_RuntimeError (exn_cls e)); [rewrite Hh|]; exact Hm.
Qed.

Lemma committed_try_KeyboardInterrupt (m handler orelse : M unit) :
  keeps_committed m -> keeps_committed handler -> keeps_committed orelse ->
  keeps_committed (try_except_KeyboardInterrupt m handler orelse).
Proof.
  intros Hm Hh Ho w. unfold try_except_KeyboardInterrupt. specialize (Hm w).
  destruct (m w) as [[a|e] w1]; cbn in *; [rewrite Ho; exact Hm|].
  destruct (decide (exn_cls e = KeyboardInterrupt)); [rewrite Hh|]; exact Hm.
Qed.

End CommittedRules.

(** Decomposes a goal [keeps_committed m], for a computation in which
    [commit] is [False], along the structure of [m]. *)
Ltac committing_nothing :=
  repeat first
    [ apply committed_ret | apply committed_raise | apply committed_lift
    | apply committed_with_vars | apply committed_randint
    | apply committed_bind; [|intros ?]
    | apply committed_try; [|intros ?]
    | apply committed_execute; intros ?;
      first [reflexivity
            | destruct (ST_GeomFromGeoJSON _); reflexivity
            | unfold do_rollback_to; destruct (rollback_to _ _) as [[? ?]|]; reflexivity ]
    | match goal with
      | |- keeps_committed (if false then _ else _) => cbv iota
      | |- keeps_committed (match ?x with _ => _ end) => destruct x
      | |- keeps_committed (if ?b then _ else _) => destruct b
      | |- keeps_committed (fun w => (Ret _, w)) => apply committed_read
      end
    | progress unfold query, blob_parameters, point_parameters, update_geometry,
        rollback_row, conn_rollback, SAVEPOINT_previous_object,
        ROLLBACK_TO_previous_object, get_vars ].

Section DryRun.
Context `{RT : PyRuntime} `{GIS : PostGIS}.
Local Open Scope monad_scope.
Variables (city_name service_type : pystr) (mapping : InsertionMapping)
          (properties_mapping : list (pystr * pystr))
          (address_prefixes : list pystr) (new_prefix : pystr).

Lemma sends_try_KeyboardInterrupt P (m handler orelse : M unit) :
  sends P m -> sends P handler -> sends P orelse ->
  sends P (try_except_KeyboardInterrupt m handler orelse).
Proof.
  intros Hm Hh Ho w. unfold try_except_KeyboardInterrupt.
  destruct (Hm w) as (n1 & E1 & F1). destruct (m w) as [[a|e] w1]; cbn in *.
  - destruct (Ho w1) as (n2 & E2 & F2). exists (n2 ++ n1). split.
    + rewrite E2, E1. apply app_assoc.
    + apply Forall_app. auto.
  - destruct (decide (exn_cls e = KeyboardInterrupt)); [|exists n1; auto].
    destruct (Hh w1) as (n2 & E2 & F2). exists (n2 ++ n1). split.
    + rewrite E2, E1. apply app_assoc.
    + apply Forall_app. auto.
Qed.

Lemma sends_row_step_dry (prefixes : list pystr) (city_id service_type_id : Z)
    (is_service_building : bool)
    (log_n : Z) (idx : nat) (row : Series) :
  sends (fun st => ~ transaction_control st)
    (row_step service_type mapping properties_mapping prefixes new_prefix
       false city_id service_type_id is_service_building log_n idx row).
Proof.
  unfold row_step, checkpoint, row_attempt, row_failed, row_body, row_coordinates,
    row_address, row_upsert, building_container, physical_container, new_container,
    lookup_by_address, lookup_building_by_geometry, lookup_physical_object,
    found_by_address, found_building_by_geometry, found_physical_object,
    update_existing, insert_object, update_object.
  sending_dry; intros [H | [H | H]]; discriminate H.
Qed.

Lemma committed_row_step_dry (prefixes : list pystr) (city_id service_type_id : Z)
    (is_service_building : bool)
    (log_n : Z) (idx : nat) (row : Series) :
  keeps_committed
    (row_step service_type mapping properties_mapping prefixes new_prefix
       false city_id service_type_id is_service_building log_n idx row).
Proof.
  unfold row_step, checkpoint, row_attempt, row_failed, row_body, row_coordinates,
    row_address, row_upsert, building_container, physical_container, new_container,
    lookup_by_address, lookup_building_by_geometry, lookup_physical_object,
    found_by_address, found_building_by_geometry, found_physical_object,
    update_existing, insert_object, update_object.
  committing_nothing.
Qed.

Lemma rows_loop_dry (prefixes : list pystr) (city_id service_type_id : Z)
    (is_service_building : bool)
    (log_n : Z) (idx : nat) (rows : list Series) :
  sends (fun st => ~ transaction_control st)
    (rows_loop service_type mapping properties_mapping prefixes new_prefix
       false city_id service_type_id is_service_building log_n idx rows)
  /\ keeps_committed
       (rows_loop service_type mapping properties_mapping prefixes new_prefix
          false city_id service_type_id is_service_building log_n idx rows).
Proof.
  revert idx. induction rows as [|row rows IH]; intros idx; cbn [rows_loop].
  - split; [apply sends_ret | apply committed_ret].
  - destruct (IH (S idx)) as [IHs IHc]. split.
    + apply sends_bind; [apply sends_row_step_dry | intros _; exact IHs].
    + apply committed_bind; [apply committed_row_step_dry | intros _; exact IHc].
Qed.

(** X14.  A dry run ([commit = False]) commits nothing, whether
    [add_objects] returns or raises: it sends no [COMMIT], no [SAVEPOINT]
    and no [ROLLBACK TO], and what is committed in the database is what was
    committed before the call. *)
Theorem dry_run_commits_nothing (objects : list Series) (log_n : Z) (w : world) :
  let run := add_objects objects city_name service_type mapping properties_mapping
               address_prefixes new_prefix false log_n w in
  (exists sent,
     trace run.2 = sent ++ trace w /\ Forall (fun st => ~ transaction_control st) sent)
  /\ committed (sess run.2) = committed (sess w).
Proof.
  intros run. subst run. split.
  - revert w.
    change (sends (fun st => ~ transaction_control st)
              (add_objects objects city_name service_type mapping properties_mapping
                 address_prefixes new_prefix false log_n)).
    unfold add_objects. sending_dry;
      try (intros [H | [H | H]]; discriminate H).
    apply sends_try_KeyboardInterrupt;
      [apply (proj1 (rows_loop_dry _ _ _ _ _ _ _))
      | unfold interrupted; sending_dry | sending_dry].
  - revert w.
    change (keeps_committed
              (add_objects objects city_name service_type mapping properties_mapping
                 address_prefixes new_prefix false log_n)).
    unfold add_objects. committing_nothing.
    apply committed_try_KeyboardInterrupt;
      [apply (proj2 (rows_loop_dry _ _ _ _ _ _ _))
      | unfold interrupted; committing_nothing | committing_nothing].
Qed.

(** X15.  A dry run, and a row whose body raises a [RuntimeError]: the
    handler calls [conn.rollback()], so when it is through the transaction
    sees the committed tables again.  Not only the failing row is undone
    but every row the run had written before it. *)
Theorem dry_run_failure_discards_the_run (prefixes : list pystr)
    (city_id service_type_id : Z)
    (is_service_building : bool) (row : Series) (w w1 w' : world) (e : exn) :
  row_body service_type mapping properties_mapping prefixes new_prefix false
    city_id service_type_id is_service_building row w = (Raise e, w1) ->
  is_RuntimeError (exn_cls e) = true ->
  row_attempt service_type mapping properties_mapping prefixes new_prefix false
    city_id service_type_id is_service_building row w = (Ret tt, w') ->
  current (sess w') = committed (sess w)
  /\ skipped (vars w') = skipped (vars w1) + 1
  /\ results (vars w')
     = <[i (vars w1) := py "Пропущен, вызывает ошибку: " ++ exn_msg e]> (results (vars w1)).
Proof.
  intros Hbody He Hrun.
  assert (Hc1 : committed (sess w1) = committed (sess w)).
  { assert (Hk : keeps_committed
                   (row_body service_type mapping properties_mapping prefixes
                      new_prefix false city_id service_type_id is_service_building row)).
    { unfold row_body, row_coordinates, row_address, row_upsert, building_container,
        physical_container, new_container, lookup_by_address,
        lookup_building_by_geometry, lookup_physical_object, found_by_address,
        found_building_by_geometry, found_physical_object, update_existing,
        insert_object, update_object.
      committing_nothing. }
    specialize (Hk w). now rewrite Hbody in Hk. }
  unfold row_attempt, try_except_RuntimeError in Hrun. rewrite Hbody, He in Hrun.
  unfold row_failed, rollback_row in Hrun.
  apply bind_returns in Hrun as ([] & w2 & Hroll & Hrun).
  apply bind_returns in Hrun as ([] & w3 & Hmsg & Hrun).
  apply execute_returns in Hroll as (Hroll & _ & Hv2). injection Hroll as Hs2.
  apply with_vars_returns in Hmsg as (Hs3 & _ & Hv3).
  apply with_vars_returns in Hrun as (Hs4 & _ & Hv4).
  rewrite Hs4, Hs3, <- Hs2, Hv4, Hv3, Hv2. cbn. auto.
Qed.

End DryRun.

Section DryRunWitnesses.
Import Fixture.

Lemma dry_run_failure_discards_the_run_witness :
  let w := Scene.midway [Some (Exn RuntimeError (py "connection lost"))] in
  let run := row_attempt (py "cafes") Sample.mapping [] [] (py "") false 1 11 false
               Sample.bistro_row w in
  current (sess w) = Sample.cafe_tables
  /\ current (sess run.2) = Sample.empty_tables
  /\ skipped (vars run.2) = 1
  /\ results (vars run.2)
     = [py "Пропущен, вызывает ошибку: connection lost"; py ""; py ""].
Proof.
  intros w run. split; [reflexivity|].
  refine (dry_run_failure_discards_the_run (py "cafes") Sample.mapping [] (py "") []
            1 11 false Sample.bistro_row w
            (row_body (py "cafes") Sample.mapping [] [] (py "") false 1 11 false
               Sample.bistro_row w).2
            run.2 (Exn RuntimeError (py "connection lost")) _ eq_refl _).
  - exact (raised (row_body (py "cafes") Sample.mapping [] [] (py "") false 1 11 false
                     Sample.bistro_row w)
             (Exn RuntimeError (py "connection lost")) ltac:(vm_compute; reflexivity)).
  - exact (returned run tt ltac:(vm_compute; reflexivity)).
Defined.

End DryRunWitnesses.

(** ** [get_properties_keys] *)

Section KeysFacts.
Context `{GIS : PostGIS}.
Variable collate : pystr -> pystr -> bool.

(** X16.  The keys [get_properties_keys] returns for a service type, given
    by name or by code: no key twice, and exactly the keys that occur in
    the properties of a functional object of that service type.  For a
    service type that is not in the database the list is empty. *)
Theorem get_properties_keys_sound (city_service_type : pystr) (t : tables)
    (keys : list pystr) :
  get_properties_keys collate city_service_type t = Ret keys ->
  NoDup keys
  /\ forall k,
       k ∈ keys <->
       exists s fo,
         In s (city_service_types t)
         /\ (st_name s = city_service_type \/ st_code s = city_service_type)
         /\ In fo (functional_objects t)
         /\ fo_city_service_type_id fo = st_id s
         /\ is_Some (fo_properties fo !! k).
Proof.
  unfold get_properties_keys.
  set (named := fun s => pystr_eqb (st_name s) city_service_type
                         || pystr_eqb (st_code s) city_service_type).
  assert (Hnamed : forall s, named s = true <->
                     st_name s = city_service_type \/ st_code s = city_service_type).
  { intros s. unfold named, pystr_eqb. rewrite orb_true_iff, !bool_decide_eq_true.
    reflexivity. }
  destruct (List.filter named (city_service_types t)) as [|s [|s' rest]] eqn:Hst;
    [| |discriminate].
  - intros [= <-]. split; [constructor|]. intros k. split; [intros H; inversion H|].
    intros (s & fo & Hs & Hn & _). apply Hnamed in Hn.
    assert (Hin : In s (List.filter named (city_service_types t)))
      by (apply filter_In; auto).
    rewrite Hst in Hin. destruct Hin.
  - intros [= <-]. split.
    + rewrite merge_sort_Permutation. apply NoDup_remove_dups.
    + intros k. rewrite merge_sort_Permutation, elem_of_remove_dups,
        list_elem_of_bind.
      assert (Hs : In s (List.filter named (city_service_types t)))
        by (rewrite Hst; now left).
      apply filter_In in Hs as [Hs1 Hs2]. apply Hnamed in Hs2.
      split.
      * intros (fo & Hk & Hfo). apply list_elem_of_In, filter_In in Hfo as [Hfo Hid].
        apply Z.eqb_eq in Hid.
        apply list_elem_of_fmap in Hk as ([k' v] & -> & Hkv).
        apply elem_of_map_to_list in Hkv. exists s, fo. eauto 10.
      * intros (s0 & fo & Hs0 & Hn0 & Hfo & Hid & [v Hv]).
        assert (Hin : In s0 (List.filter named (city_service_types t)))
          by (apply filter_In; split; [assumption | now apply Hnamed]).
        rewrite Hst in Hin. destruct Hin as [<- | []].
        exists fo. split.
        -- apply list_elem_of_fmap. exists (k, v). split; [reflexivity|].
           now apply elem_of_map_to_list.
        -- apply list_elem_of_In, filter_In. split; [assumption | now apply Z.eqb_eq].
Qed.

End KeysFacts.

(** ** [load_objects] *)

Lemma rfind_from_absent c s idx last : c ∉ s -> rfind_from c s idx last = last.
Proof.
  revert idx last. induction s as [|x s IH]; intros idx last Hc; [reflexivity|].
  cbn. destruct (N.eqb_spec x c) as [->|_]; [exfalso; apply Hc; left|].
  apply IH. set_solver.
Qed.

Lemma rfind_from_last c stem ext idx last :
  c ∉ ext -> rfind_from c (stem ++ c :: ext) idx last = idx + Z.of_nat (length stem).
Proof.
  intros Hc. revert idx last. induction stem as [|x stem IH]; intros idx last; cbn.
  - rewrite N.eqb_refl, rfind_from_absent by exact Hc. lia.
  - rewrite IH. lia.
Qed.

(** The extension of a file name is what follows its last dot; a name
    without a dot is its own extension. *)
Lemma extension_after_dot stem ext :
  46%N ∉ ext -> extension (stem ++ 46%N :: ext) = ext.
Proof.
  intros Hdot. unfold extension, rfind, str_from. rewrite rfind_from_last by exact Hdot.
  replace (Z.to_nat (0 + Z.of_nat (length stem) + 1)) with (length (stem ++ [46%N]))
    by (rewrite length_app; cbn; lia).
  replace (stem ++ 46%N :: ext) with ((stem ++ [46%N]) ++ ext)
    by (now rewrite <- app_assoc).
  apply drop_app_length.
Qed.

Lemma extension_without_dot name : 46%N ∉ name -> extension name = name.
Proof.
  intros Hdot. unfold extension, rfind. now rewrite rfind_from_absent.
Qed.

Section LoadersFacts.
Variables frame defaults columns : Type.
Variables load_objects_csv load_objects_xlsx load_objects_excel load_objects_json
          load_objects_geojson : loader frame defaults columns.

(** X17.  [load_objects] picks the reader by what follows the last dot of
    the file name, compared as it is written: for [stem.ext] with a
    reader for [ext] that returns a frame, that frame is returned; the
    same holds for a file that is just called [ext]. *)
Theorem load_objects_by_extension (stem ext : pystr)
    (default_values : option defaults) (needed_columns : option columns)
    (reader : loader frame defaults columns) (res : frame) :
  46%N ∉ ext ->
  funcs frame defaults columns load_objects_csv load_objects_xlsx load_objects_excel
    load_objects_json load_objects_geojson !! ext = Some reader ->
  (reader (stem ++ 46%N :: ext) default_values needed_columns = Ret res ->
   load_objects frame defaults columns load_objects_csv load_objects_xlsx
     load_objects_excel load_objects_json load_objects_geojson
     (stem ++ 46%N :: ext) default_values needed_columns = Ret res)
  /\ (reader ext default_values needed_columns = Ret res ->
      load_objects frame defaults columns load_objects_csv load_objects_xlsx
        load_objects_excel load_objects_json load_objects_geojson
        ext default_values needed_columns = Ret res).
Proof.
  intros Hdot Hreader. unfold load_objects, loader in *. split; intros Hres.
  - rewrite extension_after_dot by exact Hdot. now rewrite Hreader, Hres.
  - rewrite extension_without_dot by exact Hdot. now rewrite Hreader, Hres.
Qed.

(** X18.  [load_objects] never raises [KeyError].  A file name whose
    extension has no reader raises [ValueError], and so does a reader that
    raises [KeyError] itself, such as a column of [needed_columns] that
    the file does not have: the message blames the extension. *)
Theorem load_objects_never_KeyError (filename : pystr)
    (default_values : option defaults) (needed_columns : option columns) :
  let readers := funcs frame defaults columns load_objects_csv load_objects_xlsx
                   load_objects_excel load_objects_json load_objects_geojson in
  let loaded := load_objects frame defaults columns load_objects_csv
                  load_objects_xlsx load_objects_excel load_objects_json
                  load_objects_geojson filename default_values needed_columns in
  raised_class loaded <> Some KeyError
  /\ (readers !! extension filename = None -> loaded = Raise (not_supported filename))
  /\ forall reader e,
       readers !! extension filename = Some reader ->
       reader filename default_values needed_columns = Raise e ->
       exn_cls e = KeyError ->
       loaded = Raise (not_supported filename).
Proof.
  intros readers loaded. subst loaded readers. unfold load_objects, loader in *.
  repeat split.
  - destruct (_ !! extension filename) as [reader|]; [|discriminate].
    destruct (reader filename default_values needed_columns) as [res|e]; [discriminate|].
    destruct (decide (exn_cls e = KeyError)) as [_|Hne]; [discriminate|].
    cbn. congruence.
  - now intros ->.
  - intros reader e -> -> He. now rewrite decide_True.
Qed.

End LoadersFacts.

(** ** [run_cli] *)

Lemma sorted_by_length_fixed (l : list pystr) :
  StronglySorted (fun a b => (length b <= length a)%nat) l -> sorted_by_length l = l.
Proof.
  unfold sorted_by_length. induction 1 as [|x l _ IH Hx]; [reflexivity|].
  cbn [foldr]. rewrite IH. destruct l as [|y l]; [reflexivity|]. cbn [insert_by_length].
  inversion Hx as [|? ? Hy _]; subst.
  destruct (length x <? length y)%nat eqn:Hlt; [|reflexivity].
  apply Nat.ltb_lt in Hlt. lia.
Qed.

Lemma insert_by_length_not_nil x l : insert_by_length x l <> [].
Proof.
  destruct l as [|y l]; cbn [insert_by_length]; [discriminate|].
  destruct (length x <? length y)%nat; discriminate.
Qed.

(** X19.  The prefixes [run_cli] hands to [add_objects] are never an
    empty list (the default prefix stands in for one), and they are sorted
    already: the sort at the head of [add_objects] leaves them as they
    are. *)
Theorem cli_address_prefixes_sorted (address_prefix : list pystr) :
  cli_address_prefixes address_prefix <> []
  /\ sorted_by_length (cli_address_prefixes address_prefix)
     = cli_address_prefixes address_prefix.
Proof.
  unfold cli_address_prefixes. destruct address_prefix as [|x l]; cbn [length Nat.eqb].
  - split; [discriminate | reflexivity].
  - split.
    + unfold sorted_by_length. cbn [foldr]. apply insert_by_length_not_nil.
    + apply sorted_by_length_fixed.
      unfold sorted_by_length. induction (x :: l) as [|y l' IH]; [constructor|].
      cbn [foldr]. now apply insert_by_length_sorted.
Qed.

Lemma find_from_first c key rest idx :
  c ∉ key -> find_from c (key ++ c :: rest) idx = idx + Z.of_nat (length key).
Proof.
  revert idx. induction key as [|x key IH]; intros idx Hc; cbn.
  - rewrite N.eqb_refl. lia.
  - destruct (N.eqb_spec x c) as [->|_]; [exfalso; apply Hc; left|].
    rewrite IH by set_solver. lia.
Qed.

Lemma properties_mapping_entry_splits (key value : pystr) :
  58%N ∉ key -> properties_mapping_entry (key ++ 58%N :: value) = (key, value).
Proof.
  intros Hkey. unfold properties_mapping_entry, str_find, str_until, str_after.
  rewrite find_from_first by exact Hkey.
  destruct (0 + Z.of_nat (length key) <? 0) eqn:H1; [apply Z.ltb_lt in H1; lia|].
  destruct (0 + Z.of_nat (length key) + 1 <? 0) eqn:H2; [apply Z.ltb_lt in H2; lia|].
  f_equal.
  - replace (Z.to_nat (0 + Z.of_nat (length key))) with (length key) by lia.
    apply take_app_length.
  - replace (Z.to_nat (0 + Z.of_nat (length key) + 1)) with (length (key ++ [58%N]))
      by (rewrite length_app; cbn; lia).
    replace (key ++ 58%N :: value) with ((key ++ [58%N]) ++ value)
      by (now rewrite <- app_assoc).
    apply drop_app_length.
Qed.

(** X20.  The [--properties_mapping] options of the command line are read
    as [key:column], split at the first colon: the options written for
    the pairs [(key, column)], with keys that have no colon, give back the
    dictionary of these pairs (a later pair for the same key wins), so a
    column name may itself contain colons. *)
Theorem properties_mapping_dict_round_trip (pairs : list (pystr * pystr)) :
  Forall (fun kv => 58%N ∉ kv.1) pairs ->
  properties_mapping_dict (map (fun kv => kv.1 ++ 58%N :: kv.2) pairs)
  = Some (dict_of_pairs pairs).
Proof.
  intros Hkeys. unfold properties_mapping_dict.
  assert (Hall : forallb (fun entry => cp_in entry 58%N)
                   (map (fun kv => kv.1 ++ 58%N :: kv.2) pairs) = true).
  { apply forallb_forall. intros entry Hin. apply in_map_iff in Hin as ([k v] & <- & _).
    unfold cp_in. apply existsb_exists. exists 58%N. split; [|reflexivity].
    apply in_or_app. right. now left. }
  rewrite Hall. do 2 f_equal. rewrite map_map. clear Hall.
  induction Hkeys as [|[k v] l Hk _ IH]; [reflexivity|]. cbn [map].
  rewrite IH. f_equal. now apply properties_mapping_entry_splits.
Qed.

Lemma properties_mapping_dict_round_trip_witness :
  properties_mapping_dict [py "site:contact:website"]
  = Some (dict_of_pairs [(py "site", py "contact:website")]).
Proof.
  apply (properties_mapping_dict_round_trip [(py "site", py "contact:website")]).
  constructor; [|constructor].
  apply (bool_decide_unpack (58%N ∉ py "site")). vm_compute. exact I.
Defined.

Section HelperWitnesses.
Import Fixture.

Lemma get_properties_keys_sound_witness :
  get_properties_keys Scene.by_code_points (py "cafes") Scene.cafe_with_properties
  = Ret [py "cuisine"; py "wifi"]
  /\ NoDup [py "cuisine"; py "wifi"].
Proof.
  assert (Hkeys : get_properties_keys Scene.by_code_points (py "cafes")
                    Scene.cafe_with_properties = Ret [py "cuisine"; py "wifi"])
    by (vm_compute; reflexivity).
  split; [exact Hkeys|].
  exact (proj1 (get_properties_keys_sound Scene.by_code_points (py "cafes")
                  Scene.cafe_with_properties _ Hkeys)).
Defined.

Lemma load_objects_by_extension_witness :
  let csv : loader (list Series) unit unit := fun _ _ _ => Ret [Sample.cafe_row] in
  let other : loader (list Series) unit unit := fun _ _ _ => Ret [] in
  load_objects (list Series) unit unit csv other other other other
    (py "cafes.2024.csv") None None = Ret [Sample.cafe_row]
  /\ load_objects (list Series) unit unit csv other other other other
       (py "csv") None None = Ret [Sample.cafe_row].
Proof.
  intros csv other.
  destruct (load_objects_by_extension (list Series) unit unit csv other other other
              other (py "cafes.2024") (py "csv") None None csv [Sample.cafe_row])
    as [Hdotted Hbare].
  - apply (bool_decide_unpack (46%N ∉ py "csv")). vm_compute. exact I.
  - vm_compute. reflexivity.
  - split; [exact (Hdotted eq_refl) | exact (Hbare eq_refl)].
Defined.

End HelperWitnesses.

(** ** [operations.update_physical_objects_locations]: the batches *)

Section Batches.
Import Operations.

Lemma ceil_div_covers (n d : nat) : (0 < d)%nat -> (n <= ceil_div n d * d)%nat.
Proof.
  intros Hd. unfold ceil_div.
  pose proof (Nat.div_mod (n + d - 1) d ltac:(lia)) as Hdm.
  pose proof (Nat.mod_upper_bound (n + d - 1) d ltac:(lia)) as Hr.
  nia.
Qed.

Lemma ceil_div_tight (n d b : nat) : (0 < d)%nat -> (b < ceil_div n d)%nat -> (b * d < n)%nat.
Proof.
  intros Hd Hb. unfold ceil_div in Hb.
  pose proof (Nat.div_mod (n + d - 1) d ltac:(lia)) as Hdm.
  nia.
Qed.

Lemma slices_concat (size k : nat) (l : list Z) :
  (length l <= k * size)%nat ->
  concat (map (fun b => take size (drop (b * size) l)) (seq 0 k)) = l.
Proof.
  revert l. induction k as [|k IH]; intros l Hl.
  - destruct l; [reflexivity | cbn in Hl; lia].
  - cbn [seq map concat]. rewrite <- seq_shift, map_map. cbn [Nat.mul Nat.add drop].
    transitivity (take size l ++ drop size l); [|apply take_drop]. f_equal.
    rewrite <- (IH (drop size l)) by (rewrite length_drop; lia).
    f_equal. apply map_ext. intros b. rewrite drop_drop. reflexivity.
Qed.

(** X21.  The batches in which [update_physical_objects_locations] sends
    the ids of the physical objects without a block: one after the other
    they are the list of ids, so every id is sent exactly once and in
    order; no batch is empty, so the [IN] list of the [UPDATE] never is;
    and no batch has more than 2000 ids. *)
Theorem batches_partition (phys_ids : list Z) :
  concat (batches batch_size phys_ids) = phys_ids
  /\ Forall (fun batch => (0 < length batch <= batch_size)%nat)
       (batches batch_size phys_ids).
Proof.
  unfold batches. assert (Hd : (0 < batch_size)%nat) by (unfold batch_size; lia).
  generalize dependent batch_size. intros size Hd. split.
  - apply slices_concat. now apply ceil_div_covers.
  - apply Forall_forall. intros batch Hin.
    apply list_elem_of_fmap in Hin as (b & -> & Hb).
    apply list_elem_of_In, in_seq in Hb as [_ Hb]. cbn in Hb.
    apply ceil_div_tight in Hb; [|exact Hd].
    rewrite length_take, length_drop. lia.
Qed.

End Batches.

(** ** [SQLType.cast]: what it raises *)

Section CastErrors.
Context `{RT : PyRuntime}.

Lemma py_float_raises_class v e :
  py_float v = Raise e ->
  exn_cls e = ValueError \/ exn_cls e = TypeError \/ exn_cls e = OverflowError.
Proof.
  destruct v; cbn; try discriminate; try (intros [= <-]; cbn; auto).
  - unfold float_of_Z. destruct (binary_normalize _ _ _ _ _); try discriminate.
    intros [= <-]. cbn. auto.
  - destruct (float_of_str s); [discriminate|]. intros [= <-]. cbn. auto.
Qed.

Lemma int_of_float_raises_class x e :
  int_of_float x = Raise e ->
  exn_cls e = ValueError \/ exn_cls e = TypeError \/ exn_cls e = OverflowError.
Proof.
  unfold int_of_float. destruct (Prim2SF x); try discriminate;
    intros [= <-]; cbn; auto.
Qed.

(** X22.  The exceptions that leave [cast], its own handler being for
    [RuntimeError] only, for a cell that is [None], a [bool], an [int], a
    [float], a [str] or a [struct_time].  Casting to [VARCHAR] or
    [BOOLEAN] never raises.  Casting to [TIMESTAMP] raises [ValueError]
    only, and only for a value that is no [struct_time].  Casting to
    [INT], [SMALLINT] or [DOUBLE] raises what [float] and [int] raise:
    [ValueError], [TypeError] or [OverflowError].  Nothing is stated of
    [JSONB], where [json.dumps] decides. *)
Theorem cast_raises (self : SQLType) (value : pyval) (e : exn) :
  cast self value = Raise e ->
  match self with
  | VARCHAR | BOOLEAN => False
  | TIMESTAMP => exn_cls e = ValueError /\ forall t, value <> PyTime t
  | INT | SMALLINT | DOUBLE =>
      exn_cls e = ValueError \/ exn_cls e = TypeError \/ exn_cls e = OverflowError
  | JSONB => True
  end.
Proof.
  unfold cast. destruct (is_null value); [discriminate|].
  destruct (cast_try self value) as [r|e'] eqn:Htry; [discriminate|].
  destruct (is_RuntimeError (exn_cls e')) eqn:Hr; [discriminate|].
  intros [= ->]. unfold cast_try in Htry.
  destruct self; cbn in Htry.
  - destruct (py_float value) as [x|e1] eqn:Hf.
    + destruct (int_of_float x) as [n|e2] eqn:Hi; [discriminate|].
      injection Htry as ->. eapply int_of_float_raises_class, Hi.
    + injection Htry as ->. eapply py_float_raises_class, Hf.
  - injection Htry as <-. discriminate Hr.
  - destruct (py_float value) as [x|e1] eqn:Hf; [discriminate|].
    injection Htry as ->. eapply py_float_raises_class, Hf.
  - destruct value; try discriminate; injection Htry as <-; discriminate Hr.
  - destruct (py_float value) as [x|e1] eqn:Hf.
    + destruct (int_of_float x) as [n|e2] eqn:Hi; [discriminate|].
      injection Htry as ->. eapply int_of_float_raises_class, Hi.
    + injection Htry as ->. eapply py_float_raises_class, Hf.
  - exact I.
  - destruct value; try discriminate; injection Htry as <-;
      (split; [reflexivity | discriminate]).
Qed.

End CastErrors.

Lemma cast_raises_witness :
  raised_class (cast (RT := Fixture.runtime) TIMESTAMP (PyStr (py "2024-01-02")))
  = Some ValueError.
Proof.
  destruct (cast (RT := Fixture.runtime) TIMESTAMP (PyStr (py "2024-01-02")))
    as [r|e] eqn:Hcast.
  - exfalso. vm_compute in Hcast. discriminate.
  - cbn. f_equal.
    exact (proj1 (cast_raises (RT := Fixture.runtime) TIMESTAMP
                    (PyStr (py "2024-01-02")) e Hcast)).
Defined.
